(** * PartySnap notifications: dispatch engine and read-through caches

    A shallow embedding of the notification service (templates, rate
    limiting, device routing, provider adapters, the relational store
    helpers) and of the cache layers (key-value wrapper, participants
    cache, photo URL cache), followed by the properties established
    about them.

    Conventions.  Asynchronous functions are written in direct style:
    every [await] is a sequence point and the functions modelled here
    never interleave inside one call.  A JavaScript exception is the
    [Throw] constructor of [result].  Objects used as dictionaries are
    [gmap string _]; arrays are lists.  The relational store, the
    key-value store, the clock and the provider SDKs are explicit
    arguments. *)

From stdpp Require Import gmap strings list fin_maps pretty.
From Stdlib Require Import ZArith Lia Ascii.

Open Scope Z_scope.
Open Scope string_scope.

(** ** Results of fallible code *)

Inductive result (A : Type) : Type :=
| Ok (a : A)
| Throw (message : string).
Arguments Ok {A} a.
Arguments Throw {A} message.

(** The value of a call that returned normally. *)
Definition returned {A} (r : result A) : option A :=
  match r with Ok a => Some a | Throw _ => None end.

(** ** JavaScript values carried by notification payloads *)

Module Js.

(** Numbers are integers here; payload magnitudes (like counts, minutes)
    are integers in every caller of the service. *)
Inductive JsVal : Type :=
| JUndefined
| JNull
| JBool (b : bool)
| JNum (n : Z)
| JStr (s : string).

Definition JsVal_eqb (a b : JsVal) : bool :=
  match a, b with
  | JUndefined, JUndefined => true
  | JNull, JNull => true
  | JBool x, JBool y => Bool.eqb x y
  | JNum x, JNum y => Z.eqb x y
  | JStr x, JStr y => String.eqb x y
  | _, _ => false
  end.

(** [!!v] *)
Definition truthy (v : JsVal) : bool :=
  match v with
  | JUndefined | JNull => false
  | JBool b => b
  | JNum n => negb (Z.eqb n 0)
  | JStr s => negb (String.eqb s "")
  end.

(** [v === undefined || v === null] *)
Definition nullish (v : JsVal) : bool :=
  match v with
  | JUndefined | JNull => true
  | _ => false
  end.

(** [a || b] *)
Definition or_else (a b : JsVal) : JsVal := if truthy a then a else b.

(** [a ?? b] *)
Definition coalesce (a b : JsVal) : JsVal := if nullish a then b else a.

(** [obj[key]]: a missing property reads as [undefined]. *)
Definition get (obj : gmap string JsVal) (key : string) : JsVal :=
  default JUndefined (obj !! key).

Definition digit_of (c : Ascii.ascii) : option Z :=
  let n := Z.of_nat (Ascii.nat_of_ascii c) in
  if Z.leb 48 n && Z.leb n 57 then Some (n - 48) else None.

Fixpoint digits_value (s : string) (acc : Z) : option Z :=
  match s with
  | EmptyString => Some acc
  | String c rest =>
      match digit_of c with
      | Some d => digits_value rest (10 * acc + d)
      | None => None
      end
  end.

(** [Number(s)] for the decimal integer spellings; any other spelling is
    [NaN], rendered as [None]. *)
Definition string_to_number (s : string) : option Z :=
  match s with
  | EmptyString => Some 0
  | String c rest =>
      if Ascii.eqb c "-"%char && negb (String.eqb rest "")
      then Z.opp <$> digits_value rest 0
      else digits_value s 0
  end.

(** [Number(v)], with [None] for [NaN]. *)
Definition to_number (v : JsVal) : option Z :=
  match v with
  | JUndefined => None
  | JNull => Some 0
  | JBool b => Some (if b then 1 else 0)
  | JNum n => Some n
  | JStr s => string_to_number s
  end.

(** [v >= k] for a numeric literal [k]; a comparison with [NaN] is false. *)
Definition ge (v : JsVal) (k : Z) : bool :=
  match to_number v with
  | Some n => Z.leb k n
  | None => false
  end.

(** [`${v}`] *)
Definition to_string (v : JsVal) : string :=
  match v with
  | JUndefined => "undefined"
  | JNull => "null"
  | JBool b => if b then "true" else "false"
  | JNum n => pretty n
  | JStr s => s
  end.

(** [xs.join(sep)] *)
Fixpoint join (sep : string) (xs : list string) : string :=
  match xs with
  | [] => ""
  | [x] => x
  | x :: rest => x +:+ sep +:+ join sep rest
  end.

(** [s.startsWith(p)] *)
Definition startsWith (s p : string) : bool := String.prefix p s.

(** [s.includes(p)] *)
Definition includes (s p : string) : bool :=
  match String.index 0 p s with Some _ => true | None => false end.

(** [s.replace('_', '')]: only the first underscore is removed. *)
Fixpoint remove_first_underscore (s : string) : string :=
  match s with
  | EmptyString => EmptyString
  | String c rest =>
      if Ascii.eqb c "_"%char then rest
      else String c (remove_first_underscore rest)
  end.

End Js.
Import Js.

Abbreviation Data := (gmap string JsVal).

(** ** templates.js *)

Module Templates.

Record Template : Type := {
  t_title : Data -> string;
  t_body : Data -> string;
  t_type : string;
  t_priority : string;
  t_channel : string;
  t_sound : string;
  t_vibration : bool
}.

Definition photo_liked_title (data : Data) : string :=
  let count := or_else (get data "likeCount") (JNum 1) in
  if ge count 100 then "Your photo is on fire! 🔥"
  else if ge count 50 then "Your photo is trending! ⭐"
  else if ge count 20 then "Your photo is popular! 👏"
  else if ge count 10 then "People love your photo! ❤️"
  else "Someone liked your photo! 👍".

Definition photo_liked_body (data : Data) : string :=
  let count := or_else (get data "likeCount") (JNum 1) in
  let eventName := or_else (get data "eventName") (JStr "your event") in
  if ge count 100 then
    to_string count +:+ " likes and counting at " +:+ to_string eventName +:+ "!"
  else if ge count 50 then
    to_string count +:+ " people have liked your photo from " +:+ to_string eventName
  else if ge count 20 then
    to_string count +:+ " likes on your photo from " +:+ to_string eventName
  else if ge count 10 then
    to_string count +:+ " people liked your photo from " +:+ to_string eventName
  else "Your photo from " +:+ to_string eventName +:+ " got a new like".

Definition photo_liked : Template := {|
  t_title := photo_liked_title;
  t_body := photo_liked_body;
  t_type := "photo_liked";
  t_priority := "high";
  t_channel := "photo-likes";
  t_sound := "default";
  t_vibration := true
|}.

Definition gallery_unlocked : Template := {|
  t_title := fun _ => "Gallery unlocked! 📸";
  t_body := fun data =>
    let eventName := or_else (get data "eventName") (JStr "your event") in
    "Photos from " +:+ to_string eventName +:+ " are now available to view and download";
  t_type := "gallery_unlocked";
  t_priority := "high";
  t_channel := "community";
  t_sound := "default";
  t_vibration := true
|}.

Definition community_milestone : Template := {|
  t_title := fun data =>
    let milestone := or_else (get data "milestone") (JNum 100) in
    to_string milestone +:+ " photos milestone! 🎉";
  t_body := fun data =>
    let eventName := or_else (get data "eventName") (JStr "your event") in
    let milestone := or_else (get data "milestone") (JNum 100) in
    to_string eventName +:+ " just reached " +:+ to_string milestone
      +:+ " amazing photos shared by the community";
  t_type := "community_milestone";
  t_priority := "medium";
  t_channel := "community";
  t_sound := "default";
  t_vibration := false
|}.

Definition event_live : Template := {|
  t_title := fun _ => "Event is live! 🎉";
  t_body := fun data =>
    let eventName := or_else (get data "eventName") (JStr "Your event") in
    to_string eventName +:+ " has started! Start capturing and sharing memories";
  t_type := "event_live";
  t_priority := "high";
  t_channel := "event-updates";
  t_sound := "event_start";
  t_vibration := true
|}.

Definition event_starting : Template := {|
  t_title := fun _ => "Event starting soon! ⏰";
  t_body := fun data =>
    let eventName := or_else (get data "eventName") (JStr "Your event") in
    let minutes := or_else (get data "minutesUntilStart") (JNum 15) in
    to_string eventName +:+ " starts in " +:+ to_string minutes
      +:+ " minutes. Get ready to capture memories!";
  t_type := "event_starting";
  t_priority := "high";
  t_channel := "event-updates";
  t_sound := "default";
  t_vibration := true
|}.

Definition event_reminder : Template := {|
  t_title := fun _ => "Don't forget your event! 📅";
  t_body := fun data =>
    let eventName := or_else (get data "eventName") (JStr "Your event") in
    let hours := or_else (get data "hoursUntilStart") (JNum 1) in
    to_string eventName +:+ " is in " +:+ to_string hours +:+ " "
      +:+ (if JsVal_eqb hours (JNum 1) then "hour" else "hours")
      +:+ ". Make sure you're ready!";
  t_type := "event_reminder";
  t_priority := "medium";
  t_channel := "event-updates";
  t_sound := "gentle_reminder";
  t_vibration := false
|}.

Definition peak_activity : Template := {|
  t_title := fun _ => "Peak activity happening! ⚡";
  t_body := fun data =>
    let eventName := or_else (get data "eventName") (JStr "your event") in
    let photoCount := or_else (get data "recentPhotoCount") (JStr "Many") in
    to_string photoCount +:+ " photos shared in the last hour at "
      +:+ to_string eventName +:+ ". Join the action!";
  t_type := "peak_activity";
  t_priority := "low";
  t_channel := "peak-activity";
  t_sound := "subtle";
  t_vibration := false
|}.

(** The seven canonical notification types. *)
Definition canonical_types : list string :=
  [ "photo_liked"; "gallery_unlocked"; "community_milestone"; "event_live";
    "event_starting"; "event_reminder"; "peak_activity" ].

(** [NOTIFICATION_TEMPLATES[type]]; names inherited from [Object.prototype]
    are not notification types and are left out of the table. *)
Definition NOTIFICATION_TEMPLATES (type : string) : option Template :=
  if String.eqb type "photo_liked" then Some photo_liked
  else if String.eqb type "gallery_unlocked" then Some gallery_unlocked
  else if String.eqb type "community_milestone" then Some community_milestone
  else if String.eqb type "event_live" then Some event_live
  else if String.eqb type "event_starting" then Some event_starting
  else if String.eqb type "event_reminder" then Some event_reminder
  else if String.eqb type "peak_activity" then Some peak_activity
  else None.

Record Notification : Type := {
  n_type : string;
  n_title : string;
  n_body : string;
  n_priority : string;
  n_channel : string;
  n_sound : string;
  n_vibration : bool;
  n_imageUrl : JsVal;
  n_data : Data
}.

(** [buildNotification(type, data)]; [timestamp] is
    [new Date().toISOString()] at the time of the call. *)
Definition buildNotification (timestamp : string) (type : string) (data : Data)
  : result Notification :=
  match NOTIFICATION_TEMPLATES type with
  | None => Throw ("Unknown notification type: " +:+ type)
  | Some template =>
      Ok {| n_type := t_type template;
            n_title := t_title template data;
            n_body := t_body template data;
            n_priority := t_priority template;
            n_channel := t_channel template;
            n_sound := t_sound template;
            n_vibration := t_vibration template;
            n_imageUrl := or_else (get data "imageUrl") JNull;
            n_data := <["timestamp" := JStr timestamp]>
                        (<["notificationType" := JStr (t_type template)]> data) |}
  end.

(** The [required] table of [validateNotificationData]; an unknown type
    has no required field ([required[type] || []]). *)
Definition required (type : string) : list string :=
  if String.eqb type "photo_liked" then ["eventName"; "likeCount"]
  else if String.eqb type "gallery_unlocked" then ["eventName"]
  else if String.eqb type "community_milestone" then ["eventName"; "milestone"]
  else if String.eqb type "event_live" then ["eventName"]
  else if String.eqb type "event_starting" then ["eventName"; "minutesUntilStart"]
  else if String.eqb type "event_reminder" then ["eventName"; "hoursUntilStart"]
  else if String.eqb type "peak_activity" then ["eventName"; "recentPhotoCount"]
  else [].

(** [requiredFields.filter(field => !data[field])] *)
Definition missing_fields (type : string) (data : Data) : list string :=
  List.filter (fun field => negb (truthy (get data field))) (required type).

Definition validateNotificationData (type : string) (data : Data) : result bool :=
  match missing_fields type data with
  | [] => Ok true
  | missing =>
      Throw ("Missing required data for " +:+ type +:+ ": " +:+ join ", " missing)
  end.

Record Settings : Type := {
  enabled : bool;
  batchEnabled : bool;
  quietHours : bool
}.

Definition DEFAULT_SETTINGS (type : string) : option Settings :=
  if String.eqb type "photo_liked" then
    Some {| enabled := true; batchEnabled := true; quietHours := true |}
  else if String.eqb type "gallery_unlocked" then
    Some {| enabled := true; batchEnabled := false; quietHours := false |}
  else if String.eqb type "community_milestone" then
    Some {| enabled := true; batchEnabled := true; quietHours := true |}
  else if String.eqb type "event_live" then
    Some {| enabled := true; batchEnabled := false; quietHours := false |}
  else if String.eqb type "event_starting" then
    Some {| enabled := true; batchEnabled := false; quietHours := false |}
  else if String.eqb type "event_reminder" then
    Some {| enabled := true; batchEnabled := false; quietHours := true |}
  else if String.eqb type "peak_activity" then
    Some {| enabled := true; batchEnabled := true; quietHours := true |}
  else None.

End Templates.

(** ** Loops over fixed-size slices

    [for (let i = 0; i < xs.length; i += size) { xs.slice(i, i + size) ... }] *)

Fixpoint slices_fuel {A} (fuel : nat) (size : nat) (xs : list A) : list (list A) :=
  match fuel with
  | O => []
  | S fuel' =>
      match xs with
      | [] => []
      | _ => take size xs :: slices_fuel fuel' size (drop size xs)
      end
  end.

Definition slices {A} (size : nat) (xs : list A) : list (list A) :=
  slices_fuel (length xs) size xs.

Definition sumZ (xs : list Z) : Z := foldr Z.add 0 xs.

Definition lenZ {A} (xs : list A) : Z := Z.of_nat (length xs).

(** ** supabase.js and the stored procedure it calls *)

Module Supabase.

(** A row of [notification_preferences]; [TIME] columns are seconds since
    midnight.  Columns hold non-null values, as the table defaults give. *)
Record PreferencesRow : Type := {
  pr_id : string;
  pr_user_id : string;
  pr_photo_likes : bool;
  pr_community_activity : bool;
  pr_event_updates : bool;
  pr_peak_activity : bool;
  pr_batch_mode : bool;
  pr_quiet_hours_enabled : bool;
  pr_quiet_hours_start : Z;
  pr_quiet_hours_end : Z;
  pr_timezone : string;
  pr_created_at : string;
  pr_updated_at : string
}.

Record PushTokenRow : Type := {
  pt_user_id : string;
  pt_token : string;
  pt_platform : string;
  pt_device_id : string;
  pt_is_active : bool;
  pt_token_type : option string;
  pt_device_token : option string
}.

Record HistoryRow : Type := {
  h_id : string;
  h_user_id : string;
  h_notification_type : string;
  h_title : string;
  h_body : string;
  h_data : Data;
  h_event_id : JsVal;
  h_photo_id : JsVal;
  h_status : string
}.

Record Store : Type := {
  notification_preferences : gmap string PreferencesRow;
  push_tokens : list PushTokenRow;
  notification_history : list HistoryRow
}.

(** What the relational store does during one call that the code does not
    decide: which requests fail, the wall clock of the database session,
    and the identifiers it generates. *)
Record Backend : Type := {
  rpc_fails : bool;
  preferences_query_fails : bool;
  tokens_query_fails : bool;
  history_insert_fails : bool;
  deactivate_fails : bool;
  local_time : string -> Z;
  gen_random_uuid : string;
  sql_now : string
}.

(** [INSERT INTO notification_preferences (user_id) VALUES (user_uuid)]:
    every other column takes its declared default. *)
Definition default_row (b : Backend) (user_uuid : string) : PreferencesRow := {|
  pr_id := gen_random_uuid b;
  pr_user_id := user_uuid;
  pr_photo_likes := true;
  pr_community_activity := true;
  pr_event_updates := true;
  pr_peak_activity := true;
  pr_batch_mode := false;
  pr_quiet_hours_enabled := false;
  pr_quiet_hours_start := 22 * 3600;
  pr_quiet_hours_end := 7 * 3600;
  pr_timezone := "UTC";
  pr_created_at := sql_now b;
  pr_updated_at := sql_now b
|}.

Definition with_preferences (db : Store)
    (prefs : gmap string PreferencesRow) : Store := {|
  notification_preferences := prefs;
  push_tokens := push_tokens db;
  notification_history := notification_history db
|}.

(** The stored procedure [should_send_notification(user_uuid)]. *)
Definition should_send_notification (b : Backend) (db : Store)
    (user_uuid : string) : bool * Store :=
  match notification_preferences db !! user_uuid with
  | None =>
      (true,
       with_preferences db
         (<[user_uuid := default_row b user_uuid]> (notification_preferences db)))
  | Some prefs =>
      if pr_quiet_hours_enabled prefs then
        let current_time := local_time b (pr_timezone prefs) in
        if Z.ltb (pr_quiet_hours_start prefs) (pr_quiet_hours_end prefs) then
          if Z.leb (pr_quiet_hours_start prefs) current_time
             && Z.leb current_time (pr_quiet_hours_end prefs)
          then (false, db) else (true, db)
        else
          if Z.leb (pr_quiet_hours_start prefs) current_time
             || Z.leb current_time (pr_quiet_hours_end prefs)
          then (false, db) else (true, db)
      else (true, db)
  end.

(** [shouldSendNotification(userId)]: a failed call allows the send. *)
Definition shouldSendNotification (b : Backend) (db : Store)
    (userId : string) : bool * Store :=
  if rpc_fails b then (true, db)
  else should_send_notification b db userId.

Definition two_digits (n : Z) : string :=
  if Z.ltb n 10 then "0" +:+ pretty n else pretty n.

Definition time_text (seconds : Z) : string :=
  two_digits (seconds / 3600) +:+ ":" +:+ two_digits ((seconds / 60) mod 60)
    +:+ ":" +:+ two_digits (seconds mod 60).

(** The object the client library builds from a selected row. *)
Definition row_object (r : PreferencesRow) : Data :=
  list_to_map
    [ ("id", JStr (pr_id r));
      ("user_id", JStr (pr_user_id r));
      ("photo_likes", JBool (pr_photo_likes r));
      ("community_activity", JBool (pr_community_activity r));
      ("event_updates", JBool (pr_event_updates r));
      ("peak_activity", JBool (pr_peak_activity r));
      ("batch_mode", JBool (pr_batch_mode r));
      ("quiet_hours_enabled", JBool (pr_quiet_hours_enabled r));
      ("quiet_hours_start", JStr (time_text (pr_quiet_hours_start r)));
      ("quiet_hours_end", JStr (time_text (pr_quiet_hours_end r)));
      ("timezone", JStr (pr_timezone r));
      ("created_at", JStr (pr_created_at r));
      ("updated_at", JStr (pr_updated_at r)) ].

(** The literal returned by [getUserNotificationPreferences] on error. *)
Definition fallback_preferences : Data :=
  list_to_map
    [ ("photo_likes", JBool true);
      ("community_activity", JBool true);
      ("event_updates", JBool true);
      ("peak_activity", JBool true);
      ("batch_mode", JBool false);
      ("quiet_hours_enabled", JBool true);
      ("quiet_hours_start", JStr "22:00");
      ("quiet_hours_end", JStr "07:00");
      ("timezone", JStr "UTC") ].

(** [getUserNotificationPreferences(userId)]; [.single()] reports an error
    when no row matches. *)
Definition getUserNotificationPreferences (b : Backend) (db : Store)
    (userId : string) : Data :=
  if preferences_query_fails b then fallback_preferences
  else
    match notification_preferences db !! userId with
    | None => fallback_preferences
    | Some row => row_object row
    end.

(** The objects handed to the dispatch loop.  The query selects
    [token, platform, device_id] only, so the other two properties read
    as [undefined] ([None]) on the tokens it returns. *)
Record DeviceToken : Type := {
  token : string;
  platform : string;
  device_id : string;
  device_token : option string;
  token_type : option string
}.

Definition selected_columns (r : PushTokenRow) : DeviceToken := {|
  token := pt_token r;
  platform := pt_platform r;
  device_id := pt_device_id r;
  device_token := None;
  token_type := None
|}.

Definition getUserPushTokens (b : Backend) (db : Store)
    (userId : string) : list DeviceToken :=
  if tokens_query_fails b then []
  else
    selected_columns <$>
      List.filter (fun r => String.eqb (pt_user_id r) userId && pt_is_active r)
                  (push_tokens db).

(** The argument of [logNotificationHistory]. *)
Record HistoryInput : Type := {
  hi_userId : string;
  hi_type : string;
  hi_title : string;
  hi_body : string;
  hi_data : Data;
  hi_eventId : JsVal;
  hi_photoId : JsVal
}.

(** [logNotificationHistory(notificationData)]: the inserted row id, or
    [null] ([None]) when the insert fails. *)
Definition logNotificationHistory (b : Backend) (db : Store)
    (notificationData : HistoryInput) : option string * Store :=
  if history_insert_fails b then (None, db)
  else
    let row := {|
      h_id := gen_random_uuid b;
      h_user_id := hi_userId notificationData;
      h_notification_type := hi_type notificationData;
      h_title := hi_title notificationData;
      h_body := hi_body notificationData;
      h_data := hi_data notificationData;
      h_event_id := or_else (hi_eventId notificationData) JNull;
      h_photo_id := or_else (hi_photoId notificationData) JNull;
      h_status := "sent"
    |} in
    (Some (h_id row),
     {| notification_preferences := notification_preferences db;
        push_tokens := push_tokens db;
        notification_history := notification_history db ++ [row] |}).

Definition deactivate_row (tok : string) (r : PushTokenRow) : PushTokenRow :=
  if String.eqb (pt_token r) tok then
    {| pt_user_id := pt_user_id r;
       pt_token := pt_token r;
       pt_platform := pt_platform r;
       pt_device_id := pt_device_id r;
       pt_is_active := false;
       pt_token_type := pt_token_type r;
       pt_device_token := pt_device_token r |}
  else r.

(** [deactivatePushToken(token)]; [None] is the JavaScript [undefined],
    which matches no row. *)
Definition deactivatePushToken (b : Backend) (db : Store)
    (tok : option string) : bool * Store :=
  if deactivate_fails b then (false, db)
  else
    match tok with
    | None => (true, db)
    | Some t =>
        (true,
         {| notification_preferences := notification_preferences db;
            push_tokens := deactivate_row t <$> push_tokens db;
            notification_history := notification_history db |})
    end.

End Supabase.

(** ** expo-push.js: the batch adapter *)

Module ExpoPush.

Definition getChannelId (notificationType : string) : string :=
  if String.eqb notificationType "photo_liked" then "photo-likes"
  else if String.eqb notificationType "gallery_unlocked" then "community"
  else if String.eqb notificationType "community_milestone" then "community"
  else if String.eqb notificationType "event_live" then "event-updates"
  else if String.eqb notificationType "event_starting" then "event-updates"
  else if String.eqb notificationType "event_reminder" then "event-updates"
  else if String.eqb notificationType "peak_activity" then "peak-activity"
  else "default".

Definition getPriority (notificationType : string) : string :=
  if String.eqb notificationType "photo_liked"
     || String.eqb notificationType "event_live"
     || String.eqb notificationType "event_starting"
  then "high" else "default".

Definition getCategoryId (notificationType : string) : string :=
  if String.eqb notificationType "photo_liked" then "PHOTO_INTERACTION"
  else if String.eqb notificationType "gallery_unlocked" then "COMMUNITY_UPDATE"
  else if String.eqb notificationType "community_milestone" then "COMMUNITY_UPDATE"
  else if String.eqb notificationType "event_live" then "EVENT_UPDATE"
  else if String.eqb notificationType "event_starting" then "EVENT_UPDATE"
  else if String.eqb notificationType "event_reminder" then "EVENT_REMINDER"
  else if String.eqb notificationType "peak_activity" then "ACTIVITY_UPDATE"
  else "GENERAL".

(** A push message.  [m_ref] is the identity of the JavaScript object (the
    position at which [tokens.map] created it): the adapter looks a
    message up with [===], which compares identities, not contents. *)
Record Message : Type := {
  m_ref : nat;
  m_to : string;
  m_sound : string;
  m_title : string;
  m_body : string;
  m_data : Data;
  m_badge : Z;
  m_channelId : string;
  m_priority : string;
  m_categoryId : string;
  m_image : JsVal
}.

(** A push ticket: [status] and [details?.error]. *)
Record Ticket : Type := {
  status : string;
  details_error : option string
}.

Record BatchCounts : Type := {
  successCount : Z;
  failureCount : Z;
  invalidCount : Z;
  tokensToDeactivate : list string;
  tickets : list Ticket
}.

Inductive BatchResult : Type :=
| BatchSent (results : BatchCounts)                          (* success: true *)
| BatchRejected (error : string) (invalidTokens : list string). (* success: false *)

(** [xs.findIndex(p)] *)
Fixpoint findIndex {A} (p : A -> bool) (xs : list A) : option nat :=
  match xs with
  | [] => None
  | x :: rest => if p x then Some O else S <$> findIndex p rest
  end.

Definition make_message (timestamp : string) (notification : Templates.Notification)
    (data : Data) (ref : nat) (tok : string) : Message := {|
  m_ref := ref;
  m_to := tok;
  m_sound := "default";
  m_title := Templates.n_title notification;
  m_body := Templates.n_body notification;
  m_data := <["timestamp" := JStr timestamp]>
              (<["type" := JStr (Templates.n_type notification)]> data);
  m_badge := 1;
  m_channelId := getChannelId (Templates.n_type notification);
  m_priority := getPriority (Templates.n_type notification);
  m_categoryId := getCategoryId (Templates.n_type notification);
  m_image := or_else (Templates.n_imageUrl notification) JUndefined
|}.

(** The running totals of the send loop. *)
Record Totals : Type := {
  allTickets : list Ticket;
  successes : Z;
  failures : Z;
  deactivate : list string
}.

Section Sdk.

(** The Expo server SDK: the token format check, the chunking of a
    message list and the network call for one chunk. *)
Variable isExpoPushToken : string -> bool.
Variable chunkPushNotifications : list Message -> list (list Message).
Variable sendPushNotificationsAsync : list Message -> result (list Ticket).

(** The body of [tickets.forEach((ticket, index) => ...)]. *)
Definition count_ticket (messages : list Message) (validTokens : list string)
    (chunk : list Message) (index : nat) (ticket : Ticket) (t : Totals) : Totals :=
  if String.eqb (status ticket) "ok" then
    {| allTickets := allTickets t;
       successes := successes t + 1;
       failures := failures t;
       deactivate := deactivate t |}
  else
    let marked :=
      match details_error ticket with
      | Some e =>
          if String.eqb e "DeviceNotRegistered" then
            match chunk !! index with
            | Some sent =>
                match findIndex (fun m => Nat.eqb (m_ref m) (m_ref sent)) messages with
                | Some tokenIndex =>
                    match validTokens !! tokenIndex with
                    | Some tok => [tok]
                    | None => []
                    end
                | None => []
                end
            | None => []
            end
          else []
      | None => []
      end in
    {| allTickets := allTickets t;
       successes := successes t;
       failures := failures t + 1;
       deactivate := deactivate t ++ marked |}.

Fixpoint count_tickets (messages : list Message) (validTokens : list string)
    (chunk : list Message) (index : nat) (received : list Ticket) (t : Totals)
  : Totals :=
  match received with
  | [] => t
  | ticket :: rest =>
      count_tickets messages validTokens chunk (S index) rest
        (count_ticket messages validTokens chunk index ticket t)
  end.

(** One iteration of [for (const chunk of chunks)]. *)
Definition send_chunk (messages : list Message) (validTokens : list string)
    (t : Totals) (chunk : list Message) : Totals :=
  match sendPushNotificationsAsync chunk with
  | Ok received =>
      count_tickets messages validTokens chunk O received
        {| allTickets := allTickets t ++ received;
           successes := successes t;
           failures := failures t;
           deactivate := deactivate t |}
  | Throw _ =>
      {| allTickets := allTickets t;
         successes := successes t;
         failures := failures t + lenZ chunk;
         deactivate := deactivate t |}
  end.

Definition sendBatchExpoPushNotifications (timestamp : string)
    (tokens : list string) (notification : Templates.Notification) (data : Data)
  : BatchResult :=
  let validTokens := List.filter isExpoPushToken tokens in
  let invalidTokens := List.filter (fun t => negb (isExpoPushToken t)) tokens in
  match validTokens with
  | [] => BatchRejected "No valid Expo push tokens provided" invalidTokens
  | _ =>
      let messages := imap (make_message timestamp notification data) validTokens in
      let chunks := chunkPushNotifications messages in
      let t := foldl (send_chunk messages validTokens)
                     {| allTickets := []; successes := 0; failures := 0;
                        deactivate := [] |}
                     chunks in
      BatchSent {| successCount := successes t;
                   failureCount := failures t;
                   invalidCount := lenZ invalidTokens;
                   tokensToDeactivate := deactivate t;
                   tickets := allTickets t |}
  end.

End Sdk.

(** [result.results] of a batch that was sent. *)
Definition counts (r : BatchResult) : option BatchCounts :=
  match r with BatchSent c => Some c | BatchRejected _ _ => None end.

(** The provider classified the token invalid: some chunk was answered, and
    the ticket at the position of a message addressed to the token is an
    error ticket with [details.error = 'DeviceNotRegistered']. *)
Definition reported_unregistered (chunks : list (list Message))
    (sendPushNotificationsAsync : list Message -> result (list Ticket))
    (tok : string) : Prop :=
  exists chunk received index ticket sent,
    chunk ∈ chunks
    /\ sendPushNotificationsAsync chunk = Ok received
    /\ received !! index = Some ticket
    /\ chunk !! index = Some sent
    /\ m_to sent = tok
    /\ status ticket <> "ok"
    /\ details_error ticket = Some "DeviceNotRegistered".

End ExpoPush.

(** ** fcm.js: the legacy batch adapter *)

Module Fcm.

(** One entry of [response.responses]: [success] and [error?.code]. *)
Record SendResponse : Type := {
  sr_success : bool;
  sr_error_code : option string
}.

(** The SDK's answer to [sendMulticast]. *)
Record BatchResponse : Type := {
  br_successCount : Z;
  br_failureCount : Z;
  br_responses : list SendResponse
}.

(** One element of the [results] array the adapter returns. *)
Record BatchEntry : Type := {
  successCount : Z;
  failureCount : Z;
  responses : list SendResponse
}.

Inductive BatchResult : Type :=
| BatchSent (results : list BatchEntry)   (* success: true *)
| BatchFailed (error : string).           (* success: false *)

Section Sdk.

(** [initializeFirebase()] and [messaging.sendMulticast(message)], the
    message being built from the notification and the data and addressed
    to [tokens]. *)
Variable initializeFirebase : result unit.
Variable sendMulticast :
  Templates.Notification -> Data -> list string -> result BatchResponse.

(** The [for] loop over slices of 500 tokens; the first failing call
    leaves the loop through the enclosing [catch]. *)
Fixpoint send_batches (notification : Templates.Notification) (data : Data)
    (batches : list (list string)) (results : list BatchEntry)
  : result (list BatchEntry) :=
  match batches with
  | [] => Ok results
  | batch :: rest =>
      match sendMulticast notification data batch with
      | Ok response =>
          send_batches notification data rest
            (results ++ [ {| successCount := br_successCount response;
                             failureCount := br_failureCount response;
                             responses := br_responses response |} ])
      | Throw message => Throw message
      end
  end.

Definition sendBatchFCMNotifications (tokens : list string)
    (notification : Templates.Notification) (data : Data) : BatchResult :=
  match initializeFirebase with
  | Throw message => BatchFailed message
  | Ok _ =>
      match send_batches notification data (slices 500 tokens) [] with
      | Ok results => BatchSent results
      | Throw message => BatchFailed message
      end
  end.

End Sdk.

End Fcm.

(** ** notification-service.js *)

Module NotificationService.

Import Supabase.

(** *** What the four batch adapters hand back to the dispatch loop *)

(** One entry of the FCM v1 adapter's [results]: [success],
    [error] (a message) and [token]. *)
Record V1Entry : Type := {
  v1_success : bool;
  v1_error : option string;
  v1_token : option string
}.

Record V1Result : Type := {
  v1_successCount : Z;
  v1_failureCount : Z;
  v1_results : list V1Entry
}.

(** One failure reported by the APNs provider: [device] and [error]. *)
Record ApnsFailure : Type := {
  device : string;
  apns_error : string
}.

Record ApnsEntry : Type := {
  apns_successCount : Z;
  apns_failureCount : Z;
  apns_failed : list ApnsFailure
}.

Inductive ApnsResult : Type :=
| ApnsSent (results : list ApnsEntry)   (* success: true *)
| ApnsFailed (error : string).          (* success: false *)

(** The adapters imported by the service; each may also throw. *)
Record Providers : Type := {
  sendBatchExpoPushNotifications :
    list string -> Templates.Notification -> Data -> result ExpoPush.BatchResult;
  sendBatchFCMv1Notifications :
    list string -> Templates.Notification -> Data -> result V1Result;
  sendBatchFCMNotifications :
    list string -> Templates.Notification -> Data -> result Fcm.BatchResult;
  sendBatchAPNSNotifications :
    list string -> Templates.Notification -> Data -> result ApnsResult
}.

(** A call made to a provider adapter, with the tokens it was given. *)
Inductive ProviderCall : Type :=
| ExpoCall (tokens : list string)
| FcmV1Call (tokens : list string)
| FcmCall (tokens : list string)
| ApnsCall (tokens : list string).

(** The [results] object of [sendToDevices]; an [undefined] pushed on
    [invalidTokens] is [None]. *)
Record DeviceResults : Type := {
  total : Z;
  successful : Z;
  failed : Z;
  invalidTokens : list (option string)
}.

Definition is_expo (t : DeviceToken) : bool :=
  startsWith (token t) "ExponentPushToken".

Definition truthy_text (o : option string) : bool :=
  match o with Some s => negb (String.eqb s "") | None => false end.

(** [t.device_token || t.token_type === 'fcm_v1'] *)
Definition wants_v1 (t : DeviceToken) : bool :=
  truthy_text (device_token t)
  || match token_type t with Some s => String.eqb s "fcm_v1" | None => false end.

Definition expoTokens (tokens : list DeviceToken) : list DeviceToken :=
  List.filter is_expo tokens.

Definition androidV1Tokens (tokens : list DeviceToken) : list DeviceToken :=
  List.filter (fun t => negb (is_expo t) && String.eqb (platform t) "android"
                        && wants_v1 t) tokens.

Definition androidTokens (tokens : list DeviceToken) : list DeviceToken :=
  List.filter (fun t => negb (is_expo t) && String.eqb (platform t) "android"
                        && negb (wants_v1 t)) tokens.

Definition iosTokens (tokens : list DeviceToken) : list DeviceToken :=
  List.filter (fun t => negb (is_expo t) && negb (String.eqb (platform t) "android")
                        && String.eqb (platform t) "ios") tokens.

(** [t.device_token || t.token] *)
Definition v1_address (t : DeviceToken) : string :=
  match device_token t with
  | Some s => if String.eqb s "" then token t else s
  | None => token t
  end.

Definition add_counts (r : DeviceResults) (ok ko : Z)
    (invalid : list (option string)) : DeviceResults := {|
  total := total r;
  successful := successful r + ok;
  failed := failed r + ko;
  invalidTokens := invalidTokens r ++ invalid
|}.

Definition expo_step (p : Providers) (bucket : list DeviceToken)
    (notification : Templates.Notification) (r : DeviceResults) : DeviceResults :=
  match sendBatchExpoPushNotifications p (token <$> bucket) notification
          (Templates.n_data notification) with
  | Ok (ExpoPush.BatchSent c) =>
      add_counts r (ExpoPush.successCount c) (ExpoPush.failureCount c)
                 (Some <$> ExpoPush.tokensToDeactivate c)
  | Ok (ExpoPush.BatchRejected _ _) => add_counts r 0 (lenZ bucket) []
  | Throw _ => add_counts r 0 (lenZ bucket) []
  end.

Definition v1_invalid (e : V1Entry) : bool :=
  negb (v1_success e)
  && match v1_error e with
     | Some message => includes message "invalid-registration"
     | None => false
     end.

Definition v1_step (p : Providers) (bucket : list DeviceToken)
    (notification : Templates.Notification) (r : DeviceResults) : DeviceResults :=
  match sendBatchFCMv1Notifications p (v1_address <$> bucket) notification
          (Templates.n_data notification) with
  | Ok res =>
      if negb (Z.eqb (v1_successCount res) 0) then
        add_counts r (v1_successCount res) (v1_failureCount res)
                   (v1_token <$> List.filter v1_invalid (v1_results res))
      else add_counts r 0 (lenZ bucket) []
  | Throw _ => add_counts r 0 (lenZ bucket) []
  end.

Definition fcm_step (p : Providers) (bucket : list DeviceToken)
    (notification : Templates.Notification) (r : DeviceResults) : DeviceResults :=
  match sendBatchFCMNotifications p (token <$> bucket) notification
          (Templates.n_data notification) with
  | Ok (Fcm.BatchSent batches) =>
      foldl (fun acc batch =>
               add_counts acc (Fcm.successCount batch) (Fcm.failureCount batch) [])
            r batches
  | Ok (Fcm.BatchFailed _) => add_counts r 0 (lenZ bucket) []
  | Throw _ => add_counts r 0 (lenZ bucket) []
  end.

Definition apns_invalid (f : ApnsFailure) : bool :=
  String.eqb (apns_error f) "BadDeviceToken" || String.eqb (apns_error f) "Unregistered".

Definition apns_step (p : Providers) (bucket : list DeviceToken)
    (notification : Templates.Notification) (r : DeviceResults) : DeviceResults :=
  match sendBatchAPNSNotifications p (token <$> bucket) notification
          (Templates.n_data notification) with
  | Ok (ApnsSent batches) =>
      foldl (fun acc batch =>
               add_counts acc (apns_successCount batch) (apns_failureCount batch)
                 ((fun f => Some (device f)) <$> List.filter apns_invalid (apns_failed batch)))
            r batches
  | Ok (ApnsFailed _) => add_counts r 0 (lenZ bucket) []
  | Throw _ => add_counts r 0 (lenZ bucket) []
  end.

(** A bucket is sent only when it is not empty. *)
Definition when_nonempty {A B} (bucket : list A) (f : B -> B) (x : B) : B :=
  match bucket with [] => x | _ => f x end.

Definition calls_of (tokens : list DeviceToken) : list ProviderCall :=
  when_nonempty (expoTokens tokens)
    (fun _ => [ExpoCall (token <$> expoTokens tokens)]) []
  ++ when_nonempty (androidV1Tokens tokens)
    (fun _ => [FcmV1Call (v1_address <$> androidV1Tokens tokens)]) []
  ++ when_nonempty (androidTokens tokens)
    (fun _ => [FcmCall (token <$> androidTokens tokens)]) []
  ++ when_nonempty (iosTokens tokens)
    (fun _ => [ApnsCall (token <$> iosTokens tokens)]) [].

(** [Promise.all(results.invalidTokens.map(deactivatePushToken))] *)
Definition deactivate_all (b : Backend) (db : Store)
    (invalid : list (option string)) : Store :=
  foldl (fun acc tok => snd (deactivatePushToken b acc tok)) db invalid.

(** [sendToDevices(tokens, notification)]: the results, the adapter calls
    made, and the store after the deactivations. *)
Definition sendToDevices (p : Providers) (b : Backend) (db : Store)
    (tokens : list DeviceToken) (notification : Templates.Notification)
  : DeviceResults * list ProviderCall * Store :=
  let r0 := {| total := lenZ tokens; successful := 0; failed := 0;
               invalidTokens := [] |} in
  let r1 := when_nonempty (expoTokens tokens)
              (expo_step p (expoTokens tokens) notification) r0 in
  let r2 := when_nonempty (androidV1Tokens tokens)
              (v1_step p (androidV1Tokens tokens) notification) r1 in
  let r3 := when_nonempty (androidTokens tokens)
              (fcm_step p (androidTokens tokens) notification) r2 in
  let r4 := when_nonempty (iosTokens tokens)
              (apns_step p (iosTokens tokens) notification) r3 in
  (r4, calls_of tokens, deactivate_all b db (invalidTokens r4)).

(** *** Rate limiting *)

Record RateLimit : Type := {
  count : Z;
  resetTime : Z
}.

Definition rate_key (userId type : string) : string := userId +:+ ":" +:+ type.

(** [maxRequests[type] || maxRequests.default] *)
Definition maxRequests (type : string) : Z :=
  if String.eqb type "photo_liked" then 10
  else if String.eqb type "event_live" then 1
  else if String.eqb type "event_starting" then 1
  else if String.eqb type "community_milestone" then 3
  else if String.eqb type "peak_activity" then 2
  else 5.

(** [isRateLimited(userId, type)] at time [now].  The entry read from the
    map is the stored object itself, so the reset of an expired window is
    seen by later calls; the object made for a missing key is dropped. *)
Definition isRateLimited (rateLimits : gmap string RateLimit)
    (userId type : string) (now : Z) : bool * gmap string RateLimit :=
  let key := rate_key userId type in
  match rateLimits !! key with
  | Some limits =>
      if Z.ltb (resetTime limits) now then
        let limits' := {| count := 0; resetTime := now + 60000 |} in
        (Z.leb (maxRequests type) (count limits'), <[key := limits']> rateLimits)
      else (Z.leb (maxRequests type) (count limits), rateLimits)
  | None =>
      let limits := {| count := 0; resetTime := now + 60000 |} in
      if Z.ltb (resetTime limits) now then
        (Z.leb (maxRequests type) 0, rateLimits)
      else (Z.leb (maxRequests type) (count limits), rateLimits)
  end.

(** [updateRateLimit(userId, type)] at time [now]. *)
Definition updateRateLimit (rateLimits : gmap string RateLimit)
    (userId type : string) (now : Z) : gmap string RateLimit :=
  let key := rate_key userId type in
  let limits := default {| count := 0; resetTime := now + 60000 |} (rateLimits !! key) in
  let limits' :=
    if Z.ltb (resetTime limits) now
    then {| count := 1; resetTime := now + 60000 |}
    else {| count := count limits + 1; resetTime := resetTime limits |} in
  <[key := limits']> rateLimits.

(** [checkBatching(userId, type, data)] *)
Definition checkBatching (userId type : string) (data : Data) : bool := false.

(** *** Dispatch to one user *)

(** The readings of the clock during one call. *)
Record Clock : Type := {
  now_rate_check : Z;
  now_rate_update : Z;
  now_iso : string
}.

(** The object returned by [sendNotification]. *)
Inductive Outcome : Type :=
| Skipped (success : bool) (reason : string)
    (* { success, reason } *)
| Sent (results : DeviceResults) (historyId : option string)
    (* { success: true, results, historyId, devicesReached } *)
| Failed (error : string).
    (* { success: false, error } *)

Definition success (o : Outcome) : bool :=
  match o with
  | Skipped s _ => s
  | Sent _ _ => true
  | Failed _ => false
  end.

Definition reason (o : Outcome) : option string :=
  match o with Skipped _ r => Some r | _ => None end.

Definition error (o : Outcome) : option string :=
  match o with Failed e => Some e | _ => None end.

Definition devicesReached (o : Outcome) : option Z :=
  match o with Sent r _ => Some (successful r) | _ => None end.

(** [preferences[type.replace('_', '')] ?? DEFAULT_SETTINGS[type]?.enabled ?? true] *)
Definition typeEnabled (preferences : Data) (type : string) : JsVal :=
  coalesce (get preferences (remove_first_underscore type))
    (coalesce
       (match Templates.DEFAULT_SETTINGS type with
        | Some s => JBool (Templates.enabled s)
        | None => JUndefined
        end)
       (JBool true)).

(** [preferences.batch_mode && DEFAULT_SETTINGS[type]?.batchEnabled] *)
Definition batching_requested (preferences : Data) (type : string) : bool :=
  truthy (get preferences "batch_mode")
  && match Templates.DEFAULT_SETTINGS type with
     | Some s => Templates.batchEnabled s
     | None => false
     end.

(** A request made to the relational store. *)
Inductive StoreRequest : Type :=
| RpcShouldSend (userId : string)
| SelectPreferences (userId : string)
| SelectPushTokens (userId : string)
| UpdateDeactivate (tok : option string)
| InsertHistory (userId : string) (status : string).

(** Everything one call leaves behind: the returned object, the rate-limit
    map, the store, the adapter calls and the store requests made. *)
Record Run : Type := {
  outcome : Outcome;
  rateLimits : gmap string RateLimit;
  store : Store;
  calls : list ProviderCall;
  requests : list StoreRequest
}.

Definition sendNotification (p : Providers) (b : Backend) (clk : Clock)
    (rl : gmap string RateLimit) (db : Store)
    (userId type : string) (data : Data) : Run :=
  match Templates.validateNotificationData type data with
  | Throw message =>
      {| outcome := Failed message; rateLimits := rl; store := db; calls := [];
         requests := [] |}
  | Ok _ =>
      let '(canSend, db1) := shouldSendNotification b db userId in
      if negb canSend then
        {| outcome := Skipped false "user_preferences";
           rateLimits := rl; store := db1; calls := [];
           requests := [RpcShouldSend userId] |}
      else
        let preferences := getUserNotificationPreferences b db1 userId in
        if negb (truthy (typeEnabled preferences type)) then
          {| outcome := Skipped false "type_disabled";
             rateLimits := rl; store := db1; calls := [];
             requests := [RpcShouldSend userId; SelectPreferences userId] |}
        else
          let '(limited, rl1) := isRateLimited rl userId type (now_rate_check clk) in
          if limited then
            {| outcome := Skipped false "rate_limited";
               rateLimits := rl1; store := db1; calls := [];
               requests := [RpcShouldSend userId; SelectPreferences userId] |}
          else
            let tokens := getUserPushTokens b db1 userId in
            let lookups := [RpcShouldSend userId; SelectPreferences userId;
                            SelectPushTokens userId] in
            match tokens with
            | [] =>
                {| outcome := Skipped false "no_tokens";
                   rateLimits := rl1; store := db1; calls := [];
                   requests := lookups |}
            | _ =>
                if batching_requested preferences type
                   && checkBatching userId type data then
                  {| outcome := Skipped true "batched";
                     rateLimits := rl1; store := db1; calls := [];
                     requests := lookups |}
                else
                  match Templates.buildNotification (now_iso clk) type data with
                  | Throw message =>
                      {| outcome := Failed message;
                         rateLimits := rl1; store := db1; calls := [];
                         requests := lookups |}
                  | Ok notification =>
                      let '(results, made, db2) :=
                        sendToDevices p b db1 tokens notification in
                      let '(historyId, db3) :=
                        logNotificationHistory b db2
                          {| hi_userId := userId;
                             hi_type := Templates.n_type notification;
                             hi_title := Templates.n_title notification;
                             hi_body := Templates.n_body notification;
                             hi_data := Templates.n_data notification;
                             hi_eventId := or_else (get data "eventId") JNull;
                             hi_photoId := or_else (get data "photoId") JNull |} in
                      {| outcome := Sent results historyId;
                         rateLimits := updateRateLimit rl1 userId type (now_rate_update clk);
                         store := db3;
                         calls := made;
                         requests :=
                           lookups
                           ++ (UpdateDeactivate <$> invalidTokens results)
                           ++ [InsertHistory userId "sent"] |}
                  end
            end
  end.

(** Successive calls for one user, type and payload, one per clock
    reading, each starting from what the previous call left: the runs, and
    the rate-limit map and the store after the last one. *)
Fixpoint sendMany (p : Providers) (b : Backend) (clocks : list Clock)
    (rl : gmap string RateLimit) (db : Store)
    (userId type : string) (data : Data)
  : list Run * (gmap string RateLimit * Store) :=
  match clocks with
  | [] => ([], (rl, db))
  | clk :: rest =>
      let r := sendNotification p b clk rl db userId type data in
      let '(runs, final) :=
        sendMany p b rest (rateLimits r) (store r) userId type data in
      (r :: runs, final)
  end.

(** The preference gates stay open from one delivered call to the next. *)
Definition gates_open (b : Backend) (db : Store) (userId type : string) : Prop :=
  (shouldSendNotification b db userId).1 = true
  /\ notification_preferences (shouldSendNotification b db userId).2
     = notification_preferences db
  /\ truthy (typeEnabled (getUserNotificationPreferences b db userId) type) = true.

(** The run delivered: the call returned [success: true] with results. *)
Definition delivered (r : Run) : Prop :=
  exists results historyId, outcome r = Sent results historyId.

End NotificationService.

(** ** redis.js

    Times are epoch milliseconds; an ISO timestamp stored in a cached object
    is represented by the instant it denotes. *)

Module Redis.

(** A cached JSON object: the properties the cache code reads on any
    cached object, and the rest of the object. *)
Record Cached (P : Type) : Type := {
  body : P;
  cached_at : option Z;
  expires_at : option Z
}.
Arguments body {P} _.
Arguments cached_at {P} _.
Arguments expires_at {P} _.

(** A key of the store with the instant at which the store drops it. *)
Record Slot (P : Type) : Type := {
  content : Cached P;
  deadline : Z
}.
Arguments content {P} _.
Arguments deadline {P} _.

(** The key-value store; [reachable] is false when the client cannot be
    built or its commands fail. *)
Record Kv (P : Type) : Type := {
  reachable : bool;
  slots : gmap string (Slot P)
}.
Arguments reachable {P} _.
Arguments slots {P} _.

(** The object returned by [getWithAge]. *)
Record WithAge (P : Type) : Type := {
  aged : Cached P;
  cache_age : Z;
  cache_ttl : Z;
  is_expired : bool
}.
Arguments aged {P} _.
Arguments cache_age {P} _.
Arguments cache_ttl {P} _.
Arguments is_expired {P} _.

Section Operations.

Context {P : Type}.

(** The value the store holds under [key] at time [now]. *)
Definition live (kv : Kv P) (now : Z) (key : string) : option (Cached P) :=
  match slots kv !! key with
  | Some s => if Z.ltb now (deadline s) then Some (content s) else None
  | None => None
  end.

(** [getCachedData(key)]: [null] when the store cannot be reached. *)
Definition getCachedData (kv : Kv P) (now : Z) (key : string) : option (Cached P) :=
  if reachable kv then live kv now key else None.

(** [setCachedData(key, data, ttlSeconds)]; the store refuses a
    non-positive expiry. *)
Definition setCachedData (kv : Kv P) (now : Z) (key : string)
    (data : Cached P) (ttlSeconds : Z) : bool * Kv P :=
  if reachable kv && Z.ltb 0 ttlSeconds then
    (true,
     {| reachable := reachable kv;
        slots := <[key := {| content := data;
                             deadline := now + ttlSeconds * 1000 |}]> (slots kv) |})
  else (false, kv).

(** [setWithAutoExpiry(key, data, ttlSeconds)] *)
Definition setWithAutoExpiry (kv : Kv P) (now : Z) (key : string)
    (data : P) (ttlSeconds : Z) : bool * Kv P :=
  setCachedData kv now key
    {| body := data;
       cached_at := Some now;
       expires_at := Some (now + ttlSeconds * 1000) |}
    ttlSeconds.

(** [getWithAge(key)] *)
Definition getWithAge (kv : Kv P) (now : Z) (key : string) : option (WithAge P) :=
  match getCachedData kv now key with
  | None => None
  | Some data =>
      match cached_at data with
      | None => None
      | Some at_ =>
          let age := (now - at_) / 1000 in
          let ttl := match expires_at data with
                     | Some e => Z.max 0 ((e - now) / 1000)
                     | None => 0
                     end in
          Some {| aged := data; cache_age := age; cache_ttl := ttl;
                  is_expired := Z.leb ttl 0 |}
      end
  end.

(** [getBatch(keys)]: an entry ([null] for a missing key) per requested
    key, or the empty object when the store cannot be reached. *)
Definition getBatch (kv : Kv P) (now : Z) (keys : list string)
  : gmap string (option (Cached P)) :=
  if reachable kv then
    list_to_map ((fun key => (key, live kv now key)) <$> keys)
  else ∅.

(** [setBatch(dataMap, ttlSeconds)]: the pipeline reports a refused command
    in its reply without throwing, so the call answers [true] whenever the
    store is reached. *)
Definition setBatch (kv : Kv P) (now : Z) (dataMap : gmap string (Cached P))
    (ttlSeconds : Z) : bool * Kv P :=
  if reachable kv then
    (true,
     if Z.ltb 0 ttlSeconds then
       {| reachable := reachable kv;
          slots := ((fun data => {| content := data;
                                    deadline := now + ttlSeconds * 1000 |})
                      <$> dataMap) ∪ slots kv |}
     else kv)
  else (false, kv).

End Operations.

End Redis.

(** ** participants-cache.js: the read path *)

Module ParticipantsCache.

Import Redis.

Definition TTL : Z := 30 * 60.
Definition METADATA_TTL : Z := 15 * 60.
Definition PREFIX : string := "participants:".

(** The object built by [fetchParticipantsFromDatabase]. *)
Record PageResult : Type := {
  participants : list string;
  total_count : Z;
  page : Z;
  limit : Z;
  total_pages : Z;
  has_more : bool;
  source : string;
  generated_at : Z
}.

Record Metadata : Type := {
  md_event_id : string;
  md_total_count : Z;
  md_last_updated : Z;
  md_source : string
}.

(** What this layer keeps in the key-value store. *)
Inductive Stored : Type :=
| PageEntry (r : PageResult)
| MetadataEntry (m : Metadata).

(** The object returned by [getEventParticipants]. *)
Inductive Response : Type :=
| FromCache (entry : WithAge Stored)
    (* { ...cachedData, cached: true, cache_source: 'redis' } *)
| FromDatabase (r : PageResult)
    (* { ...result, cached: false, cache_source: 'database' } *)
| StaleFromCache (entry : Cached Stored).
    (* { ...staleData, cached: true, stale: true, cache_source: 'stale_redis',
         warning: 'Serving cached data due to temporary database issues' } *)

Definition cached (r : Response) : bool :=
  match r with FromDatabase _ => false | _ => true end.

Definition stale (r : Response) : bool :=
  match r with StaleFromCache _ => true | _ => false end.

Definition cache_source (r : Response) : string :=
  match r with
  | FromCache _ => "redis"
  | FromDatabase _ => "database"
  | StaleFromCache _ => "stale_redis"
  end.

Definition warning (r : Response) : option string :=
  match r with
  | StaleFromCache _ => Some "Serving cached data due to temporary database issues"
  | _ => None
  end.

(** The cached object spread into a response served from the cache. *)
Definition served (r : Response) : option (Cached Stored) :=
  match r with
  | FromCache e => Some (aged e)
  | StaleFromCache e => Some e
  | FromDatabase _ => None
  end.

Definition cacheKey (eventId : string) (page limit : Z) : string :=
  PREFIX +:+ eventId +:+ ":page:" +:+ pretty page +:+ ":" +:+ pretty limit.

(** [updateParticipantMetadataCache(eventId, participantData)] *)
Definition updateParticipantMetadataCache (kv : Kv Stored) (now : Z)
    (eventId : string) (participantData : PageResult) : Kv Stored :=
  snd (setWithAutoExpiry kv now (PREFIX +:+ eventId +:+ ":metadata")
         (MetadataEntry {| md_event_id := eventId;
                           md_total_count := total_count participantData;
                           md_last_updated := now;
                           md_source := source participantData |})
         METADATA_TTL).

(** [getEventParticipants(eventId, { page, limit, forceRefresh, userId })].
    [fetchParticipantsFromDatabase] is the outcome of the relational
    queries for this page.  The hit and miss counters ([recordCacheHit],
    [recordCacheMiss]) are fired without being awaited and only touch
    [cache_stats:] keys; they are left out. *)
Definition getEventParticipants
    (fetchParticipantsFromDatabase : string -> Z -> Z -> result PageResult)
    (kv : Kv Stored) (now : Z)
    (eventId : string) (page limit : Z) (forceRefresh : bool)
  : result Response * Kv Stored :=
  if String.eqb eventId "" || Z.ltb page 1 || Z.ltb limit 1 || Z.ltb 100 limit then
    (Throw "Invalid parameters", kv)
  else
    let key := cacheKey eventId page limit in
    let hit := if forceRefresh then None
               else match getWithAge kv now key with
                    | Some cachedData =>
                        if negb (is_expired cachedData) then Some cachedData else None
                    | None => None
                    end in
    match hit with
    | Some cachedData => (Ok (FromCache cachedData), kv)
    | None =>
        match fetchParticipantsFromDatabase eventId page limit with
        | Ok res =>
            let kv1 := snd (setWithAutoExpiry kv now key (PageEntry res) TTL) in
            let kv2 := updateParticipantMetadataCache kv1 now eventId res in
            (Ok (FromDatabase res), kv2)
        | Throw message =>
            match getCachedData kv now key with
            | Some staleData => (Ok (StaleFromCache staleData), kv)
            | None => (Throw message, kv)
            end
        end
    end.

End ParticipantsCache.

(** ** photo-url-cache.js *)

Module PhotoUrlCache.

Import Redis.

Definition PREFIX : string := "photo_urls:".
Definition BATCH_PREFIX : string := "photo_batch:".
Definition EVENT_PREFIX : string := "event_photos:".
Definition MAX_URLS_PER_REQUEST : Z := 100.
Definition DEFAULT_EXPIRY : Z := 3600.
Definition MAX_EXPIRY : Z := 24 * 60 * 60.

(** A [urls] object: storage path to signed URL.  A property whose value
    is [undefined] is bound to [None]. *)
Abbreviation Urls := (gmap string (option string)).

Record Organizer : Type := {
  o_user_id : string;
  o_status : string
}.

Record Event : Type := {
  ev_id : string;
  created_by : string;
  require_moderation : bool;
  event_organizers : option (list Organizer)
}.

Record Photo : Type := {
  id : string;
  photo_url : option string;
  uploaded_by_id : string;
  created_at : Z;
  like_count_computed : option Z;
  moderation_status : string
}.

(** [{ ...photo, photo_url, url_cached, url_generated_at }] *)
Record EnrichedPhoto : Type := {
  original : Photo;
  signed_photo_url : option string;
  url_cached : bool;
  url_generated_at : Z
}.

Record UrlStats : Type := {
  stat_cached_count : Z;
  stat_generated_count : Z;
  stat_cache_hit_rate : Z
}.

(** The page written to the event-level cache. *)
Record EventResult : Type := {
  photos : list EnrichedPhoto;
  urls : Urls;
  total_count : Z;
  page : Z;
  limit : Z;
  total_pages : option Z;
  url_stats : UrlStats;
  generated_at : Z
}.

(** What this layer keeps in the key-value store. *)
Inductive Stored : Type :=
| UrlEntry (path signed_url : string) (generated : Z)
| BatchEntry (event_id : string) (batch_urls : Urls) (url_count expires_in generated : Z)
| PageEntry (r : EventResult).

(** [cached.signed_url] *)
Definition signed_url_of (s : Stored) : option string :=
  match s with UrlEntry _ u _ => Some u | _ => None end.

(** [cachedEventUrls.urls] *)
Definition urls_of (s : Stored) : option Urls :=
  match s with
  | UrlEntry _ _ _ => None
  | BatchEntry _ u _ _ _ => Some u
  | PageEntry r => Some (urls r)
  end.

(** *** The relational store and the object storage, as this layer uses them *)

Inductive ModerationFilter : Type :=
| StatusIn (statuses : list string)
| StatusEq (status : string)
| StatusNeq (status : string).

Record Ordering : Type := {
  column : string;
  ascending : bool;
  nullsFirst : option bool
}.

(** The query built by [fetchEventPhotos]; [q_range] is inclusive. *)
Record Query : Type := {
  q_event_id : string;
  q_photo_type : string;
  q_moderation : ModerationFilter;
  q_order : list Ordering;
  q_range : Z * Z
}.

(** [{ data, count }] of a query that did not fail. *)
Record Answer : Type := {
  rows : option (list Photo);
  count : option Z
}.

Inductive StorageAnswer : Type :=
| Signed (signedUrl : option string)   (* { data, error: null } *)
| StorageError (message : string)      (* { error } *)
| StorageException (message : string). (* the call throws *)

(** What a cached URL shows to the expiry check: parsing throws; there is
    no token, no three-part token or no [exp] claim; or the [exp] claim,
    in seconds. *)
Inductive TokenView : Type :=
| Unparsable
| NoExpiry
| Expiry (exp : Z).

Record Backend : Type := {
  select_event : string -> result Event;
  run_query : Query -> result Answer;
  createSignedUrl : string -> Z -> StorageAnswer;
  url_pathname : string -> result string;   (* [new URL(u).pathname] *)
  token_view : string -> TokenView;
  round_percent : Z -> Z -> Z
    (* [Math.round((a / b) * 100)], in double-precision arithmetic *)
}.

(** *** Helpers *)

Definition is_path_char (c : ascii) : bool :=
  let n := nat_of_ascii c in
  (Nat.leb 97 n && Nat.leb n 122) || (Nat.leb 65 n && Nat.leb n 90)
  || (Nat.leb 48 n && Nat.leb n 57)
  || Ascii.eqb c "."%char || Ascii.eqb c "-"%char || Ascii.eqb c "_"%char
  || Ascii.eqb c "/"%char.

(** [path.replace(/[^a-zA-Z0-9.\-_/]/g, '_')] *)
Fixpoint cleanPath (path : string) : string :=
  match path with
  | EmptyString => EmptyString
  | String c rest =>
      String (if is_path_char c then c else "_"%char) (cleanPath rest)
  end.

Definition url_key (path : string) : string := PREFIX +:+ cleanPath path.

Definition is_line_end (c : ascii) : bool :=
  Ascii.eqb c "010"%char || Ascii.eqb c "013"%char.

Fixpoint line_prefix (s : string) : string :=
  match s with
  | EmptyString => EmptyString
  | String c rest => if is_line_end c then EmptyString else String c (line_prefix rest)
  end.

Fixpoint drop_chars (n : nat) (s : string) : string :=
  match n, s with
  | O, _ => s
  | S n', String _ rest => drop_chars n' rest
  | S _, EmptyString => EmptyString
  end.

(** The first group of [s.match(/marker(.+)/)]. *)
Fixpoint match_after (marker s : string) : option string :=
  match s with
  | EmptyString => None
  | String _ rest =>
      if String.prefix marker s then
        match line_prefix (drop_chars (String.length marker) s) with
        | EmptyString => match_after marker rest
        | group => Some group
        end
      else match_after marker rest
  end.

Definition is_space (c : ascii) : bool :=
  let n := nat_of_ascii c in
  Nat.eqb n 32 || (Nat.leb 9 n && Nat.leb n 13).

Fixpoint blank (s : string) : bool :=
  match s with
  | EmptyString => true
  | String c rest => is_space c && blank rest
  end.

(** [extractStoragePath(photoUrl)] *)
Definition extractStoragePath (env : Backend) (photoUrl : option string)
  : option string :=
  match photoUrl with
  | None => None
  | Some u =>
      if String.eqb u "" then None
      else
        let public_or_plain :=
          match match_after "/storage/v1/object/public/photos/" u with
          | Some p => Some p
          | None =>
              if startsWith u "photos/" then Some (drop_chars 7 u)
              else if negb (includes u "http") && negb (startsWith u "/") then Some u
              else None
          end in
        if includes u "token=" then
          match url_pathname env u with
          | Throw _ => None
          | Ok pathname =>
              match match_after "/storage/v1/object/sign/photos/" pathname with
              | Some p => Some p
              | None => public_or_plain
              end
          end
        else public_or_plain
  end.

(** [Math.ceil(a / b)] for integers small enough for the quotient to be
    computed exactly; [None] when the quotient is not finite. *)
Definition ceil_div (a b : Z) : option Z :=
  if Z.eqb b 0 then None else Some (- ((- a) / b)).

(** The keys of an object in the order of their first insertion. *)
Definition insertion_order (keys : list string) : list string :=
  foldl (fun (acc : list string) k =>
           if bool_decide (k ∈ acc) then acc else (acc ++ [k])%list) [] keys.

(** *** Signed URL generation *)

(** One element of [batchPromises], settled: the URL when there is one. *)
Definition sign_one (env : Backend) (expiresIn : Z) (path : string) : option string :=
  match createSignedUrl env path expiresIn with
  | Signed (Some url) => if String.eqb url "" then None else Some url
  | Signed None => None
  | StorageError _ => None
  | StorageException _ => None
  end.

(** [batchResults.forEach(...)] for one slice. *)
Definition sign_slice (env : Backend) (expiresIn : Z)
    (acc : gmap string string) (batch : list string) : gmap string string :=
  foldl (fun m path =>
           match sign_one env expiresIn path with
           | Some url => <[path := url]> m
           | None => m
           end) acc batch.

(** [generateSignedUrlsBatch(photoPaths, expiresIn, userId)] *)
Definition generateSignedUrlsBatch (env : Backend) (photoPaths : list string)
    (expiresIn : Z) (userId : option string) : gmap string string :=
  foldl (sign_slice env expiresIn) ∅ (slices 20 photoPaths).

(** [cacheSignedUrls(urls, expiresIn)] *)
Definition cacheSignedUrls (kv : Kv Stored) (now : Z) (order : list string)
    (newUrls : gmap string string) (expiresIn : Z) : Kv Stored :=
  let cacheData :=
    foldl (fun m path =>
             match newUrls !! path with
             | Some signedUrl =>
                 <[url_key path :=
                     {| body := UrlEntry path signedUrl now;
                        cached_at := None;
                        expires_at := Some (now + expiresIn * 1000) |}]> m
             | None => m
             end) ∅ (insertion_order order) in
  snd (setBatch kv now cacheData expiresIn).

(** [cacheEventPhotoBatch(eventId, urls, expiresIn)] *)
Definition cacheEventPhotoBatch (kv : Kv Stored) (now : Z) (eventId : string)
    (allUrls : Urls) (expiresIn : Z) : Kv Stored :=
  snd (setWithAutoExpiry kv now (BATCH_PREFIX +:+ eventId)
         (BatchEntry eventId allUrls (Z.of_nat (size allUrls)) expiresIn now)
         (Z.min expiresIn (30 * 60))).

(** The object returned by [batchGenerateSignedUrls]. *)
Record BatchUrls : Type := {
  b_urls : Urls;
  cached_count : Z;
  generated_count : Z;
  b_total_count : Z;
  cache_hit_rate : Z;
  b_expires_in : Z;
  b_generated_at : Z
}.

(** [cached && cached.expires_at && new Date(cached.expires_at) > new Date()]
    for the entry found under the key of [path]: when it holds, the value
    of [cached.signed_url]. *)
Definition cached_url (now : Z) (found : gmap string (option (Cached Stored)))
    (path : string) : option (option string) :=
  match mjoin (found !! url_key path) with
  | Some entry =>
      match expires_at entry with
      | Some e => if Z.ltb now e then Some (signed_url_of (body entry)) else None
      | None => None
      end
  | None => None
  end.

(** The body of [photoPaths.forEach((path, index) => ...)]: the cached
    URLs kept and the paths left to generate. *)
Definition split_cached (now : Z) (found : gmap string (option (Cached Stored)))
    (photoPaths : list string) : Urls * list string :=
  foldl (fun (acc : Urls * list string) path =>
           match cached_url now found path with
           | Some url => (<[path := url]> acc.1, acc.2)
           | None => (acc.1, (acc.2 ++ [path])%list)
           end) (∅, []) photoPaths.


(** [batchGenerateSignedUrls(photoPaths, { expiresIn, eventId, userId, forceRefresh })].
    As in the participants layer, the hit and miss counters are left out. *)
Definition batchGenerateSignedUrls (env : Backend) (kv : Kv Stored) (now : Z)
    (photoPaths : list string) (expiresIn : Z) (eventId userId : option string)
    (forceRefresh : bool) : result BatchUrls * Kv Stored :=
  match photoPaths with
  | [] => (Throw "Invalid photo paths array", kv)
  | _ =>
      if Z.ltb MAX_URLS_PER_REQUEST (lenZ photoPaths) then
        (Throw ("Too many URLs requested. Max: " +:+ pretty MAX_URLS_PER_REQUEST), kv)
      else if Z.ltb MAX_EXPIRY expiresIn then
        (Throw ("Expiry too long. Max: " +:+ pretty MAX_EXPIRY +:+ " seconds"), kv)
      else
        let '(cachedUrls, pathsToGenerate) :=
          if forceRefresh then (∅, photoPaths)
          else split_cached now (getBatch kv now (url_key <$> photoPaths)) photoPaths in
        let newUrls :=
          match pathsToGenerate with
          | [] => ∅
          | _ => generateSignedUrlsBatch env pathsToGenerate expiresIn userId
          end in
        let kv1 :=
          match pathsToGenerate with
          | [] => kv
          | _ => cacheSignedUrls kv now pathsToGenerate newUrls expiresIn
          end in
        let allUrls : Urls := (Some <$> newUrls) ∪ cachedUrls in
        let kv2 :=
          match eventId with
          | Some e => if String.eqb e "" then kv1
                      else cacheEventPhotoBatch kv1 now e allUrls expiresIn
          | None => kv1
          end in
        (Ok {| b_urls := allUrls;
               cached_count := Z.of_nat (size cachedUrls);
               generated_count := Z.of_nat (size newUrls);
               b_total_count := Z.of_nat (size allUrls);
               cache_hit_rate :=
                 round_percent env (Z.of_nat (size cachedUrls)) (lenZ photoPaths);
               b_expires_in := expiresIn;
               b_generated_at := now |},
         kv2)
  end.

(** *** Reading the photos of an event *)

(** [userId && typeof userId === 'string' && userId.trim() !== ''
    && userId !== 'undefined' ? userId : null] *)
Definition validUserId (userId : option string) : option string :=
  match userId with
  | Some u =>
      if negb (String.eqb u "") && negb (blank u) && negb (String.eqb u "undefined")
      then Some u else None
  | None => None
  end.

(** [userId === event.created_by ||
     event.event_organizers?.some(o => o.user_id === userId && o.status === 'active')] *)
Definition organizes (event : Event) (u : string) : bool :=
  String.eqb u (created_by event)
  || match event_organizers event with
     | Some os =>
         existsb (fun o => String.eqb (o_user_id o) u && String.eqb (o_status o) "active") os
     | None => false
     end.

Definition maxPhotos : Z := 200.

(** Whatever [fetchEventPhotos] leaves behind: its result and the queries
    it sent to the [photos] table. *)
Record Fetch : Type := {
  fetched : result (list Photo * Z);   (* { photos, totalCount } *)
  queries : list Query
}.

(** [fetchEventPhotos(eventId, page, limit, userId, sortBy, event)] *)
Definition fetchEventPhotos (env : Backend) (eventId : string) (page limit : Z)
    (userId : option string) (sortBy : string) (event : option Event) : Fetch :=
  let offset := (page - 1) * limit in
  match (match event with
         | Some e => Ok e
         | None =>
             match select_event env eventId with
             | Ok e => Ok e
             | Throw message =>
                 Throw ("Failed to fetch event " +:+ eventId +:+ ": " +:+ message)
             end
         end) with
  | Throw message => {| fetched := Throw message; queries := [] |}
  | Ok e =>
      let isOrganizer :=
        match validUserId userId with
        | Some u => organizes e u
        | None => false
        end in
      let moderation :=
        if require_moderation e then
          if isOrganizer then StatusIn ["approved"; "pending"; "pending_approval"]
          else StatusEq "approved"
        else StatusNeq "deleted" in
      let most_liked := String.eqb sortBy "most_liked" in
      if most_liked && Z.leb maxPhotos offset then
        {| fetched := Ok ([], maxPhotos); queries := [] |}
      else
        let query :=
          if most_liked then
            {| q_event_id := eventId;
               q_photo_type := "event";
               q_moderation := moderation;
               q_order := [ {| column := "like_count_computed"; ascending := false;
                               nullsFirst := Some false |};
                            {| column := "created_at"; ascending := false;
                               nullsFirst := None |} ];
               q_range := (offset, Z.min (offset + limit - 1) (maxPhotos - 1)) |}
          else
            {| q_event_id := eventId;
               q_photo_type := "event";
               q_moderation := moderation;
               q_order := [ {| column := "created_at"; ascending := false;
                               nullsFirst := None |} ];
               q_range := (offset, offset + limit - 1) |} in
        match run_query env query with
        | Throw message => {| fetched := Throw message; queries := [query] |}
        | Ok answer =>
            let counted := default 0 (count answer) in
            let actualTotalCount :=
              if most_liked then Z.min counted 200 else counted in
            {| fetched := Ok (default [] (rows answer), actualTotalCount);
               queries := [query] |}
        end
  end.

(** *** The event-level read *)

Definition userRole (event : Event) (userId : option string) : string :=
  match userId with
  | Some u =>
      if String.eqb u "" then "anonymous"
      else if organizes event u then "organizer" else "participant"
  | None => "anonymous"
  end.

Definition moderationMode (event : Event) : string :=
  if require_moderation event then "moderated" else "unmoderated".

Definition validatedSortBy (sortBy : string) : string :=
  if String.eqb sortBy "most_liked" || String.eqb sortBy "newest"
  then sortBy else "most_liked".

(** The event-level cache key. *)
Definition cacheKey (eventId sortBy role moderation : string) (page limit : Z)
  : string :=
  EVENT_PREFIX +:+ eventId +:+ ":" +:+ sortBy +:+ ":" +:+ role +:+ ":"
    +:+ moderation +:+ ":" +:+ pretty page +:+ ":" +:+ pretty limit.

(** One turn of the loop over [Object.entries(cachedEventUrls.urls)]. *)
Definition url_has_expired (env : Backend) (now : Z) (url : option string) : bool :=
  match url with
  | Some u =>
      if negb (String.eqb u "") && includes u "token=" then
        match token_view env u with
        | Unparsable => true
        | NoExpiry => false
        | Expiry exp =>
            if Z.eqb exp 0 then false
            else Z.leb (exp * 1000) (now + 5 * 60 * 1000)
        end
      else false
  | None => false
  end.

Definition hasExpiredUrls (env : Backend) (now : Z) (entry : Cached Stored) : bool :=
  match urls_of (body entry) with
  | Some us => existsb (fun kv => url_has_expired env now kv.2) (map_to_list us)
  | None => false
  end.

(** The object returned by [getEventPhotoUrls]. *)
Inductive Response : Type :=
| FromEventCache (entry : WithAge Stored)
    (* { ...cachedEventUrls, cached: true, source: 'event_cache' } *)
| DatabaseEmpty (page : Z)
    (* { photos: [], urls: {}, total_count: 0, cached: false, source: 'database_empty' } *)
| NoValidPaths (found : list Photo) (total_count page : Z) (total_pages : option Z)
    (* cached: false, source: 'no_valid_paths' *)
| Generated (r : EventResult).
    (* cached: false, source: 'database_with_generated_urls' *)

Definition cached (r : Response) : bool :=
  match r with FromEventCache _ => true | _ => false end.

(** [stale] is never set by this layer. *)
Definition stale (r : Response) : bool := false.

Definition enrich (env : Backend) (found : Urls) (generated : Z) (photo : Photo)
  : EnrichedPhoto :=
  let signedUrl :=
    match extractStoragePath env (photo_url photo) with
    | Some p => if String.eqb p "" then None else mjoin (found !! p)
    | None => None
    end in
  let usable := match signedUrl with
                | Some u => negb (String.eqb u "")
                | None => false
                end in
  {| original := photo;
     signed_photo_url := if usable then signedUrl else photo_url photo;
     url_cached := usable;
     url_generated_at := generated |}.

(** What one read leaves behind. *)
Record Read : Type := {
  response : result Response;
  kv_after : Kv Stored;
  photo_queries : list Query
}.

(** [getEventPhotoUrls(eventId, { page, limit, forceRefresh, expiresIn, userId, sortBy })] *)
Definition getEventPhotoUrls (env : Backend) (kv : Kv Stored) (now : Z)
    (eventId : string) (page limit : Z) (forceRefresh : bool) (expiresIn : Z)
    (userId : option string) (sortBy : string) : Read :=
  let sort := validatedSortBy sortBy in
  match select_event env eventId with
  | Throw message =>
      {| response := Throw ("Failed to fetch event " +:+ eventId +:+ ": " +:+ message);
         kv_after := kv; photo_queries := [] |}
  | Ok event =>
      let key := cacheKey eventId sort (userRole event userId) (moderationMode event)
                   page limit in
      let hit :=
        if forceRefresh then None
        else match getWithAge kv now key with
             | Some cachedEventUrls =>
                 if negb (is_expired cachedEventUrls)
                    && negb (hasExpiredUrls env now (aged cachedEventUrls))
                 then Some cachedEventUrls else None
             | None => None
             end in
      match hit with
      | Some cachedEventUrls =>
          {| response := Ok (FromEventCache cachedEventUrls);
             kv_after := kv; photo_queries := [] |}
      | None =>
          let f := fetchEventPhotos env eventId page limit userId sort (Some event) in
          match fetched f with
          | Throw message =>
              {| response := Throw message; kv_after := kv;
                 photo_queries := queries f |}
          | Ok ([], _) =>
              {| response := Ok (DatabaseEmpty page); kv_after := kv;
                 photo_queries := queries f |}
          | Ok (found, totalCount) =>
              let photoPaths :=
                List.filter (fun p => negb (String.eqb p "") && negb (blank p))
                  (omap (fun photo => extractStoragePath env (photo_url photo)) found) in
              match photoPaths with
              | [] =>
                  {| response := Ok (NoValidPaths found totalCount page
                                       (ceil_div totalCount limit));
                     kv_after := kv; photo_queries := queries f |}
              | _ =>
                  match batchGenerateSignedUrls env kv now photoPaths expiresIn
                          (Some eventId) userId forceRefresh with
                  | (Throw message, kv1) =>
                      {| response := Throw message; kv_after := kv1;
                         photo_queries := queries f |}
                  | (Ok urlResult, kv1) =>
                      let res := {|
                        photos := enrich env (b_urls urlResult)
                                    (b_generated_at urlResult) <$> found;
                        urls := b_urls urlResult;
                        total_count := totalCount;
                        page := page;
                        limit := limit;
                        total_pages := ceil_div totalCount limit;
                        url_stats := {|
                          stat_cached_count := cached_count urlResult;
                          stat_generated_count := generated_count urlResult;
                          stat_cache_hit_rate := cache_hit_rate urlResult |};
                        generated_at := now |} in
                      {| response := Ok (Generated res);
                         kv_after :=
                           snd (setWithAutoExpiry kv1 now key (PageEntry res)
                                  (Z.min expiresIn (30 * 60)));
                         photo_queries := queries f |}
                  end
              end
          end
      end
  end.

End PhotoUrlCache.

(** ** Concrete stores, backends and providers used to exercise the model *)

Module Scenarios.

Import Supabase NotificationService.

(** A relational store that answers every request. *)
Definition healthy : Backend := {|
  rpc_fails := false;
  preferences_query_fails := false;
  tokens_query_fails := false;
  history_insert_fails := false;
  deactivate_fails := false;
  local_time := fun _ => 12 * 3600;
  gen_random_uuid := "00000000-0000-4000-8000-000000000001";
  sql_now := "2024-01-01T12:00:00Z"
|}.


(** Adapters whose every send fails. *)
Definition failing_providers : Providers := {|
  sendBatchExpoPushNotifications := fun _ _ _ => Throw "network down";
  sendBatchFCMv1Notifications := fun _ _ _ => Throw "network down";
  sendBatchFCMNotifications := fun _ _ _ => Throw "network down";
  sendBatchAPNSNotifications := fun _ _ _ => Throw "network down"
|}.

(** Adapters that deliver to every token they are given. *)
Definition delivering_providers : Providers := {|
  sendBatchExpoPushNotifications := fun tokens _ _ =>
    Ok (ExpoPush.BatchSent
          {| ExpoPush.successCount := lenZ tokens;
             ExpoPush.failureCount := 0;
             ExpoPush.invalidCount := 0;
             ExpoPush.tokensToDeactivate := [];
             ExpoPush.tickets :=
               (fun _ => {| ExpoPush.status := "ok";
                            ExpoPush.details_error := None |}) <$> tokens |});
  sendBatchFCMv1Notifications := fun tokens _ _ =>
    Ok {| v1_successCount := lenZ tokens; v1_failureCount := 0; v1_results := [] |};
  sendBatchFCMNotifications := fun tokens _ _ =>
    Ok (Fcm.BatchSent [ {| Fcm.successCount := lenZ tokens;
                           Fcm.failureCount := 0;
                           Fcm.responses := [] |} ]);
  sendBatchAPNSNotifications := fun tokens _ _ =>
    Ok (ApnsSent [ {| apns_successCount := lenZ tokens;
                      apns_failureCount := 0;
                      apns_failed := [] |} ])
|}.

Definition alice_phone : PushTokenRow := {|
  pt_user_id := "alice";
  pt_token := "ExponentPushToken[alice-phone]";
  pt_platform := "ios";
  pt_device_id := "phone-1";
  pt_is_active := true;
  pt_token_type := Some "expo";
  pt_device_token := None
|}.

(** Alice has one active Expo token and no preferences row. *)
Definition fresh_store : Store := {|
  notification_preferences := ∅;
  push_tokens := [alice_phone];
  notification_history := []
|}.



Definition noon : Clock := {|
  now_rate_check := 1000000;
  now_rate_update := 1000200;
  now_iso := "2024-01-01T12:00:00.000Z"
|}.

Definition liked_15 : Data :=
  {[ "eventName" := JStr "Summer Party"; "likeCount" := JNum 15;
     "photoId" := JStr "photo-7"; "eventId" := JStr "event-3" ]}.

Definition liked_0 : Data :=
  {[ "eventName" := JStr "Summer Party"; "likeCount" := JNum 0 ]}.

Definition live_data : Data := {[ "eventName" := JStr "Summer Party" ]}.

Definition a_second_later : Clock := {|
  now_rate_check := 1001000;
  now_rate_update := 1001200;
  now_iso := "2024-01-01T12:00:01.000Z"
|}.

Definition two_seconds_later : Clock := {|
  now_rate_check := 1002000;
  now_rate_update := 1002200;
  now_iso := "2024-01-01T12:00:02.000Z"
|}.

Definition next_minute : Clock := {|
  now_rate_check := 1070000;
  now_rate_update := 1070200;
  now_iso := "2024-01-01T12:01:10.000Z"
|}.

Definition peak_data : Data :=
  {[ "eventName" := JStr "Summer Party"; "recentPhotoCount" := JNum 40 ]}.

(** *** Caches *)

Definition moderated_event : PhotoUrlCache.Event := {|
  PhotoUrlCache.ev_id := "event-3";
  PhotoUrlCache.created_by := "olivia";
  PhotoUrlCache.require_moderation := true;
  PhotoUrlCache.event_organizers := Some []
|}.

Definition photo (n : Z) : PhotoUrlCache.Photo := {|
  PhotoUrlCache.id := "photo-" +:+ pretty n;
  PhotoUrlCache.photo_url := Some ("event-3/photo-" +:+ pretty n +:+ ".jpg");
  PhotoUrlCache.uploaded_by_id := "bob";
  PhotoUrlCache.created_at := 1000 * n;
  PhotoUrlCache.like_count_computed := Some (100 - n);
  PhotoUrlCache.moderation_status := "approved"
|}.

Definition paths_25 : list string :=
  (fun n => "event-3/photo-" +:+ pretty n +:+ ".jpg") <$> seqZ 1 25.

(** Object storage that throws on photo 13 and signs every other path; a
    photos table that always answers with three rows out of 1000. *)
Definition storage : PhotoUrlCache.Backend := {|
  PhotoUrlCache.select_event := fun _ => Ok moderated_event;
  PhotoUrlCache.run_query := fun _ =>
    Ok {| PhotoUrlCache.rows := Some [photo 1; photo 2; photo 3];
          PhotoUrlCache.count := Some 1000 |};
  PhotoUrlCache.createSignedUrl := fun path _ =>
    if String.eqb path "event-3/photo-13.jpg"
    then PhotoUrlCache.StorageException "socket hang up"
    else PhotoUrlCache.Signed (Some ("https://storage.example/sign/" +:+ path));
  PhotoUrlCache.url_pathname := fun u => Ok u;
  PhotoUrlCache.token_view := fun _ => PhotoUrlCache.NoExpiry;
  PhotoUrlCache.round_percent := fun a b => (200 * a + b) / (2 * b)
|}.

(** The same, with a photos table that fails. *)
Definition broken_database : PhotoUrlCache.Backend := {|
  PhotoUrlCache.select_event := fun _ => Ok moderated_event;
  PhotoUrlCache.run_query := fun _ => Throw "connection refused";
  PhotoUrlCache.createSignedUrl := fun path _ =>
    PhotoUrlCache.Signed (Some ("https://storage.example/sign/" +:+ path));
  PhotoUrlCache.url_pathname := fun u => Ok u;
  PhotoUrlCache.token_view := fun _ => PhotoUrlCache.NoExpiry;
  PhotoUrlCache.round_percent := fun a b => (200 * a + b) / (2 * b)
|}.

Definition empty_cache {P : Type} : Redis.Kv P := {|
  Redis.reachable := true;
  Redis.slots := ∅
|}.

Definition old_page : PhotoUrlCache.EventResult := {|
  PhotoUrlCache.photos := [];
  PhotoUrlCache.urls := ∅;
  PhotoUrlCache.total_count := 3;
  PhotoUrlCache.page := 1;
  PhotoUrlCache.limit := 50;
  PhotoUrlCache.total_pages := Some 1;
  PhotoUrlCache.url_stats := {| PhotoUrlCache.stat_cached_count := 0;
                                PhotoUrlCache.stat_generated_count := 0;
                                PhotoUrlCache.stat_cache_hit_rate := 0 |};
  PhotoUrlCache.generated_at := 0
|}.

(** A key-value store that still holds the anonymous page 1 of the event,
    written at time 0 for 30 minutes, ten milliseconds past its expiry. *)
Definition expired_photo_cache : Redis.Kv PhotoUrlCache.Stored := {|
  Redis.reachable := true;
  Redis.slots :=
    {[ PhotoUrlCache.cacheKey "event-3" "most_liked" "anonymous" "moderated" 1 50 :=
         {| Redis.content := {| Redis.body := PhotoUrlCache.PageEntry old_page;
                                Redis.cached_at := Some 0;
                                Redis.expires_at := Some 1800000 |};
            Redis.deadline := 1800050 |} ]}
|}.

Definition just_expired : Z := 1800010.

Definition old_participants : ParticipantsCache.PageResult := {|
  ParticipantsCache.participants := ["alice"; "bob"];
  ParticipantsCache.total_count := 2;
  ParticipantsCache.page := 1;
  ParticipantsCache.limit := 20;
  ParticipantsCache.total_pages := 1;
  ParticipantsCache.has_more := false;
  ParticipantsCache.source := "normalized";
  ParticipantsCache.generated_at := 0
|}.

Definition expired_participants_cache : Redis.Kv ParticipantsCache.Stored := {|
  Redis.reachable := true;
  Redis.slots :=
    {[ ParticipantsCache.cacheKey "event-3" 1 20 :=
         {| Redis.content := {| Redis.body := ParticipantsCache.PageEntry old_participants;
                                Redis.cached_at := Some 0;
                                Redis.expires_at := Some 1800000 |};
            Redis.deadline := 1800050 |} ]}
|}.

Definition failing_fetch (eventId : string) (page limit : Z)
  : result ParticipantsCache.PageResult := Throw "connection refused".

(** *** Provider SDKs *)

(** The SDK's format check on the two bracketed spellings of an Expo token. *)
Definition bracketed (tok : string) : bool :=
  (String.prefix "ExponentPushToken[" tok || String.prefix "ExpoPushToken[" tok)
  && String.eqb (String.substring (String.length tok - 1) 1 tok) "]".

Definition ok_ticket : ExpoPush.Ticket :=
  {| ExpoPush.status := "ok"; ExpoPush.details_error := None |}.

Definition unregistered_ticket : ExpoPush.Ticket :=
  {| ExpoPush.status := "error";
     ExpoPush.details_error := Some "DeviceNotRegistered" |}.

(** An Expo service that delivers to every device but the one that was
    uninstalled. *)
Definition expo_service (chunk : list ExpoPush.Message)
  : result (list ExpoPush.Ticket) :=
  Ok ((fun m => if String.eqb (ExpoPush.m_to m) "ExponentPushToken[gone]"
                then unregistered_ticket else ok_ticket) <$> chunk).

Definition fcm_service (notification : Templates.Notification) (data : Data)
    (batch : list string) : result Fcm.BatchResponse :=
  Ok {| Fcm.br_successCount := lenZ batch;
        Fcm.br_failureCount := 0;
        Fcm.br_responses :=
          (fun _ => {| Fcm.sr_success := true; Fcm.sr_error_code := None |}) <$> batch |}.

Definition party_notification : Templates.Notification := {|
  Templates.n_type := "event_live";
  Templates.n_title := "Event is live! 🎉";
  Templates.n_body := "Summer Party has started! Start capturing and sharing memories";
  Templates.n_priority := "high";
  Templates.n_channel := "event-updates";
  Templates.n_sound := "event_start";
  Templates.n_vibration := true;
  Templates.n_imageUrl := JNull;
  Templates.n_data := live_data
|}.

Definition mixed_tokens : list string :=
  [ "ExponentPushToken[alice-phone]"; "ExponentPushToken[gone]";
    "ExponentPushToken[bob-tablet]" ].

Definition with_malformed_token : list string :=
  [ "ExponentPushToken[alice-phone]"; "ExponentPushTokenBAD" ].

End Scenarios.

(** ** The buckets of the dispatch loop *)

Module Dispatch.

Import Supabase NotificationService.

(** The token falls in one of the four buckets of [sendToDevices]: it has
    the Expo prefix, or its platform is [android] or [ios]. *)
Definition recognised (t : DeviceToken) : bool :=
  is_expo t || String.eqb (platform t) "android" || String.eqb (platform t) "ios".

(** A provider adapter threw. *)
Definition threw {A} (r : result A) : Prop := returned r = None.

(** A step of the loop that counted [k] more failures and nothing else. *)
Record same_but_failed (r r' : DeviceResults) (k : Z) : Prop := {
  sbf_total : total r' = total r;
  sbf_successful : successful r' = successful r;
  sbf_failed : failed r' = failed r + k;
  sbf_invalid : invalidTokens r' = invalidTokens r
}.

End Dispatch.

(** ** notification-service.js: housekeeping and bulk sends *)

Module Service.

Import Supabase NotificationService.


(** One element of [results.details]: [{ userId, ...result }]. *)
Record Detail : Type := {
  d_userId : string;
  d_result : Outcome
}.

(** The object returned by [sendBulkNotification]. *)
Record BulkResults : Type := {
  bulk_successful : Z;
  bulk_failed : Z;
  details : list Detail
}.

Section Bulk.

(** The state the calls share: the rate-limit map, the store, the
    providers. *)
Context {S : Type}.

(** [Promise.all] over one slice of users.  The calls of a slice are
    started together and interleave at their awaits, so what one call
    returns may depend on the others; the code fixes that every call settles
    with the object [sendNotification] returns (it catches every exception,
    so the [catch] of the slice is never taken) and that the results keep
    the order of the slice.  [settled s type data batch i] is the object
    returned by the call for the user at index [i] of [batch], the slice
    starting in state [s]; [after s type data batch] is the state once the
    slice has settled. *)
Variable settled : S -> string -> Data -> list string -> nat -> Outcome.
Variable after : S -> string -> Data -> list string -> S.

(** The body of [batchResults.forEach]. *)
Definition tally (results : BulkResults) (d : Detail) : BulkResults :=
  if success (d_result d) then
    {| bulk_successful := bulk_successful results + 1;
       bulk_failed := bulk_failed results;
       details := details results ++ [d] |}
  else
    {| bulk_successful := bulk_successful results;
       bulk_failed := bulk_failed results + 1;
       details := details results ++ [d] |}.

(** One turn of the loop over slices of 50 users. *)
Definition send_slice (type : string) (data : Data) (acc : BulkResults * S)
    (batch : list string) : BulkResults * S :=
  let batchResults :=
    imap (fun i userId => {| d_userId := userId;
                             d_result := settled acc.2 type data batch i |}) batch in
  (foldl tally acc.1 batchResults, after acc.2 type data batch).

(** [sendBulkNotification(userIds, type, data)] *)
Definition sendBulkNotification (s : S) (userIds : list string) (type : string)
    (data : Data) : BulkResults * S :=
  foldl (send_slice type data)
        ({| bulk_successful := 0; bulk_failed := 0; details := [] |}, s)
        (slices 50 userIds).

End Bulk.

(** The results after some more entries were counted. *)
Record tallied (before after_ : BulkResults) (ds : list Detail) : Prop := {
  t_details : details after_ = (details before ++ ds)%list;
  t_total : bulk_successful after_ + bulk_failed after_
            = bulk_successful before + bulk_failed before + lenZ ds;
  t_successful :
    bulk_successful after_
    = bulk_successful before
      + lenZ (List.filter (fun d => success (d_result d)) ds)
}.

(** A schedule in which the calls of a slice run one after the other, each
    on what the previous one left; [clock i] is the clock of the call at
    index [i] of the slice. *)
Fixpoint in_turn (p : Providers) (b : Backend) (clock : nat -> Clock) (i : nat)
    (rl : gmap string RateLimit) (db : Store) (type : string) (data : Data)
    (batch : list string) : list Run :=
  match batch with
  | [] => []
  | userId :: rest =>
      let r := sendNotification p b (clock i) rl db userId type data in
      r :: in_turn p b clock (S i) (rateLimits r) (store r) type data rest
  end.

Definition settled_in_turn (p : Providers) (b : Backend) (clock : nat -> Clock)
    (s : gmap string RateLimit * Store) (type : string) (data : Data)
    (batch : list string) (i : nat) : Outcome :=
  match in_turn p b clock 0 s.1 s.2 type data batch !! i with
  | Some r => outcome r
  | None => Failed "no such call"
  end.

Definition after_in_turn (p : Providers) (b : Backend) (clock : nat -> Clock)
    (s : gmap string RateLimit * Store) (type : string) (data : Data)
    (batch : list string) : gmap string RateLimit * Store :=
  match last (in_turn p b clock 0 s.1 s.2 type data batch) with
  | Some r => (rateLimits r, store r)
  | None => s
  end.

End Service.

(** ** redis.js: counters, and the request limits built on them *)

Module Counters.

(** An integer key and the instant at which the store drops it, if it has
    a time to live. *)
Record Counter : Type := {
  value : Z;
  expires : option Z
}.

(** The integer keys of the key-value store ([cache_stats:], [rate_limit:]). *)
Record CounterStore : Type := {
  c_reachable : bool;
  counters : gmap string Counter
}.

Definition live_counter (cs : CounterStore) (now : Z) (key : string)
  : option Counter :=
  match counters cs !! key with
  | Some c =>
      match expires c with
      | Some d => if Z.ltb now d then Some c else None
      | None => Some c
      end
  | None => None
  end.

(** The largest value [INCR] accepts to increment is [2^63 - 2]. *)
Definition max_int64 : Z := 2 ^ 63 - 1.

(** [incrementCounter(key, ttlSeconds)] at time [now]: [INCR], then [EXPIRE]
    when the counter reads 1.  The fallback of the wrapper, 0, is returned
    when the store cannot be reached or refuses the increment.  [EXPIRE] with
    a time to live that is not positive deletes the key. *)
Definition incrementCounter (cs : CounterStore) (now : Z) (key : string)
    (ttlSeconds : Z) : Z * CounterStore :=
  if c_reachable cs then
    let current := live_counter cs now key in
    let old := match current with Some c => value c | None => 0 end in
    if Z.leb max_int64 old then (0, cs)
    else
      let count := old + 1 in
      let kept := match current with Some c => expires c | None => None end in
      let stored :=
        if Z.eqb count 1 then
          if Z.ltb 0 ttlSeconds then
            <[key := {| value := count; expires := Some (now + ttlSeconds * 1000) |}]>
              (counters cs)
          else delete key (counters cs)
        else <[key := {| value := count; expires := kept |}]> (counters cs) in
      (count, {| c_reachable := true; counters := stored |})
  else (0, cs).

(** [checkRateLimit(identifier)] of the participants cache: the number of
    requests that remain, or the exception. *)
Definition checkRateLimit (cs : CounterStore) (now : Z) (identifier : string)
  : result Z * CounterStore :=
  let '(count, cs') :=
    incrementCounter cs now ("rate_limit:participants:" +:+ identifier) 60 in
  if Z.ltb 100 count then (Throw "Rate limit exceeded", cs')
  else (Ok (100 - count), cs').

(** [checkPhotoUrlRateLimit(identifier)] of the photo URL cache. *)
Definition checkPhotoUrlRateLimit (cs : CounterStore) (now : Z)
    (identifier : string) : result Z * CounterStore :=
  let '(count, cs') :=
    incrementCounter cs now ("rate_limit:photo_urls:" +:+ identifier) 60 in
  if Z.ltb 200 count then (Throw "Rate limit exceeded for photo URL requests", cs')
  else (Ok (200 - count), cs').

(** What the [n]-th request of a window is answered. *)
Definition verdict (n : Z) : result Z :=
  if Z.ltb 100 n then Throw "Rate limit exceeded" else Ok (100 - n).

(** Successive requests of one client, one per clock reading. *)
Fixpoint checkMany (cs : CounterStore) (times : list Z) (identifier : string)
  : list (result Z) * CounterStore :=
  match times with
  | [] => ([], cs)
  | now :: rest =>
      let '(r, cs1) := checkRateLimit cs now identifier in
      let '(rs, csN) := checkMany cs1 rest identifier in
      (r :: rs, csN)
  end.

End Counters.

(** ** supabase.js: registering a push token *)

Module Registry.

Import Supabase.

(** Which of the requests of [storePushToken] the store fails. *)
Record Failures : Type := {
  token_select_fails : bool;
  token_update_fails : bool;
  token_insert_fails : bool
}.

Definition with_tokens (db : Store) (rows : list PushTokenRow) : Store := {|
  notification_preferences := notification_preferences db;
  push_tokens := rows;
  notification_history := notification_history db
|}.

(** The update of the row that holds the token. *)
Definition reassign (userId tok platform deviceId : string) (r : PushTokenRow)
  : PushTokenRow :=
  if String.eqb (pt_token r) tok then
    {| pt_user_id := userId;
       pt_token := pt_token r;
       pt_platform := platform;
       pt_device_id := deviceId;
       pt_is_active := true;
       pt_token_type := pt_token_type r;
       pt_device_token := pt_device_token r |}
  else r.

(** The inserted row; [token_type] and [device_token] take the defaults of
    the migration. *)
Definition new_row (userId tok platform deviceId : string) : PushTokenRow := {|
  pt_user_id := userId;
  pt_token := tok;
  pt_platform := platform;
  pt_device_id := deviceId;
  pt_is_active := true;
  pt_token_type := Some "expo";
  pt_device_token := None
|}.

(** [storePushToken(userId, token, platform, deviceId)].  [.single()] gives
    no row unless exactly one row matches; the error of the lookup is not
    read. *)
Definition storePushToken (f : Failures) (db : Store)
    (userId tok platform deviceId : string) : bool * Store :=
  let matching := List.filter (fun r => String.eqb (pt_token r) tok) (push_tokens db) in
  let existing :=
    if token_select_fails f then false else Nat.eqb (length matching) 1 in
  if existing then
    if token_update_fails f then (false, db)
    else (true, with_tokens db (reassign userId tok platform deviceId <$> push_tokens db))
  else
    if token_insert_fails f then (false, db)
    else (true, with_tokens db (push_tokens db ++ [new_row userId tok platform deviceId])).

End Registry.

(** ** participants-cache.js: reading the participants from the database *)

Module ParticipantsDb.

(** [xs.slice(start, end)]: a negative index counts from the end. *)
Definition js_slice {A} (start end_ : Z) (xs : list A) : list A :=
  let len := lenZ xs in
  let from := if Z.ltb start 0 then Z.max (len + start) 0 else Z.min start len in
  let to := if Z.ltb end_ 0 then Z.max (len + end_) 0 else Z.min end_ len in
  take (Z.to_nat (to - from)) (drop (Z.to_nat from) xs).

(** A row of [users], as the queries select it. *)
Record User : Type := {
  u_id : string;
  u_name : option string;
  u_email : option string;
  u_profile_pic : option string;
  u_created_at : option Z
}.

(** A participant object: a row of [event_participants] with its user, or
    the object built from the legacy array. *)
Record Participant : Type := {
  p_id : string;
  p_event_id : string;
  p_user_id : string;
  p_joined_at : Z;
  p_photo_count : option Z;
  p_last_activity : option Z;
  p_users : option User
}.

(** [{ data, error, count }] of the query on [event_participants]. *)
Record NormalizedAnswer : Type := {
  na_data : option (list Participant);
  na_error : option string;
  na_count : option Z
}.

(** The columns [participants, participant_names] of an event. *)
Record LegacyEvent : Type := {
  le_participants : option (list string);
  le_participant_names : option (gmap string string)
}.

(** The three queries; an error of the second or third is [Throw]. *)
Record Db : Type := {
  select_participants : string -> Z * Z -> NormalizedAnswer;
  select_legacy_event : string -> result (option LegacyEvent);
  select_users : list string -> result (option (list User))
}.

(** The object returned by [fetchParticipantsFromDatabase]. *)
Record Page : Type := {
  participants : list Participant;
  total_count : option Z;
  page : Z;
  limit : Z;
  total_pages : option Z;
  has_more : bool;
  source : string;
  generated_at : Z
}.

(** [usersData.find(u => u.id === userId) || { id: userId, name: ..., ... }] *)
Definition user_of (usersData : list User) (event : LegacyEvent) (userId : string)
  : User :=
  match List.find (fun u => String.eqb (u_id u) userId) usersData with
  | Some u => u
  | None =>
      let named :=
        match le_participant_names event with
        | Some names =>
            match names !! userId with
            | Some n => if String.eqb n "" then None else Some n
            | None => None
            end
        | None => None
        end in
      {| u_id := userId;
         u_name := Some (default ("User " +:+ userId) named);
         u_email := None;
         u_profile_pic := None;
         u_created_at := None |}
  end.

(** [fetchParticipantsFromDatabase(eventId, page, limit, userId)];
    [joined i] is the clock when the participant at index [i] of a legacy
    page is built, [generated] the clock when the result is. *)
Definition fetchParticipantsFromDatabase (db : Db) (joined : nat -> Z)
    (generated : Z) (eventId : string) (page limit : Z) : result Page :=
  let offset := (page - 1) * limit in
  let normalized := select_participants db eventId (offset, offset + limit - 1) in
  let usable :=
    match na_error normalized, na_data normalized with
    | None, Some (row :: rows) => Some (row :: rows)
    | _, _ => None
    end in
  match usable with
  | Some rows =>
      let count := default 0 (na_count normalized) in
      Ok {| participants := rows;
            total_count := na_count normalized;
            page := page;
            limit := limit;
            total_pages := PhotoUrlCache.ceil_div count limit;
            has_more := Z.ltb (offset + limit) count;
            source := "normalized";
            generated_at := generated |}
  | None =>
      match select_legacy_event db eventId with
      | Throw message => Throw message
      | Ok eventData =>
          match mjoin (le_participants <$> eventData), eventData with
          | Some (first :: others), Some event =>
              let allParticipants := first :: others in
              let totalCount := lenZ allParticipants in
              let paginatedUserIds :=
                js_slice offset (offset + limit) allParticipants in
              match select_users db paginatedUserIds with
              | Throw message => Throw message
              | Ok usersData =>
                  match usersData, paginatedUserIds with
                  | None, _ :: _ =>
                      Throw "Cannot read properties of null (reading 'find')"
                  | _, _ =>
                      Ok {| participants :=
                              imap (fun index userId =>
                                      {| p_id := "legacy_" +:+ userId +:+ "_"
                                                 +:+ pretty (offset + Z.of_nat index);
                                         p_event_id := eventId;
                                         p_user_id := userId;
                                         p_joined_at := joined index;
                                         p_photo_count := Some 0;
                                         p_last_activity := None;
                                         p_users :=
                                           Some (user_of (default [] usersData) event
                                                   userId) |})
                                   paginatedUserIds;
                            total_count := Some totalCount;
                            page := page;
                            limit := limit;
                            total_pages := PhotoUrlCache.ceil_div totalCount limit;
                            has_more := Z.ltb (offset + limit) totalCount;
                            source := "legacy";
                            generated_at := generated |}
                  end
              end
          | _, _ =>
              Ok {| participants := [];
                    total_count := Some 0;
                    page := page;
                    limit := limit;
                    total_pages := Some 0;
                    has_more := false;
                    source := "legacy_empty";
                    generated_at := generated |}
          end
      end
  end.

(** The user ids on the page, nothing when the read fails. *)
Definition user_ids (r : result Page) : list string :=
  match r with
  | Ok pg => p_user_id <$> participants pg
  | Throw _ => []
  end.

(** The normalized table has nothing for the event, which keeps its
    participants in the legacy array [everyone]; the users query answers. *)
Record legacy_only (db : Db) (eventId : string) (everyone : list string) : Prop := {
  lo_normalized :
    forall range, na_data (select_participants db eventId range) = Some []
                  \/ na_data (select_participants db eventId range) = None;
  lo_event :
    exists event, select_legacy_event db eventId = Ok (Some event)
                  /\ le_participants event = Some everyone;
  lo_users :
    forall ids, exists users, select_users db ids = Ok (Some users)
}.

(** *** Metadata computed from the normalized rows *)

(** A row as [generateParticipantMetadata] selects it; a [null] timestamp
    is [None]. *)
Record MetaRow : Type := {
  m_user_id : string;
  m_joined_at : option Z;
  m_photo_count : option Z;
  m_last_activity : option Z
}.

Record Contributor : Type := {
  c_user_id : string;
  c_photo_count : option Z;
  c_last_activity : option Z
}.

(** The object returned by [generateNormalizedMetadata];
    [avg_photos_per_participant] is [avg_tenths / 10]. *)
Record Metadata : Type := {
  md_event_id : string;
  md_total_count : Z;
  md_total_photos : Z;
  md_active_today : Z;
  md_active_this_week : Z;
  md_new_participants_today : Z;
  md_avg_tenths : Z;
  md_participation_rate : Z;
  md_top_contributors : list Contributor;
  md_last_participant_joined : option Z;
  md_generated_at : Z;
  md_source : string
}.

(** [p.photo_count || 0] *)
Definition photos_of (p : MetaRow) : Z :=
  match m_photo_count p with Some n => n | None => 0 end.

(** [new Date(p.joined_at).getTime()]; [new Date(null)] is the epoch. *)
Definition joined_time (p : MetaRow) : Z := default 0 (m_joined_at p).

(** [Array.prototype.sort] with the comparator
    [(a, b) => (b.photo_count || 0) - (a.photo_count || 0)]: the sort is
    stable, so rows with equal counts keep their order. *)
Fixpoint insert_by_photos (x : MetaRow) (sorted : list MetaRow) : list MetaRow :=
  match sorted with
  | [] => [x]
  | y :: rest =>
      if Z.ltb (photos_of y) (photos_of x) then x :: y :: rest
      else y :: insert_by_photos x rest
  end.

Definition sort_by_photos (rows : list MetaRow) : list MetaRow :=
  foldl (fun sorted x => insert_by_photos x sorted) [] rows.

(** Photo counts never increase along the list. *)
Fixpoint descending (counts : list Z) : bool :=
  match counts with
  | [] => true
  | x :: rest =>
      match rest with
      | [] => true
      | y :: _ => Z.leb y x && descending rest
      end
  end.

Definition day : Z := 24 * 60 * 60 * 1000.

Section Metadata.

(** [Math.round(a / b * k)], in double-precision arithmetic. *)
Variable round_ratio : Z -> Z -> Z -> Z.

(** [generateNormalizedMetadata(eventId, participants)]; [now] and
    [generated] are the two readings of the clock. *)
Definition generateNormalizedMetadata (now generated : Z) (eventId : string)
    (rows : list MetaRow) : Metadata :=
  let oneDayAgo := now - day in
  let oneWeekAgo := now - 7 * day in
  let totalCount := lenZ rows in
  let totalPhotos := foldl (fun sum p => sum + photos_of p) 0 rows in
  let active_since (since : Z) (p : MetaRow) : bool :=
    match m_last_activity p with
    | Some t => Z.ltb since t
    | None => false
    end in
  let activeToday := lenZ (List.filter (active_since oneDayAgo) rows) in
  let activeThisWeek := lenZ (List.filter (active_since oneWeekAgo) rows) in
  let newParticipants :=
    lenZ (List.filter (fun p => Z.ltb oneDayAgo (joined_time p)) rows) in
  let topContributors :=
    (fun p => {| c_user_id := m_user_id p;
                 c_photo_count := m_photo_count p;
                 c_last_activity := m_last_activity p |})
      <$> take 5 (sort_by_photos
                    (List.filter (fun p => match m_photo_count p with
                                           | Some n => Z.ltb 0 n
                                           | None => false
                                           end) rows)) in
  {| md_event_id := eventId;
     md_total_count := totalCount;
     md_total_photos := totalPhotos;
     md_active_today := activeToday;
     md_active_this_week := activeThisWeek;
     md_new_participants_today := newParticipants;
     md_avg_tenths :=
       if Z.ltb 0 totalCount then round_ratio totalPhotos totalCount 10 else 0;
     md_participation_rate :=
       if Z.ltb 0 totalCount then round_ratio activeThisWeek totalCount 100 else 0;
     md_top_contributors := topContributors;
     md_last_participant_joined :=
       match rows with
       | [] => None
       | first :: others => Some (foldl Z.max (joined_time first) (joined_time <$> others))
       end;
     md_generated_at := generated;
     md_source := "normalized" |}.

End Metadata.

End ParticipantsDb.

(** ** redis.js, participants-cache.js, photo-url-cache.js: invalidation *)

Module Invalidation.

Import Redis.

Section Patterns.

Context {P : Type}.

(** The glob matcher of the store behind [KEYS pattern]: pattern first,
    key second. *)
Variable stringmatch : string -> string -> bool.

(** [client.keys(pattern)] at [now]. *)
Definition keys (kv : Kv P) (now : Z) (pattern : string) : gmap string (Slot P) :=
  filter (fun entry => stringmatch pattern entry.1 = true /\ now < deadline entry.2)
    (slots kv).

(** [deleteCachePattern(pattern)]: the number of keys deleted, [0] when
    the store cannot be reached. *)
Definition deleteCachePattern (kv : Kv P) (now : Z) (pattern : string) : Z * Kv P :=
  if reachable kv then
    let found := keys kv now pattern in
    if Z.ltb 0 (Z.of_nat (size found)) then
      (Z.of_nat (size found),
       {| reachable := reachable kv; slots := slots kv ∖ found |})
    else (0, kv)
  else (0, kv).

(** [for (const pattern of patterns) { await deleteCachePattern(pattern) }] *)
Definition delete_each (kv : Kv P) (now : Z) (patterns : list string) : Kv P :=
  foldl (fun kv pattern => (deleteCachePattern kv now pattern).2) kv patterns.

End Patterns.

(** [invalidateParticipantCache(eventId)] *)
Definition invalidateParticipantCache (stringmatch : string -> string -> bool)
    (kv : Kv ParticipantsCache.Stored) (now : Z) (eventId : string)
  : Kv ParticipantsCache.Stored :=
  (deleteCachePattern stringmatch kv now
     (ParticipantsCache.PREFIX +:+ eventId +:+ "*")).2.

(** [invalidateEventPhotoCache(eventId, specificPaths = null)];
    [specificPaths] is [null] or an array. *)
Definition invalidateEventPhotoCache (stringmatch : string -> string -> bool)
    (kv : Kv PhotoUrlCache.Stored) (now : Z) (eventId : string)
    (specificPaths : option (list string)) : Kv PhotoUrlCache.Stored :=
  match specificPaths with
  | Some paths => delete_each stringmatch kv now (PhotoUrlCache.url_key <$> paths)
  | None =>
      delete_each stringmatch kv now
        [PhotoUrlCache.EVENT_PREFIX +:+ eventId +:+ "*";
         PhotoUrlCache.BATCH_PREFIX +:+ eventId +:+ "*"]
  end.

End Invalidation.

(** ** api/cron/process-webhooks.js: the queued notifications *)

Module Queue.

Import Supabase NotificationService.

(** A row of [notification_queue], as the loop reads it. *)
Record Queued : Type := {
  q_id : string;
  q_user_id : string;
  q_notification_type : string;
  q_data : option Data;
  q_retry_count : option Z
}.

(** The object passed to [update]; a property that is not set is [None].
    Instants are in milliseconds, their ISO rendering is left out. *)
Record Update : Type := {
  u_status : string;
  u_processing_started_at : option Z;
  u_processing_completed_at : option Z;
  u_sent_at : option Z;
  u_devices_reached : option Z;
  u_error_message : option string;
  u_retry_count : option Z;
  u_scheduled_for : option Z
}.

(** The readings of the clock while one row is handled. *)
Record Times : Type := {
  t_started : Z;
  t_send : Clock;
  t_completed : Z;
  t_sent : Z;
  t_retry : Z;
  t_failed : Z
}.

(** [{ data, error }] of the select on [notification_queue]. *)
Record Selection : Type := {
  sel_data : option (list Queued);
  sel_error : option string
}.

(** What the loop has done so far: the counter, the rate-limit map of the
    service and the store, the updates of the queue table with the [id] they
    were made for, and the adapter calls. *)
Record State : Type := {
  processedCount : Z;
  st_rateLimits : gmap string RateLimit;
  st_store : Store;
  updates : list (string * Update);
  st_calls : list ProviderCall
}.

Definition marked_processing (t : Times) : Update := {|
  u_status := "processing";
  u_processing_started_at := Some (t_started t);
  u_processing_completed_at := None;
  u_sent_at := None;
  u_devices_reached := None;
  u_error_message := None;
  u_retry_count := None;
  u_scheduled_for := None
|}.

Definition marked_failed (t : Times) (message : string) : Update := {|
  u_status := "failed";
  u_processing_started_at := None;
  u_processing_completed_at := Some (t_failed t);
  u_sent_at := None;
  u_devices_reached := None;
  u_error_message := Some message;
  u_retry_count := None;
  u_scheduled_for := None
|}.

(** [updateData], built from the result of the send. *)
Definition completion (row : Queued) (t : Times) (result : Outcome) : Update :=
  if success result then
    {| u_status := "sent";
       u_processing_started_at := None;
       u_processing_completed_at := Some (t_completed t);
       u_sent_at := Some (t_sent t);
       u_devices_reached := Some (default 0 (devicesReached result));
       u_error_message := None;
       u_retry_count := None;
       u_scheduled_for := None |}
  else
    let retry_count := default 0 (q_retry_count row) + 1 in
    {| u_status := if Z.ltb retry_count 3 then "pending" else "failed";
       u_processing_started_at := None;
       u_processing_completed_at := Some (t_completed t);
       u_sent_at := None;
       u_devices_reached := None;
       u_error_message :=
         Some (match error result with
               | Some e => if String.eqb e "" then "Unknown error" else e
               | None => "Unknown error"
               end);
       u_retry_count := Some retry_count;
       u_scheduled_for :=
         if Z.ltb retry_count 3 then Some (t_retry t + retry_count * 5 * 60 * 1000)
         else None |}.


Section Processing.

Variable p : Providers.
Variable b : Backend.

(** The message with which an [update] of the queue table throws, if it
    does; an error it only returns is ignored by the loop. *)
Variable update_throws : string -> Update -> option string.

(** The readings of the clock for the row at each index. *)
Variable times : nat -> Times.

Definition record (st : State) (id : string) (u : Update) : State := {|
  processedCount := processedCount st;
  st_rateLimits := st_rateLimits st;
  st_store := st_store st;
  updates := updates st ++ [(id, u)];
  st_calls := st_calls st
|}.

(** The [catch] of the loop body; its own update is not guarded. *)
Definition on_error (st : State) (t : Times) (row : Queued) (message : string)
  : option string * State :=
  match update_throws (q_id row) (marked_failed t message) with
  | Some thrown => (Some thrown, st)
  | None => (None, record st (q_id row) (marked_failed t message))
  end.

(** One turn of the loop: the message thrown out of it, if any, and the
    state. *)
Definition process_one (st : State) (index : nat) (row : Queued)
  : option string * State :=
  let t := times index in
  match update_throws (q_id row) (marked_processing t) with
  | Some message => on_error st t row message
  | None =>
      let st1 := record st (q_id row) (marked_processing t) in
      let run := sendNotification p b (t_send t) (st_rateLimits st1) (st_store st1)
                   (q_user_id row) (q_notification_type row)
                   (default ∅ (q_data row)) in
      let st2 := {| processedCount := processedCount st1;
                    st_rateLimits := rateLimits run;
                    st_store := store run;
                    updates := updates st1;
                    st_calls := st_calls st1 ++ calls run |} in
      let updateData := completion row t (outcome run) in
      match update_throws (q_id row) updateData with
      | Some message => on_error st2 t row message
      | None =>
          let st3 := record st2 (q_id row) updateData in
          (None,
           {| processedCount := processedCount st3 + 1;
              st_rateLimits := st_rateLimits st3;
              st_store := st_store st3;
              updates := updates st3;
              st_calls := st_calls st3 |})
      end
  end.

Fixpoint process_from (index : nat) (rows : list Queued) (st : State)
  : result Z * State :=
  match rows with
  | [] => (Ok (processedCount st), st)
  | row :: rest =>
      match process_one st index row with
      | (Some message, st') => (Throw message, st')
      | (None, st') => process_from (S index) rest st'
      end
  end.

(** [processNotificationQueue()]; [selected] is the answer of the select,
    [Throw] when the call itself throws. *)
Definition processNotificationQueue (selected : result Selection)
    (rl : gmap string RateLimit) (db : Store) : result Z * State :=
  let start := {| processedCount := 0; st_rateLimits := rl; st_store := db;
                  updates := []; st_calls := [] |} in
  match selected with
  | Throw message => (Throw message, start)
  | Ok answer =>
      match sel_error answer, sel_data answer with
      | Some _, _ => (Ok 0, start)
      | None, None => (Ok 0, start)
      | None, Some [] => (Ok 0, start)
      | None, Some queuedNotifications => process_from 0 queuedNotifications start
      end
  end.

End Processing.

End Queue.

(** ** The hourly event reminders *)

Module Reminders.

(** The selected columns of an event and the [status] the query filters
    on; instants are in milliseconds. *)
Record Event : Type := {
  e_id : string;
  e_name : string;
  e_start_time : Z;
  e_organizer_id : string;
  e_status : string
}.

(** The [events] table, and the error with which a select on it fails for
    a given window. *)
Record Db : Type := {
  events : list Event;
  select_error : Z -> Z -> option string
}.

(** [{ data, error }] of
    [.gte('start_time', from).lte('start_time', to).in('status', ['upcoming', 'confirmed'])] *)
Definition select_events (db : Db) (from to : Z) : option (list Event) * option string :=
  match select_error db from to with
  | Some message => (None, Some message)
  | None =>
      (Some (List.filter
               (fun e => Z.leb from (e_start_time e) && Z.leb (e_start_time e) to
                         && (String.eqb (e_status e) "upcoming"
                             || String.eqb (e_status e) "confirmed"))
               (events db)),
       None)
  end.

Record Results : Type := {
  remindersSent : Z;
  eventsChecked : Z;
  errors : Z
}.

Section Reminders.

(** [sendEventStartingNotification(event, minutesUntil)]: whether it
    throws. *)
Variable sendEventStartingNotification : Event -> Z -> result unit.

(** The loop over the events found; [made] lists the calls. *)
Definition remind (minutesUntil : Z) (acc : Results * list (Event * Z)) (event : Event)
  : Results * list (Event * Z) :=
  let '(results, made) := acc in
  (match sendEventStartingNotification event minutesUntil with
   | Ok _ => {| remindersSent := remindersSent results + 1;
                eventsChecked := eventsChecked results;
                errors := errors results |}
   | Throw _ => {| remindersSent := remindersSent results;
                   eventsChecked := eventsChecked results;
                   errors := errors results + 1 |}
   end,
   (made ++ [(event, minutesUntil)])%list).

(** [sendEventReminders()] at [now]: what it returns and the calls of
    [sendEventStartingNotification] it made. *)
Definition sendEventReminders (db : Db) (now : Z)
  : result Results * list (Event * Z) :=
  let results := {| remindersSent := 0; eventsChecked := 0; errors := 0 |} in
  let oneHourFromNow := now + 60 * 60 * 1000 in
  let startWindow := oneHourFromNow - 5 * 60 * 1000 in
  let endWindow := oneHourFromNow + 5 * 60 * 1000 in
  match select_events db startWindow endWindow with
  | (_, Some eventsError) => (Throw eventsError, [])
  | (Some (first :: others), None) =>
      let upcomingEvents := first :: others in
      let checked := {| remindersSent := 0;
                        eventsChecked := lenZ upcomingEvents;
                        errors := 0 |} in
      let '(final, made) := foldl (remind 60) (checked, []) upcomingEvents in
      (Ok final, made)
  | (_, None) =>
      let fifteenMinutesFromNow := now + 15 * 60 * 1000 in
      let startWindow15 := fifteenMinutesFromNow - 2 * 60 * 1000 in
      let endWindow15 := fifteenMinutesFromNow + 2 * 60 * 1000 in
      match select_events db startWindow15 endWindow15 with
      | (_, Some soonError) => (Ok results, [])
      | (Some (first :: others), None) =>
          let soonEvents := first :: others in
          let checked := {| remindersSent := 0;
                            eventsChecked := lenZ soonEvents;
                            errors := 0 |} in
          let '(final, made) := foldl (remind 15) (checked, []) soonEvents in
          (Ok final, made)
      | (_, None) => (Ok results, [])
      end
  end.

End Reminders.

(** The events of the table that a run at [now] finds in the window
    around [minutes] from now, [margin] minutes wide on each side. *)
Definition due (db : Db) (now minutes margin : Z) : list Event :=
  List.filter
    (fun e => Z.leb (now + (minutes - margin) * 60000) (e_start_time e)
              && Z.leb (e_start_time e) (now + (minutes + margin) * 60000)
              && (String.eqb (e_status e) "upcoming"
                  || String.eqb (e_status e) "confirmed"))
    (events db).

End Reminders.

(** ** api/cron/process-webhooks.js: notifications raised by database events *)

Module Webhooks.

(** What the handlers read: [count] of an exact count (it is [null] when
    the query fails), the selected row of [.single()] and the accepted
    participants of an event. *)
Record Db : Type := {
  select_photo : string -> option (string * string);   (* user_id, event_id *)
  count_likes : string -> option Z;
  count_photos : string -> option Z;
  count_photos_since : string -> Z -> option Z;
  accepted_participants : string -> option (list string);
  event_name : string -> option string
}.

(** A call of the notification service made by a handler. *)
Inductive Raised : Type :=
| ToUser (userId type : string) (data : Data)
    (* notificationService.sendNotification(userId, type, data) *)
| ToUsers (userIds : list string) (type : string) (data : Data).
    (* notificationService.sendBulkNotification(userIds, type, data) *)

(** [count] as a JavaScript value. *)
Definition counted (count : option Z) : JsVal :=
  match count with Some n => JNum n | None => JNull end.

(** [event?.name || fallback] *)
Definition name_or (name : option string) (fallback : string) : string :=
  match name with
  | Some n => if String.eqb n "" then fallback else n
  | None => fallback
  end.

(** [notifyPhotoLiked(userId, photoId, eventId, likeCount, eventName)] *)
Definition notifyPhotoLiked (userId photoId eventId : string) (likeCount : JsVal)
    (eventName : string) : Raised :=
  ToUser userId "photo_liked"
    (list_to_map [("photoId", JStr photoId); ("eventId", JStr eventId);
                  ("likeCount", likeCount); ("eventName", JStr eventName)]).

(** [notifyCommunityMilestone(userIds, eventId, eventName, milestone)] *)
Definition notifyCommunityMilestone (userIds : list string) (eventId eventName : string)
    (milestone : JsVal) : Raised :=
  ToUsers userIds "community_milestone"
    (list_to_map [("eventId", JStr eventId); ("eventName", JStr eventName);
                  ("milestone", milestone)]).

(** [notifyPeakActivity(userIds, eventId, eventName, recentPhotoCount)] *)
Definition notifyPeakActivity (userIds : list string) (eventId eventName : string)
    (recentPhotoCount : JsVal) : Raised :=
  ToUsers userIds "peak_activity"
    (list_to_map [("eventId", JStr eventId); ("eventName", JStr eventName);
                  ("recentPhotoCount", recentPhotoCount)]).

(** [handlePhotoLiked(record)], [record.photo_id] given. *)
Definition handlePhotoLiked (db : Db) (photo_id : string) : list Raised :=
  match select_photo db photo_id with
  | None => []
  | Some (user_id, event_id) =>
      let likeCount := count_likes db photo_id in
      [notifyPhotoLiked user_id photo_id event_id (counted likeCount)
         (name_or (event_name db event_id) "your event")]
  end.

Definition milestones : list Z := [50; 100; 250; 500; 1000].

(** [handleNewPhoto(record)] at [now], [record.event_id] given. *)
Definition handleNewPhoto (db : Db) (now : Z) (event_id : string) : list Raised :=
  let totalPhotos := count_photos db event_id in
  let milestone :=
    match totalPhotos with
    | Some n =>
        if bool_decide (n ∈ milestones) then
          match accepted_participants db event_id with
          | Some (first :: others) =>
              [notifyCommunityMilestone (first :: others) event_id
                 (name_or (event_name db event_id) "Event") (counted totalPhotos)]
          | _ => []
          end
        else []
    | None => []
    end in
  let oneHourAgo := now - 60 * 60 * 1000 in
  let recentPhotos := count_photos_since db event_id oneHourAgo in
  let peak :=
    match recentPhotos with
    | Some n =>
        if Z.leb 10 n && Z.eqb (Z.rem n 10) 0 then
          match accepted_participants db event_id with
          | Some (first :: others) =>
              [notifyPeakActivity (first :: others) event_id
                 (name_or (event_name db event_id) "Event") (counted recentPhotos)]
          | _ => []
          end
        else []
    | None => []
    end in
  milestone ++ peak.

(** Whether the service accepts the payload of a call. *)
Definition validates (r : Raised) : bool :=
  match r with
  | ToUser _ type data | ToUsers _ type data =>
      match Templates.validateNotificationData type data with
      | Ok _ => true
      | Throw _ => false
      end
  end.


End Webhooks.

(** ** More stores, backends and providers *)

Module Cases.

Import Supabase NotificationService.

(** The delivering adapters, the Expo one being the batch adapter over an
    Expo service that reports the uninstalled device. *)
Definition expo_through_sdk : Providers := {|
  sendBatchExpoPushNotifications := fun tokens notification data =>
    Ok (ExpoPush.sendBatchExpoPushNotifications Scenarios.bracketed (slices 100)
          Scenarios.expo_service "2024-01-01T12:00:00.000Z" tokens notification data);
  sendBatchFCMv1Notifications :=
    sendBatchFCMv1Notifications Scenarios.delivering_providers;
  sendBatchFCMNotifications :=
    sendBatchFCMNotifications Scenarios.delivering_providers;
  sendBatchAPNSNotifications :=
    sendBatchAPNSNotifications Scenarios.delivering_providers
|}.

Definition gone_phone : PushTokenRow := {|
  pt_user_id := "alice";
  pt_token := "ExponentPushToken[gone]";
  pt_platform := "android";
  pt_device_id := "phone-0";
  pt_is_active := true;
  pt_token_type := Some "expo";
  pt_device_token := None
|}.

(** Alice with her phone and a device on which the app was uninstalled. *)
Definition two_phones : Store := {|
  notification_preferences := ∅;
  push_tokens := [Scenarios.alice_phone; gone_phone];
  notification_history := []
|}.



(** A legacy FCM service that accepts a full chunk of 500 tokens and
    rejects any other chunk. *)
Definition fcm_full_chunks_only (notification : Templates.Notification)
    (data : Data) (batch : list string) : result Fcm.BatchResponse :=
  if Nat.eqb (length batch) 500 then Scenarios.fcm_service notification data batch
  else Throw "messaging/quota-exceeded".

Definition through_legacy_fcm : Providers := {|
  sendBatchExpoPushNotifications :=
    sendBatchExpoPushNotifications Scenarios.delivering_providers;
  sendBatchFCMv1Notifications :=
    sendBatchFCMv1Notifications Scenarios.delivering_providers;
  sendBatchFCMNotifications := fun tokens notification data =>
    Ok (Fcm.sendBatchFCMNotifications (Ok tt) fcm_full_chunks_only tokens
          notification data);
  sendBatchAPNSNotifications :=
    sendBatchAPNSNotifications Scenarios.delivering_providers
|}.

Definition android_device (i : Z) : DeviceToken := {|
  token := "fcm-token-" +:+ pretty i;
  platform := "android";
  device_id := "device-" +:+ pretty i;
  device_token := None;
  token_type := None
|}.

Definition android_501 : list DeviceToken := android_device <$> seqZ 1 501.

Definition working_fetch (eventId : string) (page limit : Z)
  : result ParticipantsCache.PageResult := Ok Scenarios.old_participants.


(** The query for the first 50 photos of the moderated event, newest first,
    as a guest sends it. *)
Definition newest_page_query : PhotoUrlCache.Query := {|
  PhotoUrlCache.q_event_id := "event-3";
  PhotoUrlCache.q_photo_type := "event";
  PhotoUrlCache.q_moderation := PhotoUrlCache.StatusEq "approved";
  PhotoUrlCache.q_order :=
    [ {| PhotoUrlCache.column := "created_at"; PhotoUrlCache.ascending := false;
         PhotoUrlCache.nullsFirst := None |} ];
  PhotoUrlCache.q_range := (0, 49)
|}.


(** The key-value store with no counter yet. *)
Definition no_counters : Counters.CounterStore := {|
  Counters.c_reachable := true;
  Counters.counters := ∅
|}.

(** Requests at milliseconds 1 to 101. *)
Definition burst : list Z := seqZ 1 101.

(** A store that answers every request of a registration. *)
Definition registry_up : Registry.Failures := {|
  Registry.token_select_fails := false;
  Registry.token_update_fails := false;
  Registry.token_insert_fails := false
|}.

(** An event that keeps its three participants in the legacy array; the
    normalized table has no row of it and [users] knows one of them. *)
Definition legacy_party : ParticipantsDb.Db := {|
  ParticipantsDb.select_participants := fun _ _ =>
    {| ParticipantsDb.na_data := Some [];
       ParticipantsDb.na_error := None;
       ParticipantsDb.na_count := Some 0 |};
  ParticipantsDb.select_legacy_event := fun _ =>
    Ok (Some {| ParticipantsDb.le_participants := Some ["ann"; "ben"; "cat"];
                ParticipantsDb.le_participant_names := Some {["ben" := "Benny"]} |});
  ParticipantsDb.select_users := fun ids =>
    Ok (Some (List.filter (fun u => bool_decide (ParticipantsDb.u_id u ∈ ids))
                [{| ParticipantsDb.u_id := "ann";
                    ParticipantsDb.u_name := Some "Ann";
                    ParticipantsDb.u_email := Some "ann@example.com";
                    ParticipantsDb.u_profile_pic := None;
                    ParticipantsDb.u_created_at := Some 1700000000000 |}]))
|}.

(** A matcher for the patterns the cache layers pass: a literal, with a
    final [*] standing for any rest. *)
Fixpoint literal_or_prefix (pattern key : string) : bool :=
  match pattern with
  | EmptyString => match key with EmptyString => true | String _ _ => false end
  | String c rest =>
      match rest with
      | EmptyString =>
          if Ascii.eqb c "*"%char then true
          else match key with
               | String d EmptyString => Ascii.eqb c d
               | _ => false
               end
      | String _ _ =>
          match key with
          | EmptyString => false
          | String d more => Ascii.eqb c d && literal_or_prefix rest more
          end
      end
  end.

(** The cache after the first page of event-3 was read from the
    database. *)
Definition warm_participants : Redis.Kv ParticipantsCache.Stored :=
  (ParticipantsCache.getEventParticipants working_fetch Scenarios.empty_cache 0
     "event-3" 1 20 false).2.

(** The photo cache after an anonymous read of the first page of event-3
    at time 1000. *)
Definition warm_photos : Redis.Kv PhotoUrlCache.Stored :=
  PhotoUrlCache.kv_after
    (PhotoUrlCache.getEventPhotoUrls Scenarios.storage Scenarios.empty_cache 1000
       "event-3" 1 50 false 3600 None "most_liked").

(** Three queued rows for Alice, the second with a payload that fails
    validation, the third on its third attempt. *)
Definition queued_rows : list Queue.Queued :=
  [ {| Queue.q_id := "q1"; Queue.q_user_id := "alice";
       Queue.q_notification_type := "photo_liked";
       Queue.q_data := Some Scenarios.liked_15; Queue.q_retry_count := Some 0 |};
    {| Queue.q_id := "q2"; Queue.q_user_id := "alice";
       Queue.q_notification_type := "photo_liked";
       Queue.q_data := None; Queue.q_retry_count := None |};
    {| Queue.q_id := "q3"; Queue.q_user_id := "alice";
       Queue.q_notification_type := "event_live";
       Queue.q_data := None; Queue.q_retry_count := Some 2 |} ].

Definition queue_times (index : nat) : Queue.Times := {|
  Queue.t_started := 1000 * Z.of_nat index;
  Queue.t_send := Scenarios.noon;
  Queue.t_completed := 1000 * Z.of_nat index + 10;
  Queue.t_sent := 1000 * Z.of_nat index + 11;
  Queue.t_retry := 1000 * Z.of_nat index + 12;
  Queue.t_failed := 1000 * Z.of_nat index + 13
|}.

Definition updates_succeed (id : string) (u : Queue.Update) : option string := None.

(** A dinner in an hour and a concert in a quarter of an hour, seen from
    time 0. *)
Definition evening : Reminders.Db := {|
  Reminders.events :=
    [ {| Reminders.e_id := "dinner"; Reminders.e_name := "Dinner";
         Reminders.e_start_time := 3600000; Reminders.e_organizer_id := "olivia";
         Reminders.e_status := "upcoming" |};
      {| Reminders.e_id := "concert"; Reminders.e_name := "Concert";
         Reminders.e_start_time := 900000; Reminders.e_organizer_id := "olivia";
         Reminders.e_status := "confirmed" |} ];
  Reminders.select_error := fun _ _ => None
|}.

(** A database in which the photo of Alice has a like whose count cannot
    be read. *)
Definition uncounted_like : Webhooks.Db := {|
  Webhooks.select_photo := fun _ => Some ("alice", "event-3");
  Webhooks.count_likes := fun _ => None;
  Webhooks.count_photos := fun _ => Some 50;
  Webhooks.count_photos_since := fun _ _ => Some 20;
  Webhooks.accepted_participants := fun _ => Some ["alice"; "bob"];
  Webhooks.event_name := fun _ => None
|}.

End Cases.

(** * Properties *)

Import Supabase NotificationService.

(** Closed statements about the scenarios are settled by evaluation. *)
Ltac conjuncts := intros; repeat match goal with |- _ /\ _ => split end.
Ltac evaluate := vm_compute; reflexivity.

(** ** Templates and validation *)

Lemma canonical_cases (type : string) :
  type ∈ Templates.canonical_types ->
  type = "photo_liked" \/ type = "gallery_unlocked" \/ type = "community_milestone"
  \/ type = "event_live" \/ type = "event_starting" \/ type = "event_reminder"
  \/ type = "peak_activity".
Proof.
  unfold Templates.canonical_types.
  rewrite !elem_of_cons, elem_of_nil. tauto.
Qed.

Lemma canonical_has_template (type : string) :
  type ∈ Templates.canonical_types ->
  exists template, Templates.NOTIFICATION_TEMPLATES type = Some template.
Proof.
  intros H. apply canonical_cases in H.
  repeat (destruct H as [-> | H]); try subst type; eexists; reflexivity.
Qed.

Lemma build_total (timestamp type : string) (data : Data) :
  type ∈ Templates.canonical_types ->
  exists n, Templates.buildNotification timestamp type data = Ok n
            /\ Templates.n_type n = type.
Proof.
  intros H. apply canonical_cases in H. unfold Templates.buildNotification.
  repeat (destruct H as [-> | H]); try subst type; eexists; split; reflexivity.
Qed.

Lemma missing_nil (type : string) (data : Data) :
  (forall f, f ∈ Templates.required type -> truthy (get data f) = true) ->
  Templates.missing_fields type data = [].
Proof.
  unfold Templates.missing_fields. intros H.
  induction (Templates.required type) as [| f fs IH]; [reflexivity |].
  simpl. rewrite (H f) by (left). simpl. apply IH.
  intros g Hg. apply H. by right.
Qed.

Lemma missing_cons (type : string) (data : Data) (f : string) :
  f ∈ Templates.required type -> truthy (get data f) = false ->
  exists g rest, Templates.missing_fields type data = g :: rest.
Proof.
  unfold Templates.missing_fields. intros Hin Hf.
  induction (Templates.required type) as [| h fs IH].
  - by apply elem_of_nil in Hin.
  - simpl. destruct (truthy (get data h)) eqn:E; simpl.
    + apply elem_of_cons in Hin as [-> | Hin]; [congruence | by apply IH].
    + eauto.
Qed.

Lemma validate_ok_value (type : string) (data : Data) (v : bool) :
  Templates.validateNotificationData type data = Ok v -> v = true.
Proof.
  unfold Templates.validateNotificationData.
  destruct (Templates.missing_fields type data); congruence.
Qed.

(** ** The store helpers keep what they do not own *)

Lemma should_send_tables (b : Backend) (db : Store) (userId : string) :
  push_tokens (shouldSendNotification b db userId).2 = push_tokens db
  /\ notification_history (shouldSendNotification b db userId).2 = notification_history db.
Proof.
  unfold shouldSendNotification, should_send_notification.
  destruct (rpc_fails b); [done |].
  destruct (notification_preferences db !! userId) as [prefs |]; [| done].
  repeat case_match; done.
Qed.

Lemma tokens_depend_on_table (b : Backend) (db db' : Store) (userId : string) :
  push_tokens db' = push_tokens db ->
  getUserPushTokens b db' userId = getUserPushTokens b db userId.
Proof. unfold getUserPushTokens. by intros ->. Qed.

Lemma deactivate_all_tables (b : Backend) (invalid : list (option string)) (db : Store) :
  notification_history (deactivate_all b db invalid) = notification_history db
  /\ notification_preferences (deactivate_all b db invalid) = notification_preferences db.
Proof.
  unfold deactivate_all. revert db.
  induction invalid as [| tok rest IH]; intros db; [done |].
  simpl. destruct (IH (deactivatePushToken b db tok).2) as [-> ->].
  unfold deactivatePushToken. destruct (deactivate_fails b); [done |].
  by destruct tok.
Qed.

Lemma send_to_devices_tables (p : Providers) (b : Backend) (db : Store)
    (tokens : list DeviceToken) (n : Templates.Notification) :
  notification_history (sendToDevices p b db tokens n).2 = notification_history db
  /\ notification_preferences (sendToDevices p b db tokens n).2
     = notification_preferences db.
Proof. unfold sendToDevices. simpl. apply deactivate_all_tables. Qed.

(** C6, as the code has it.  For each of the seven notification types,
    rendering ([buildNotification]) returns a notification whatever the data;
    validation accepts data whose required fields all hold truthy values; and
    a required field that is omitted or holds a falsy value (0, the empty
    string, false, null) makes validation raise, in which case
    [sendNotification] returns the error without any request to the store and
    without calling any provider adapter. *)
Theorem validation_guards_every_call
    (p : Providers) (b : Backend) (clk : Clock) (rl : gmap string RateLimit)
    (db : Store) (userId type timestamp : string) (data : Data) :
  type ∈ Templates.canonical_types ->
  (exists n, Templates.buildNotification timestamp type data = Ok n)
  /\ ((forall f, f ∈ Templates.required type -> truthy (get data f) = true) ->
      Templates.validateNotificationData type data = Ok true)
  /\ (forall f, f ∈ Templates.required type ->
        (data !! f = None \/ truthy (get data f) = false) ->
        exists message,
          Templates.validateNotificationData type data = Throw message
          /\ sendNotification p b clk rl db userId type data
             = {| outcome := Failed message; rateLimits := rl; store := db;
                  calls := []; requests := [] |}).
Proof.
  intros Hc. split; [| split].
  - destruct (build_total timestamp type data Hc) as (n & Hn & _). eauto.
  - intros Hall. unfold Templates.validateNotificationData.
    by rewrite missing_nil.
  - intros f Hin Hf.
    assert (truthy (get data f) = false) as Hfalsy.
    { destruct Hf as [Hnone | Hf]; [| done]. unfold get. by rewrite Hnone. }
    destruct (missing_cons type data f Hin Hfalsy) as (g & rest & Hm).
    unfold sendNotification, Templates.validateNotificationData.
    rewrite Hm. eauto.
Qed.

Lemma validation_guards_every_call_witness :
  "photo_liked" ∈ Templates.canonical_types
  /\ exists n, Templates.buildNotification "2024-01-01T12:00:00.000Z" "photo_liked"
                Scenarios.liked_0 = Ok n.
Proof.
  assert ("photo_liked" ∈ Templates.canonical_types) as H by (repeat constructor).
  split; [exact H |].
  exact (proj1 (validation_guards_every_call
                  Scenarios.delivering_providers Scenarios.healthy Scenarios.noon ∅
                  Scenarios.fresh_store "alice" "photo_liked"
                  "2024-01-01T12:00:00.000Z" Scenarios.liked_0 H)).
Defined.

(** C6, the counterexample: a [photo_liked] payload in which both required
    fields are present, [likeCount] being 0, is rejected as missing
    [likeCount]. *)
Lemma present_zero_is_rejected :
  Templates.required "photo_liked" = ["eventName"; "likeCount"]
  /\ Scenarios.liked_0 !! "eventName" = Some (JStr "Summer Party")
  /\ Scenarios.liked_0 !! "likeCount" = Some (JNum 0)
  /\ Templates.validateNotificationData "photo_liked" Scenarios.liked_0
     = Throw "Missing required data for photo_liked: likeCount".
Proof. conjuncts; evaluate. Qed.

(** ** Dispatch to one user *)

Lemma batching_never_holds (preferences : Data) (userId type : string) (data : Data) :
  batching_requested preferences type && checkBatching userId type data = false.
Proof. unfold checkBatching. apply andb_false_r. Qed.




(** The four gates, read from the side of the gate: each one that closes
    produces its own reason code. *)
Lemma closed_gate_reason
    (p : Providers) (b : Backend) (clk : Clock) (rl : gmap string RateLimit)
    (db : Store) (userId type : string) (data : Data) :
  Templates.validateNotificationData type data = Ok true ->
  let db1 := (shouldSendNotification b db userId).2 in
  let r := sendNotification p b clk rl db userId type data in
  ((shouldSendNotification b db userId).1 = false ->
     outcome r = Skipped false "user_preferences")
  /\ ((shouldSendNotification b db userId).1 = true ->
      truthy (typeEnabled (getUserNotificationPreferences b db1 userId) type) = false ->
      outcome r = Skipped false "type_disabled")
  /\ ((shouldSendNotification b db userId).1 = true ->
      truthy (typeEnabled (getUserNotificationPreferences b db1 userId) type) = true ->
      (isRateLimited rl userId type (now_rate_check clk)).1 = true ->
      outcome r = Skipped false "rate_limited"
      /\ rateLimits r = (isRateLimited rl userId type (now_rate_check clk)).2)
  /\ ((shouldSendNotification b db userId).1 = true ->
      truthy (typeEnabled (getUserNotificationPreferences b db1 userId) type) = true ->
      (isRateLimited rl userId type (now_rate_check clk)).1 = false ->
      getUserPushTokens b db userId = [] ->
      outcome r = Skipped false "no_tokens").
Proof.
  intros Hv db1 r. subst db1 r.
  destruct (should_send_tables b db userId) as [Htok _].
  unfold sendNotification. rewrite Hv.
  destruct (shouldSendNotification b db userId) as [canSend db1]. simpl in *.
  split; [| split; [| split]].
  - by intros ->.
  - intros -> He. simpl. by rewrite He.
  - intros -> He Hl. simpl. rewrite He. simpl.
    destruct (isRateLimited rl userId type (now_rate_check clk)) as [limited rl1].
    simpl in Hl. by subst limited.
  - intros -> He Hl Ht. simpl. rewrite He. simpl.
    destruct (isRateLimited rl userId type (now_rate_check clk)) as [limited rl1].
    simpl in Hl. subst limited.
    rewrite (tokens_depend_on_table b db db1 userId Htok), Ht. done.
Qed.

(** A dispatch that passes the four gates with a canonical type: what it
    returns and what it leaves in the store and in the rate-limit map. *)
Lemma accepted_dispatch
    (p : Providers) (b : Backend) (clk : Clock) (rl rl1 : gmap string RateLimit)
    (db db1 : Store) (userId type : string) (data : Data) :
  type ∈ Templates.canonical_types ->
  Templates.validateNotificationData type data = Ok true ->
  shouldSendNotification b db userId = (true, db1) ->
  truthy (typeEnabled (getUserNotificationPreferences b db1 userId) type) = true ->
  isRateLimited rl userId type (now_rate_check clk) = (false, rl1) ->
  getUserPushTokens b db1 userId <> [] ->
  exists n,
    Templates.buildNotification (now_iso clk) type data = Ok n
    /\ Templates.n_type n = type
    /\ let sent := sendToDevices p b db1 (getUserPushTokens b db1 userId) n in
       let logged :=
         logNotificationHistory b sent.2
           {| hi_userId := userId;
              hi_type := Templates.n_type n;
              hi_title := Templates.n_title n;
              hi_body := Templates.n_body n;
              hi_data := Templates.n_data n;
              hi_eventId := or_else (get data "eventId") JNull;
              hi_photoId := or_else (get data "photoId") JNull |} in
       sendNotification p b clk rl db userId type data
       = {| outcome := Sent sent.1.1 logged.1;
            rateLimits := updateRateLimit rl1 userId type (now_rate_update clk);
            store := logged.2;
            calls := sent.1.2;
            requests :=
              [RpcShouldSend userId; SelectPreferences userId; SelectPushTokens userId]
              ++ (UpdateDeactivate <$> invalidTokens sent.1.1)
              ++ [InsertHistory userId "sent"] |}.
Proof.
  intros Hc Hv Hs He Hl Ht.
  destruct (build_total (now_iso clk) type data Hc) as (n & Hn & Hty).
  exists n. split; [done |]. split; [done |].
  unfold sendNotification. rewrite Hv, Hs. simpl. rewrite He. simpl. rewrite Hl.
  destruct (getUserPushTokens b db1 userId) as [| t ts] eqn:Etok; [done |].
  rewrite batching_never_holds, Hn.
  destruct (sendToDevices p b db1 (t :: ts) n) as [[results made] db2].
  simpl.
  destruct (logNotificationHistory _ _ _) as [historyId db3].
  reflexivity.
Qed.

(** C10, as the code has it.  A dispatch of one of the seven notification
    types that passes the validation, preference, rate-limit and token gates
    returns [success: true] with [devicesReached] equal to the number of
    successful sends, whatever the provider adapters did, zero included; it
    asks the store to insert one history row with status [sent], and the row
    is in the table when the store accepts the insert. *)
Theorem accepted_dispatch_is_recorded
    (p : Providers) (b : Backend) (clk : Clock) (rl rl1 : gmap string RateLimit)
    (db db1 : Store) (userId type : string) (data : Data) :
  type ∈ Templates.canonical_types ->
  Templates.validateNotificationData type data = Ok true ->
  shouldSendNotification b db userId = (true, db1) ->
  truthy (typeEnabled (getUserNotificationPreferences b db1 userId) type) = true ->
  isRateLimited rl userId type (now_rate_check clk) = (false, rl1) ->
  getUserPushTokens b db1 userId <> [] ->
  exists results historyId,
    outcome (sendNotification p b clk rl db userId type data) = Sent results historyId
    /\ success (outcome (sendNotification p b clk rl db userId type data)) = true
    /\ devicesReached (outcome (sendNotification p b clk rl db userId type data))
       = Some (successful results)
    /\ InsertHistory userId "sent"
         ∈ requests (sendNotification p b clk rl db userId type data)
    /\ (history_insert_fails b = false ->
        exists row,
          notification_history (store (sendNotification p b clk rl db userId type data))
          = (notification_history db ++ [row])%list
          /\ h_status row = "sent" /\ h_user_id row = userId
          /\ h_notification_type row = type /\ historyId = Some (h_id row)).
Proof.
  intros Hc Hv Hs He Hl Ht.
  destruct (accepted_dispatch p b clk rl rl1 db db1 userId type data Hc Hv Hs He Hl Ht)
    as (n & Hn & Hty & Hrun).
  cbv zeta in Hrun. rewrite Hrun. cbn [outcome store requests success devicesReached].
  pose proof (send_to_devices_tables p b db1 (getUserPushTokens b db1 userId) n)
    as [Hsent _].
  pose proof (should_send_tables b db userId) as [_ Hh]. rewrite Hs in Hh.
  cbn [snd] in Hh.
  set (sent := sendToDevices p b db1 (getUserPushTokens b db1 userId) n) in *.
  eexists _, _. split; [reflexivity |]. split; [reflexivity |]. split; [reflexivity |].
  split.
  { do 3 apply list_elem_of_further. apply elem_of_app. right. by left. }
  intros Hins. unfold logNotificationHistory. rewrite Hins.
  cbn [fst snd notification_history].
  eexists. split; [| repeat split; try reflexivity; exact Hty].
  by rewrite Hsent, Hh.
Qed.

Lemma accepted_dispatch_is_recorded_witness :
  exists results historyId,
    outcome (sendNotification Scenarios.failing_providers Scenarios.healthy
               Scenarios.noon ∅ Scenarios.fresh_store "alice" "photo_liked"
               Scenarios.liked_15) = Sent results historyId
    /\ success (outcome (sendNotification Scenarios.failing_providers Scenarios.healthy
                           Scenarios.noon ∅ Scenarios.fresh_store "alice" "photo_liked"
                           Scenarios.liked_15)) = true
    /\ devicesReached (outcome (sendNotification Scenarios.failing_providers
                                  Scenarios.healthy Scenarios.noon ∅
                                  Scenarios.fresh_store "alice" "photo_liked"
                                  Scenarios.liked_15))
       = Some (successful results).
Proof.
  destruct (accepted_dispatch_is_recorded
              Scenarios.failing_providers Scenarios.healthy Scenarios.noon ∅ ∅
              Scenarios.fresh_store
              (shouldSendNotification Scenarios.healthy Scenarios.fresh_store "alice").2
              "alice" "photo_liked" Scenarios.liked_15)
    as (results & historyId & H1 & H2 & H3 & _).
  - repeat constructor.
  - vm_compute; reflexivity.
  - vm_compute; reflexivity.
  - vm_compute; reflexivity.
  - vm_compute; reflexivity.
  - vm_compute; discriminate.
  - exists results, historyId. auto.
Defined.

(** With adapters that all fail, the accepted dispatch above reaches no
    device and is still reported and recorded as sent. *)
Example all_sends_failed_still_sent :
  let r := sendNotification Scenarios.failing_providers Scenarios.healthy
             Scenarios.noon ∅ Scenarios.fresh_store "alice" "photo_liked"
             Scenarios.liked_15 in
  success (outcome r) = true
  /\ devicesReached (outcome r) = Some 0
  /\ h_status <$> notification_history (store r) = ["sent"].
Proof. conjuncts; evaluate. Qed.

(** C10, the counterexample: a type outside the seven passes the four gates
    (it has no required field, no preference and the default rate ceiling)
    and the call then fails on the missing template: no [success: true], no
    history row. *)
Lemma unknown_type_passes_gates_unrecorded :
  Templates.validateNotificationData "flash_sale" Scenarios.live_data = Ok true
  /\ (shouldSendNotification Scenarios.healthy Scenarios.fresh_store "alice").1 = true
  /\ truthy (typeEnabled
               (getUserNotificationPreferences Scenarios.healthy
                  (shouldSendNotification Scenarios.healthy Scenarios.fresh_store
                     "alice").2 "alice") "flash_sale") = true
  /\ (isRateLimited ∅ "alice" "flash_sale" (now_rate_check Scenarios.noon)).1 = false
  /\ length (getUserPushTokens Scenarios.healthy Scenarios.fresh_store "alice") = 1%nat
  /\ outcome (sendNotification Scenarios.delivering_providers Scenarios.healthy
                Scenarios.noon ∅ Scenarios.fresh_store "alice" "flash_sale"
                Scenarios.live_data)
     = Failed "Unknown notification type: flash_sale"
  /\ notification_history
       (store (sendNotification Scenarios.delivering_providers Scenarios.healthy
                 Scenarios.noon ∅ Scenarios.fresh_store "alice" "flash_sale"
                 Scenarios.live_data)) = [].
Proof. conjuncts; evaluate. Qed.

(** ** Preferences *)






(** What a call leaves in the preferences table is what the policy call
    left there. *)
Lemma run_preferences
    (p : Providers) (b : Backend) (clk : Clock) (rl : gmap string RateLimit)
    (db : Store) (userId type : string) (data : Data) (v : bool) :
  Templates.validateNotificationData type data = Ok v ->
  notification_preferences (store (sendNotification p b clk rl db userId type data))
  = notification_preferences (shouldSendNotification b db userId).2.
Proof.
  intros Hv. unfold sendNotification. rewrite Hv.
  destruct (shouldSendNotification b db userId) as [canSend db1]. cbn [snd].
  destruct canSend; [| done]. cbn [negb].
  destruct (truthy (typeEnabled _ type)); [| done]. cbn [negb].
  destruct (isRateLimited rl userId type (now_rate_check clk)) as [limited rl1].
  destruct limited; [done |].
  destruct (getUserPushTokens b db1 userId) as [| t ts]; [done |].
  rewrite batching_never_holds.
  destruct (Templates.buildNotification _ type data) as [n |]; [| done].
  pose proof (send_to_devices_tables p b db1 (t :: ts) n) as [_ Hp].
  destruct (sendToDevices p b db1 (t :: ts) n) as [[results made] db2].
  cbn [snd] in Hp.
  unfold logNotificationHistory.
  destruct (history_insert_fails b); cbn [store notification_preferences]; exact Hp.
Qed.



(** Scenario A of the specification: [photo_liked] with 15 likes, one active
    Expo token, no preferences row. *)
Example scenario_photo_liked_15 :
  let r := sendNotification Scenarios.delivering_providers Scenarios.healthy
             Scenarios.noon ∅ Scenarios.fresh_store "alice" "photo_liked"
             Scenarios.liked_15 in
  is_Some (notification_preferences (store r) !! "alice")
  /\ h_title <$> notification_history (store r) = ["People love your photo! ❤️"]
  /\ h_status <$> notification_history (store r) = ["sent"]
  /\ calls r = [ExpoCall ["ExponentPushToken[alice-phone]"]]
  /\ devicesReached (outcome r) = Some 1.
Proof.
  conjuncts; try evaluate.
  eexists. evaluate.
Qed.

(** ** Rate limiting *)

Lemma maxRequests_positive (type : string) : 1 <= maxRequests type.
Proof. unfold maxRequests. repeat case_match; lia. Qed.

Lemma isRateLimited_in_window (rl : gmap string RateLimit) (userId type : string)
    (now k W : Z) :
  rl !! rate_key userId type = Some {| count := k; resetTime := W |} ->
  now <= W ->
  isRateLimited rl userId type now = (Z.leb (maxRequests type) k, rl).
Proof.
  intros He Hw. unfold isRateLimited. rewrite He. cbn [resetTime count].
  by rewrite (proj2 (Z.ltb_ge W now)) by lia.
Qed.

Lemma isRateLimited_after_window (rl : gmap string RateLimit) (userId type : string)
    (now k W : Z) :
  rl !! rate_key userId type = Some {| count := k; resetTime := W |} ->
  W < now ->
  isRateLimited rl userId type now
  = (false,
     <[rate_key userId type := {| count := 0; resetTime := now + 60000 |}]> rl).
Proof.
  intros He Hw. unfold isRateLimited. rewrite He. cbn [resetTime count].
  rewrite (proj2 (Z.ltb_lt W now)) by lia.
  pose proof (maxRequests_positive type).
  by rewrite (proj2 (Z.leb_gt (maxRequests type) 0)) by lia.
Qed.

Lemma isRateLimited_first_use (rl : gmap string RateLimit) (userId type : string)
    (now : Z) :
  rl !! rate_key userId type = None ->
  isRateLimited rl userId type now = (false, rl).
Proof.
  intros He. unfold isRateLimited. rewrite He. cbn [resetTime count].
  rewrite (proj2 (Z.ltb_ge (now + 60000) now)) by lia.
  pose proof (maxRequests_positive type).
  by rewrite (proj2 (Z.leb_gt (maxRequests type) 0)) by lia.
Qed.

Lemma updateRateLimit_first_use (rl : gmap string RateLimit) (userId type : string)
    (now : Z) :
  rl !! rate_key userId type = None ->
  updateRateLimit rl userId type now !! rate_key userId type
  = Some {| count := 1; resetTime := now + 60000 |}.
Proof.
  intros He. unfold updateRateLimit. rewrite He, lookup_insert_eq.
  cbn [from_option id resetTime count].
  by rewrite (proj2 (Z.ltb_ge (now + 60000) now)) by lia.
Qed.

Lemma updateRateLimit_in_window (rl : gmap string RateLimit) (userId type : string)
    (now k W : Z) :
  rl !! rate_key userId type = Some {| count := k; resetTime := W |} ->
  now <= W ->
  updateRateLimit rl userId type now !! rate_key userId type
  = Some {| count := k + 1; resetTime := W |}.
Proof.
  intros He Hw. unfold updateRateLimit. rewrite He, lookup_insert_eq.
  cbn [from_option id resetTime count].
  by rewrite (proj2 (Z.ltb_ge W now)) by lia.
Qed.

Lemma updateRateLimit_restarts (rl : gmap string RateLimit) (userId type : string)
    (now W : Z) :
  rl !! rate_key userId type = Some {| count := 0; resetTime := W |} ->
  exists reset,
    updateRateLimit rl userId type now !! rate_key userId type
    = Some {| count := 1; resetTime := reset |}.
Proof.
  intros He. unfold updateRateLimit. rewrite He, lookup_insert_eq.
  cbn [from_option id resetTime count].
  destruct (Z.ltb W now); eauto.
Qed.

(** What a delivered run went through. *)
Lemma delivered_inversion
    (p : Providers) (b : Backend) (clk : Clock) (rl : gmap string RateLimit)
    (db : Store) (userId type : string) (data : Data) :
  delivered (sendNotification p b clk rl db userId type data) ->
  Templates.validateNotificationData type data = Ok true
  /\ (shouldSendNotification b db userId).1 = true
  /\ truthy (typeEnabled
               (getUserNotificationPreferences b
                  (shouldSendNotification b db userId).2 userId) type) = true
  /\ (isRateLimited rl userId type (now_rate_check clk)).1 = false
  /\ (exists template, Templates.NOTIFICATION_TEMPLATES type = Some template)
  /\ rateLimits (sendNotification p b clk rl db userId type data)
     = updateRateLimit (isRateLimited rl userId type (now_rate_check clk)).2
         userId type (now_rate_update clk).
Proof.
  intros (results & historyId & H). revert H. unfold sendNotification.
  destruct (Templates.validateNotificationData type data) as [v |] eqn:Ev;
    [| discriminate].
  apply validate_ok_value in Ev as Hv. subst v.
  destruct (shouldSendNotification b db userId) as [canSend db1]. cbn [fst snd].
  destruct canSend; [| discriminate]. cbn [negb].
  destruct (truthy (typeEnabled _ type)) eqn:He; [| discriminate]. cbn [negb].
  destruct (isRateLimited rl userId type (now_rate_check clk)) as [limited rl1].
  destruct limited; [discriminate |].
  destruct (getUserPushTokens b db1 userId) as [| t ts]; [discriminate |].
  rewrite batching_never_holds.
  unfold Templates.buildNotification.
  destruct (Templates.NOTIFICATION_TEMPLATES type) as [template |]; [| discriminate].
  destruct (sendToDevices p b db1 (t :: ts) _) as [[res made] db2].
  destruct (logNotificationHistory _ _ _) as [hid db3].
  intros _. repeat split; eauto.
Qed.

Lemma preferences_depend_on_table (b : Backend) (db db' : Store) (userId : string) :
  notification_preferences db' = notification_preferences db ->
  getUserNotificationPreferences b db' userId
  = getUserNotificationPreferences b db userId.
Proof. unfold getUserNotificationPreferences. by intros ->. Qed.

(** The policy call answers the same after a call it has let through, and
    leaves the preferences table as it finds it. *)
Lemma should_send_settles (b : Backend) (db db' : Store) (userId : string) :
  (shouldSendNotification b db userId).1 = true ->
  notification_preferences db'
  = notification_preferences (shouldSendNotification b db userId).2 ->
  (shouldSendNotification b db' userId).1 = true
  /\ notification_preferences (shouldSendNotification b db' userId).2
     = notification_preferences db'.
Proof.
  unfold shouldSendNotification, should_send_notification.
  destruct (rpc_fails b); [done |].
  destruct (notification_preferences db !! userId) as [prefs |] eqn:E.
  - intros H Hp.
    assert (notification_preferences db' = notification_preferences db) as ->.
    { rewrite Hp. repeat case_match; done. }
    rewrite E. revert H. repeat case_match; done.
  - cbn [fst snd notification_preferences with_preferences]. intros _ Hp.
    rewrite Hp, !lookup_insert_eq. cbn. by split.
Qed.


Lemma delivered_opens_gates
    (p : Providers) (b : Backend) (clk : Clock) (rl : gmap string RateLimit)
    (db : Store) (userId type : string) (data : Data) :
  delivered (sendNotification p b clk rl db userId type data) ->
  gates_open b (store (sendNotification p b clk rl db userId type data)) userId type.
Proof.
  intros Hd. destruct (delivered_inversion _ _ _ _ _ _ _ _ Hd) as (Hv & Hs & He & _).
  pose proof (run_preferences p b clk rl db userId type data true Hv) as Hp.
  destruct (should_send_settles b db _ userId Hs Hp) as [H1 H2].
  split; [done |]. split; [done |].
  by rewrite (preferences_depend_on_table b _ _ userId Hp).
Qed.

(** A call that finds the gates open and the counter at the ceiling. *)
Lemma limited_call
    (p : Providers) (b : Backend) (clk : Clock) (rl : gmap string RateLimit)
    (db : Store) (userId type : string) (data : Data) :
  Templates.validateNotificationData type data = Ok true ->
  gates_open b db userId type ->
  isRateLimited rl userId type (now_rate_check clk) = (true, rl) ->
  outcome (sendNotification p b clk rl db userId type data)
  = Skipped false "rate_limited"
  /\ rateLimits (sendNotification p b clk rl db userId type data) = rl
  /\ calls (sendNotification p b clk rl db userId type data) = [].
Proof.
  intros Hv (Hs & Hp & He) Hl.
  rewrite <- (preferences_depend_on_table b _ _ userId Hp) in He.
  unfold sendNotification. rewrite Hv.
  destruct (shouldSendNotification b db userId) as [canSend db1].
  cbn [fst snd] in *. subst canSend. cbn [negb]. rewrite He. cbn [negb].
  by rewrite Hl.
Qed.

(** A call that finds the gates open and the window over. *)
Lemma restarting_call
    (p : Providers) (b : Backend) (clk : Clock) (rl : gmap string RateLimit)
    (db : Store) (userId type : string) (data : Data) (k W : Z) :
  Templates.validateNotificationData type data = Ok true ->
  (exists template, Templates.NOTIFICATION_TEMPLATES type = Some template) ->
  gates_open b db userId type ->
  rl !! rate_key userId type = Some {| count := k; resetTime := W |} ->
  W < now_rate_check clk ->
  reason (outcome (sendNotification p b clk rl db userId type data))
  <> Some "rate_limited"
  /\ (getUserPushTokens b db userId <> [] ->
      delivered (sendNotification p b clk rl db userId type data)
      /\ exists reset,
           rateLimits (sendNotification p b clk rl db userId type data)
             !! rate_key userId type
           = Some {| count := 1; resetTime := reset |}).
Proof.
  intros Hv [template Ht] (Hs & Hp & He) Hk Hw.
  rewrite <- (preferences_depend_on_table b _ _ userId Hp) in He.
  pose proof (should_send_tables b db userId) as [Htok _].
  pose proof (isRateLimited_after_window rl userId type _ k W Hk Hw) as Hl.
  unfold delivered, sendNotification. rewrite Hv.
  destruct (shouldSendNotification b db userId) as [canSend db1].
  cbn [fst snd] in *. subst canSend. cbn [negb]. rewrite He. cbn [negb].
  rewrite Hl. rewrite (tokens_depend_on_table b db db1 userId Htok).
  destruct (getUserPushTokens b db userId) as [| t ts].
  { split; [discriminate | done]. }
  rewrite batching_never_holds. unfold Templates.buildNotification. rewrite Ht.
  destruct (sendToDevices p b db1 (t :: ts) _) as [[res made] db2].
  destruct (logNotificationHistory _ _ _) as [hid db3].
  cbn [outcome rateLimits reason].
  split; [discriminate |]. intros _. split; [eauto |].
  eapply updateRateLimit_restarts. apply lookup_insert_eq.
Qed.

(** Deliveries inside the window count up the window's counter. *)
Lemma window_counting
    (p : Providers) (b : Backend) (userId type : string) (data : Data) (W : Z)
    (clocks : list Clock) :
  forall (rl : gmap string RateLimit) (db : Store) (k : Z),
    rl !! rate_key userId type = Some {| count := k; resetTime := W |} ->
    gates_open b db userId type ->
    Forall (fun c => now_rate_check c <= W /\ now_rate_update c <= W) clocks ->
    Forall delivered (sendMany p b clocks rl db userId type data).1 ->
    (sendMany p b clocks rl db userId type data).2.1 !! rate_key userId type
    = Some {| count := k + lenZ clocks; resetTime := W |}
    /\ gates_open b (sendMany p b clocks rl db userId type data).2.2 userId type.
Proof.
  induction clocks as [| clk rest IH]; intros rl db k Hk Hg Hw Hd.
  - cbn. split; [| done]. rewrite Hk. do 2 f_equal. unfold lenZ. cbn. lia.
  - cbn [sendMany] in *.
    set (r := sendNotification p b clk rl db userId type data) in *.
    destruct (sendMany p b rest (rateLimits r) (store r) userId type data)
      as [runs final] eqn:Erest.
    cbn [fst snd] in *.
    apply Forall_cons in Hw as [[Hc Hu] Hw]. apply Forall_cons in Hd as [Hr Hd].
    destruct (delivered_inversion _ _ _ _ _ _ _ _ Hr) as (_ & _ & _ & _ & _ & Hrl).
    rewrite (isRateLimited_in_window rl userId type _ k W Hk Hc) in Hrl.
    cbn [snd] in Hrl.
    pose proof (updateRateLimit_in_window rl userId type _ k W Hk Hu) as Hk1.
    rewrite <- Hrl in Hk1. fold r in Hk1.
    pose proof (delivered_opens_gates _ _ _ _ _ _ _ _ Hr) as Hg1. fold r in Hg1.
    specialize (IH (rateLimits r) (store r) (k + 1) Hk1 Hg1 Hw).
    rewrite Erest in IH. cbn [fst snd] in IH. destruct (IH Hd) as [IH1 IH2].
    split; [| done]. rewrite IH1. do 2 f_equal. unfold lenZ. cbn [length]. lia.
Qed.

(** C3, as the code has it.  The limit is a fixed window of 60 seconds per
    user and type, opened by the first delivery, with the ceiling of the type
    ([photo_liked] 10, [event_live] 1, ...).  After as many deliveries as the
    ceiling inside the window, the counter equals the ceiling; a further call
    inside the window returns the reason [rate_limited], calls no provider
    and leaves the counter as it is (only a delivery increments it); a call
    after the window is not rate limited and, when the user still has an
    active token, delivers and restarts the counter at 1. *)
Theorem rate_limit_window
    (p : Providers) (b : Backend) (first : Clock) (rest : list Clock)
    (rl : gmap string RateLimit) (db : Store)
    (userId type : string) (data : Data) :
  rl !! rate_key userId type = None ->
  lenZ (first :: rest) = maxRequests type ->
  Forall (fun c => now_rate_check c <= now_rate_update first + 60000
                   /\ now_rate_update c <= now_rate_update first + 60000) rest ->
  Forall delivered (sendMany p b (first :: rest) rl db userId type data).1 ->
  let rlN := (sendMany p b (first :: rest) rl db userId type data).2.1 in
  let dbN := (sendMany p b (first :: rest) rl db userId type data).2.2 in
  rlN !! rate_key userId type
  = Some {| count := maxRequests type; resetTime := now_rate_update first + 60000 |}
  /\ (forall clk,
        now_rate_check clk <= now_rate_update first + 60000 ->
        outcome (sendNotification p b clk rlN dbN userId type data)
        = Skipped false "rate_limited"
        /\ rateLimits (sendNotification p b clk rlN dbN userId type data) = rlN
        /\ calls (sendNotification p b clk rlN dbN userId type data) = [])
  /\ (forall clk,
        now_rate_update first + 60000 < now_rate_check clk ->
        reason (outcome (sendNotification p b clk rlN dbN userId type data))
        <> Some "rate_limited"
        /\ (getUserPushTokens b dbN userId <> [] ->
            delivered (sendNotification p b clk rlN dbN userId type data)
            /\ exists reset,
                 rateLimits (sendNotification p b clk rlN dbN userId type data)
                   !! rate_key userId type
                 = Some {| count := 1; resetTime := reset |})).
Proof.
  intros Hnone Hlen Hw Hd rlN dbN. subst rlN dbN.
  cbn [sendMany] in *.
  set (r := sendNotification p b first rl db userId type data) in *.
  destruct (sendMany p b rest (rateLimits r) (store r) userId type data)
    as [runs final] eqn:Erest.
  cbn [fst snd] in *.
  apply Forall_cons in Hd as [Hr Hd].
  destruct (delivered_inversion _ _ _ _ _ _ _ _ Hr) as (Hv & _ & _ & _ & Ht & Hrl).
  rewrite (isRateLimited_first_use rl userId type _ Hnone) in Hrl. cbn [snd] in Hrl.
  pose proof (updateRateLimit_first_use rl userId type (now_rate_update first) Hnone)
    as Hk1.
  rewrite <- Hrl in Hk1. fold r in Hk1.
  pose proof (delivered_opens_gates _ _ _ _ _ _ _ _ Hr) as Hg1. fold r in Hg1.
  pose proof (window_counting p b userId type data _ rest
                (rateLimits r) (store r) 1 Hk1 Hg1 Hw) as Hcount.
  rewrite Erest in Hcount. cbn [fst snd] in Hcount.
  destruct (Hcount Hd) as [HkN HgN].
  assert (1 + lenZ rest = maxRequests type) as Hn.
  { rewrite <- Hlen. unfold lenZ. cbn [length]. lia. }
  rewrite Hn in HkN.
  split; [done |]. split.
  - intros clk Hc. apply limited_call; [done | done |].
    rewrite (isRateLimited_in_window _ userId type _ _ _ HkN Hc).
    by rewrite Z.leb_refl.
  - intros clk Hc. by eapply restarting_call.
Qed.

Lemma rate_limit_window_witness :
  (∅ : gmap string RateLimit) !! rate_key "alice" "peak_activity" = None
  /\ outcome (sendNotification Scenarios.delivering_providers Scenarios.healthy
                Scenarios.two_seconds_later
                (sendMany Scenarios.delivering_providers Scenarios.healthy
                   [Scenarios.noon; Scenarios.a_second_later] ∅ Scenarios.fresh_store
                   "alice" "peak_activity" Scenarios.peak_data).2.1
                (sendMany Scenarios.delivering_providers Scenarios.healthy
                   [Scenarios.noon; Scenarios.a_second_later] ∅ Scenarios.fresh_store
                   "alice" "peak_activity" Scenarios.peak_data).2.2
                "alice" "peak_activity" Scenarios.peak_data)
     = Skipped false "rate_limited".
Proof.
  assert ((∅ : gmap string RateLimit) !! rate_key "alice" "peak_activity" = None) as H
    by reflexivity.
  split; [exact H |].
  refine (proj1 (proj1 (proj2 (rate_limit_window
            Scenarios.delivering_providers Scenarios.healthy
            Scenarios.noon [Scenarios.a_second_later] ∅ Scenarios.fresh_store
            "alice" "peak_activity" Scenarios.peak_data H _ _ _))
          Scenarios.two_seconds_later _)).
  - reflexivity.
  - repeat constructor; vm_compute; discriminate.
  - repeat constructor; eexists _, _; vm_compute; reflexivity.
  - vm_compute; discriminate.
Defined.

(** C3, the counterexample: [event_live] has ceiling 1; the second call in
    the window is skipped as [rate_limited], and the counter reads 1 before
    and after that skipped call. *)
Lemma skipped_call_leaves_counter :
  outcome (sendNotification Scenarios.delivering_providers Scenarios.healthy
             Scenarios.a_second_later
             (rateLimits (sendNotification Scenarios.delivering_providers
                            Scenarios.healthy Scenarios.noon ∅ Scenarios.fresh_store
                            "alice" "event_live" Scenarios.live_data))
             (store (sendNotification Scenarios.delivering_providers
                       Scenarios.healthy Scenarios.noon ∅ Scenarios.fresh_store
                       "alice" "event_live" Scenarios.live_data))
             "alice" "event_live" Scenarios.live_data)
  = Skipped false "rate_limited"
  /\ count <$> (rateLimits (sendNotification Scenarios.delivering_providers
                              Scenarios.healthy Scenarios.noon ∅ Scenarios.fresh_store
                              "alice" "event_live" Scenarios.live_data)
                  !! rate_key "alice" "event_live") = Some 1
  /\ count <$> (rateLimits
                  (sendNotification Scenarios.delivering_providers Scenarios.healthy
                     Scenarios.a_second_later
                     (rateLimits (sendNotification Scenarios.delivering_providers
                                    Scenarios.healthy Scenarios.noon ∅
                                    Scenarios.fresh_store
                                    "alice" "event_live" Scenarios.live_data))
                     (store (sendNotification Scenarios.delivering_providers
                               Scenarios.healthy Scenarios.noon ∅ Scenarios.fresh_store
                               "alice" "event_live" Scenarios.live_data))
                     "alice" "event_live" Scenarios.live_data)
                  !! rate_key "alice" "event_live") = Some 1.
Proof. conjuncts; evaluate. Qed.

(** The same user one window later: the call delivers again. *)
Example next_window_delivers :
  success
    (outcome (sendNotification Scenarios.delivering_providers Scenarios.healthy
                Scenarios.next_minute
                (rateLimits (sendNotification Scenarios.delivering_providers
                               Scenarios.healthy Scenarios.noon ∅ Scenarios.fresh_store
                               "alice" "event_live" Scenarios.live_data))
                (store (sendNotification Scenarios.delivering_providers
                          Scenarios.healthy Scenarios.noon ∅ Scenarios.fresh_store
                          "alice" "event_live" Scenarios.live_data))
                "alice" "event_live" Scenarios.live_data))
  = true.
Proof. vm_compute. reflexivity. Qed.

(** ** Slices *)

Lemma slices_fuel_concat {A} (size : nat) (fuel : nat) :
  forall xs : list A,
    (0 < size)%nat -> (length xs <= fuel)%nat ->
    concat (slices_fuel fuel size xs) = xs.
Proof.
  induction fuel as [| fuel IH]; intros xs Hs Hl.
  - destruct xs; [done | cbn in Hl; lia].
  - destruct xs as [| x xs]; [done |].
    cbn [slices_fuel concat]. rewrite IH; [apply take_drop | done |].
    rewrite length_drop. cbn [length] in *. lia.
Qed.

Lemma slices_concat {A} (size : nat) (xs : list A) :
  (0 < size)%nat -> concat (slices size xs) = xs.
Proof. intros Hs. by apply slices_fuel_concat. Qed.


Lemma elem_of_concat {A} (x : A) (xs : list A) (xss : list (list A)) :
  xs ∈ xss -> x ∈ xs -> x ∈ concat xss.
Proof.
  intros Hxs Hx. induction xss as [| ys yss IH]; [by apply elem_of_nil in Hxs |].
  cbn [concat]. apply elem_of_app.
  apply elem_of_cons in Hxs as [<- | Hxs]; [by left | right; by apply IH].
Qed.


(** ** The most-liked ceiling *)

(** C7.  With the [most_liked] sort, the total count reported by
    [fetchEventPhotos] never exceeds 200, whatever count the store returns; a
    page whose offset is 200 or more gets an empty list of photos with total
    200 and no query is sent to the photos table; a query that is sent never
    ranges beyond row 199.  Through [getEventPhotoUrls], such a page sends no
    query either and, unless it is served from the cache, comes back
    empty. *)
Theorem most_liked_is_capped
    (env : PhotoUrlCache.Backend) (eventId : string) (page limit : Z)
    (userId : option string) (event : PhotoUrlCache.Event) :
  (forall found totalCount,
      PhotoUrlCache.fetched
        (PhotoUrlCache.fetchEventPhotos env eventId page limit userId "most_liked"
           (Some event)) = Ok (found, totalCount) ->
      totalCount <= 200)
  /\ (200 <= (page - 1) * limit ->
      PhotoUrlCache.fetchEventPhotos env eventId page limit userId "most_liked"
        (Some event)
      = {| PhotoUrlCache.fetched := Ok ([], 200); PhotoUrlCache.queries := [] |})
  /\ (forall q,
        q ∈ PhotoUrlCache.queries
              (PhotoUrlCache.fetchEventPhotos env eventId page limit userId
                 "most_liked" (Some event)) ->
        (PhotoUrlCache.q_range q).1 = (page - 1) * limit
        /\ (PhotoUrlCache.q_range q).2 <= 199)
  /\ (forall kv now forceRefresh expiresIn sortBy,
        PhotoUrlCache.select_event env eventId = Ok event ->
        PhotoUrlCache.validatedSortBy sortBy = "most_liked" ->
        200 <= (page - 1) * limit ->
        PhotoUrlCache.photo_queries
          (PhotoUrlCache.getEventPhotoUrls env kv now eventId page limit forceRefresh
             expiresIn userId sortBy) = []
        /\ (PhotoUrlCache.response
              (PhotoUrlCache.getEventPhotoUrls env kv now eventId page limit
                 forceRefresh expiresIn userId sortBy)
            = Ok (PhotoUrlCache.DatabaseEmpty page)
            \/ exists entry,
                 PhotoUrlCache.response
                   (PhotoUrlCache.getEventPhotoUrls env kv now eventId page limit
                      forceRefresh expiresIn userId sortBy)
                 = Ok (PhotoUrlCache.FromEventCache entry))).
Proof.
  assert (200 <= (page - 1) * limit ->
          PhotoUrlCache.fetchEventPhotos env eventId page limit userId "most_liked"
            (Some event)
          = {| PhotoUrlCache.fetched := Ok ([], 200); PhotoUrlCache.queries := [] |})
    as Hbeyond.
  { intros Hoff. unfold PhotoUrlCache.fetchEventPhotos. cbn [String.eqb Ascii.eqb Bool.eqb andb].
    unfold PhotoUrlCache.maxPhotos.
    by rewrite (proj2 (Z.leb_le 200 ((page - 1) * limit))) by lia. }
  split; [| split; [| split]].
  - intros found totalCount. unfold PhotoUrlCache.fetchEventPhotos.
    cbn [String.eqb Ascii.eqb Bool.eqb andb]. unfold PhotoUrlCache.maxPhotos.
    destruct (Z.leb 200 ((page - 1) * limit)).
    + cbn. intros [= <- <-]. lia.
    + destruct (PhotoUrlCache.run_query env _) as [answer |]; cbn; [| discriminate].
      intros [= <- <-]. lia.
  - exact Hbeyond.
  - intros q. unfold PhotoUrlCache.fetchEventPhotos.
    cbn [String.eqb Ascii.eqb Bool.eqb andb]. unfold PhotoUrlCache.maxPhotos.
    destruct (Z.leb 200 ((page - 1) * limit)).
    + cbn. intros H. by apply elem_of_nil in H.
    + destruct (PhotoUrlCache.run_query env _) as [answer |]; cbn;
        intros H; apply list_elem_of_singleton in H; subst q; cbn; split; lia.
  - intros kv now forceRefresh expiresIn sortBy Hev Hsort Hoff.
    unfold PhotoUrlCache.getEventPhotoUrls. rewrite Hev, Hsort.
    destruct (if forceRefresh then None else _) as [hit |].
    + cbn. eauto.
    + rewrite (Hbeyond Hoff). cbn. eauto.
Qed.

(** Page 5 of 50 starts at offset 200: nothing is read from the photos
    table, although it holds 1000 photos. *)
Example page_five_of_fifty :
  PhotoUrlCache.fetchEventPhotos Scenarios.storage "event-3" 5 50 None "most_liked"
    (Some Scenarios.moderated_event)
  = {| PhotoUrlCache.fetched := Ok ([], 200); PhotoUrlCache.queries := [] |}.
Proof. reflexivity. Qed.

(** Page 4 of 60 starts at offset 180: the query stops at row 199 and the
    total is reported as 200 out of 1000. *)
Example page_four_of_sixty :
  (PhotoUrlCache.q_range <$>
     PhotoUrlCache.queries
       (PhotoUrlCache.fetchEventPhotos Scenarios.storage "event-3" 4 60 None
          "most_liked" (Some Scenarios.moderated_event))) = [(180, 199)]
  /\ snd <$> returned
               (PhotoUrlCache.fetched
                  (PhotoUrlCache.fetchEventPhotos Scenarios.storage "event-3" 4 60
                     None "most_liked" (Some Scenarios.moderated_event)))
     = Some 200.
Proof. split; evaluate. Qed.

(** ** Batch generation of signed URLs *)








(** Scenario D of the specification: 25 paths, the storage throws on the
    thirteenth; 24 URLs come back, the thirteenth path is absent, and the
    call returns normally. *)
Example scenario_25_paths_one_failure :
  let r := returned
             (PhotoUrlCache.batchGenerateSignedUrls Scenarios.storage
                Scenarios.empty_cache 1000 Scenarios.paths_25 3600 (Some "event-3")
                None false).1 in
  (size <$> (PhotoUrlCache.b_urls <$> r)) = Some 24%nat
  /\ ((fun m : PhotoUrlCache.Urls => m !! "event-3/photo-13.jpg")
        <$> (PhotoUrlCache.b_urls <$> r)) = Some None
  /\ ((fun m : PhotoUrlCache.Urls => m !! "event-3/photo-12.jpg")
        <$> (PhotoUrlCache.b_urls <$> r))
     = Some (Some (Some "https://storage.example/sign/event-3/photo-12.jpg"))
  /\ PhotoUrlCache.generated_count <$> r = Some 24
  /\ PhotoUrlCache.cached_count <$> r = Some 0.
Proof. conjuncts; evaluate. Qed.

(** ** The key-value wrapper *)

Lemma getWithAge_live {P} (kv : Redis.Kv P) (now : Z) (key : string)
    (entry : Redis.WithAge P) :
  Redis.getWithAge kv now key = Some entry ->
  Redis.live kv now key = Some (Redis.aged entry)
  /\ Redis.getCachedData kv now key = Some (Redis.aged entry).
Proof.
  unfold Redis.getWithAge, Redis.getCachedData.
  destruct (Redis.reachable kv); [| discriminate].
  destruct (Redis.live kv now key) as [data |]; [| discriminate].
  destruct (Redis.cached_at data); [| discriminate].
  by intros [= <-].
Qed.

Lemma setCachedData_other {P} (kv : Redis.Kv P) (now : Z) (key k : string)
    (data : Redis.Cached P) (ttl : Z) :
  key <> k ->
  Redis.slots (Redis.setCachedData kv now key data ttl).2 !! k = Redis.slots kv !! k.
Proof.
  intros Hne. unfold Redis.setCachedData.
  destruct (Redis.reachable kv && Z.ltb 0 ttl); [| done].
  cbn. by rewrite lookup_insert_ne.
Qed.

Lemma setWithAutoExpiry_other {P} (kv : Redis.Kv P) (now : Z) (key k : string)
    (data : P) (ttl : Z) :
  key <> k ->
  Redis.slots (Redis.setWithAutoExpiry kv now key data ttl).2 !! k
  = Redis.slots kv !! k.
Proof. apply setCachedData_other. Qed.

Lemma setBatch_other {P} (kv : Redis.Kv P) (now : Z)
    (dataMap : gmap string (Redis.Cached P)) (ttl : Z) (k : string) :
  dataMap !! k = None ->
  Redis.slots (Redis.setBatch kv now dataMap ttl).2 !! k = Redis.slots kv !! k.
Proof.
  intros Hnone. unfold Redis.setBatch.
  destruct (Redis.reachable kv); [| done].
  destruct (Z.ltb 0 ttl); [| done].
  cbn. rewrite lookup_union_r; [done |]. by rewrite lookup_fmap, Hnone.
Qed.

(** ** Stale fallback of the read-through caches *)

(** C2, as the code has it.  In the participants layer, when the relational
    query raises while a page is regenerated (a forced refresh, or no fresh
    entry under the key), the read returns the entry the key-value store
    still holds under the same key, whatever its expiry, tagged [stale] with
    a warning; the error propagates only when the store returns no entry.
    The event photo layer has no such fallback: a failure of its photo query
    is the result of the read unless a fresh cache entry answered first. *)
Theorem stale_fallback_by_layer
    (fetch : string -> Z -> Z -> result ParticipantsCache.PageResult)
    (kv : Redis.Kv ParticipantsCache.Stored) (now : Z)
    (eventId : string) (page limit : Z) (forceRefresh : bool) (message : string) :
  eventId <> "" -> 1 <= page -> 1 <= limit <= 100 ->
  fetch eventId page limit = Throw message ->
  (forceRefresh = true
   \/ forall c, Redis.getWithAge kv now (ParticipantsCache.cacheKey eventId page limit)
                = Some c -> Redis.is_expired c = true) ->
  (forall entry,
      Redis.getCachedData kv now (ParticipantsCache.cacheKey eventId page limit)
      = Some entry ->
      (ParticipantsCache.getEventParticipants fetch kv now eventId page limit
         forceRefresh).1 = Ok (ParticipantsCache.StaleFromCache entry)
      /\ ParticipantsCache.stale (ParticipantsCache.StaleFromCache entry) = true
      /\ ParticipantsCache.warning (ParticipantsCache.StaleFromCache entry)
         = Some "Serving cached data due to temporary database issues")
  /\ (Redis.getCachedData kv now (ParticipantsCache.cacheKey eventId page limit) = None ->
      (ParticipantsCache.getEventParticipants fetch kv now eventId page limit
         forceRefresh).1 = Throw message)
  /\ (forall env kvp at_ event_id page_no size refresh userId sortBy expiresIn event
             failure,
        PhotoUrlCache.select_event env event_id = Ok event ->
        PhotoUrlCache.fetched
          (PhotoUrlCache.fetchEventPhotos env event_id page_no size userId
             (PhotoUrlCache.validatedSortBy sortBy) (Some event)) = Throw failure ->
        PhotoUrlCache.response
          (PhotoUrlCache.getEventPhotoUrls env kvp at_ event_id page_no size refresh
             expiresIn userId sortBy) = Throw failure
        \/ exists entry,
             PhotoUrlCache.response
               (PhotoUrlCache.getEventPhotoUrls env kvp at_ event_id page_no size
                  refresh expiresIn userId sortBy)
             = Ok (PhotoUrlCache.FromEventCache entry)
             /\ Redis.is_expired entry = false).
Proof.
  intros Hid Hpage Hlimit Hfetch Hmiss.
  assert ((String.eqb eventId "" || Z.ltb page 1 || Z.ltb limit 1 || Z.ltb 100 limit)
          = false) as Hvalid.
  { rewrite (proj2 (String.eqb_neq eventId "") Hid).
    rewrite (proj2 (Z.ltb_ge page 1)), (proj2 (Z.ltb_ge limit 1)),
      (proj2 (Z.ltb_ge 100 limit)); [done | lia..]. }
  assert ((if forceRefresh then None
           else match Redis.getWithAge kv now
                        (ParticipantsCache.cacheKey eventId page limit) with
                | Some cachedData =>
                    if negb (Redis.is_expired cachedData) then Some cachedData else None
                | None => None
                end) = None) as Hnohit.
  { destruct Hmiss as [-> | Hexp]; [done |]. destruct forceRefresh; [done |].
    destruct (Redis.getWithAge kv now _) as [c |] eqn:E; [| done].
    by rewrite (Hexp c eq_refl). }
  split; [| split].
  - intros entry Hentry. unfold ParticipantsCache.getEventParticipants.
    rewrite Hvalid, Hnohit, Hfetch, Hentry. done.
  - intros Hentry. unfold ParticipantsCache.getEventParticipants.
    by rewrite Hvalid, Hnohit, Hfetch, Hentry.
  - intros env kvp at_ event_id page_no size refresh userId sortBy expiresIn event
      failure Hev Hfail.
    unfold PhotoUrlCache.getEventPhotoUrls. rewrite Hev.
    destruct refresh.
    + rewrite Hfail. cbn. by left.
    + destruct (Redis.getWithAge kvp at_ _) as [c |]; [| rewrite Hfail; cbn; by left].
      destruct (Redis.is_expired c) eqn:Ec; cbn [negb andb].
      * rewrite Hfail. cbn. by left.
      * destruct (PhotoUrlCache.hasExpiredUrls env at_ (Redis.aged c)); cbn [negb].
        -- rewrite Hfail. cbn. by left.
        -- cbn. right. eauto.
Qed.

Lemma stale_fallback_by_layer_witness :
  "event-3" <> ""
  /\ (ParticipantsCache.getEventParticipants Scenarios.failing_fetch
        Scenarios.expired_participants_cache Scenarios.just_expired "event-3" 1 20
        false).1
     = Ok (ParticipantsCache.StaleFromCache
             {| Redis.body := ParticipantsCache.PageEntry Scenarios.old_participants;
                Redis.cached_at := Some 0;
                Redis.expires_at := Some 1800000 |}).
Proof.
  assert ("event-3" <> "") as H by discriminate.
  split; [exact H |].
  refine (proj1 (proj1 (stale_fallback_by_layer
            Scenarios.failing_fetch Scenarios.expired_participants_cache
            Scenarios.just_expired "event-3" 1 20 false "connection refused"
            H _ _ _ _) _ _)).
  - lia.
  - lia.
  - reflexivity.
  - right. intros c Hc. vm_compute in Hc. by injection Hc as <-.
  - vm_compute; reflexivity.
Defined.

(** C2, the counterexample: the key-value store still holds the anonymous
    page 1 of the event (expired ten milliseconds ago), the photo query
    fails, and the read of the event photo URLs raises the query's error
    instead of returning the stored page. *)
Lemma photo_read_raises_despite_stored_page :
  Redis.getCachedData Scenarios.expired_photo_cache Scenarios.just_expired
    (PhotoUrlCache.cacheKey "event-3" "most_liked" "anonymous" "moderated" 1 50)
  = Some {| Redis.body := PhotoUrlCache.PageEntry Scenarios.old_page;
            Redis.cached_at := Some 0;
            Redis.expires_at := Some 1800000 |}
  /\ PhotoUrlCache.response
       (PhotoUrlCache.getEventPhotoUrls Scenarios.broken_database
          Scenarios.expired_photo_cache Scenarios.just_expired "event-3" 1 50 false
          3600 None "most_liked")
     = Throw "connection refused".
Proof. split; evaluate. Qed.

(** ** Segmentation of the event photo cache *)

Lemma chars_append (a b : string) :
  String.list_ascii_of_string (a +:+ b)
  = (String.list_ascii_of_string a ++ String.list_ascii_of_string b)%list.
Proof.
  induction a as [| c a IH]; [done |].
  change (String c a +:+ b) with (String c (a +:+ b)). cbn. by rewrite IH.
Qed.

Lemma chars_inj (a b : string) :
  String.list_ascii_of_string a = String.list_ascii_of_string b -> a = b.
Proof.
  intros H. rewrite <- (String.string_of_list_ascii_of_string a),
    <- (String.string_of_list_ascii_of_string b). by rewrite H.
Qed.

Lemma append_cancel_r (a b s : string) : a +:+ s = b +:+ s -> a = b.
Proof.
  intros H. apply chars_inj.
  apply (f_equal String.list_ascii_of_string) in H.
  rewrite !chars_append in H. by apply app_inv_tail in H.
Qed.

Lemma append_cancel_l (s a b : string) : s +:+ a = s +:+ b -> a = b.
Proof.
  induction s as [| c s IH]; [done |].
  change (String c s +:+ a) with (String c (s +:+ a)).
  change (String c s +:+ b) with (String c (s +:+ b)).
  intros [= H]. auto.
Qed.

(** The key determines the role and the moderation mode. *)
Lemma cacheKey_determines_role (eventId sortBy m : string) (page limit : Z)
    (role1 role2 : string) :
  PhotoUrlCache.cacheKey eventId sortBy role1 m page limit
  = PhotoUrlCache.cacheKey eventId sortBy role2 m page limit ->
  role1 = role2.
Proof.
  unfold PhotoUrlCache.cacheKey. intros H.
  do 5 apply append_cancel_l in H. by apply append_cancel_r in H.
Qed.

Lemma cacheKey_determines_moderation (eventId sortBy role : string) (page limit : Z)
    (m1 m2 : string) :
  PhotoUrlCache.cacheKey eventId sortBy role m1 page limit
  = PhotoUrlCache.cacheKey eventId sortBy role m2 page limit ->
  m1 = m2.
Proof.
  unfold PhotoUrlCache.cacheKey. intros H.
  do 7 apply append_cancel_l in H. by apply append_cancel_r in H.
Qed.

Lemma event_key_is_no_url_key (eventId sortBy role m : string) (page limit : Z)
    (path : string) :
  PhotoUrlCache.url_key path <> PhotoUrlCache.cacheKey eventId sortBy role m page limit.
Proof. unfold PhotoUrlCache.url_key, PhotoUrlCache.cacheKey. cbn. discriminate. Qed.

Lemma event_key_is_no_batch_key (eventId sortBy role m : string) (page limit : Z)
    (e : string) :
  PhotoUrlCache.BATCH_PREFIX +:+ e
  <> PhotoUrlCache.cacheKey eventId sortBy role m page limit.
Proof.
  unfold PhotoUrlCache.BATCH_PREFIX, PhotoUrlCache.cacheKey. cbn. discriminate.
Qed.

Lemma cacheSignedUrls_other (kv : Redis.Kv PhotoUrlCache.Stored) (now : Z)
    (order : list string) (newUrls : gmap string string) (expiresIn : Z) (k : string) :
  (forall path, PhotoUrlCache.url_key path <> k) ->
  Redis.slots (PhotoUrlCache.cacheSignedUrls kv now order newUrls expiresIn) !! k
  = Redis.slots kv !! k.
Proof.
  intros Hk. unfold PhotoUrlCache.cacheSignedUrls. apply setBatch_other.
  generalize (PhotoUrlCache.insertion_order order) as paths. intros paths.
  assert (forall acc : gmap string (Redis.Cached PhotoUrlCache.Stored),
            acc !! k = None ->
            foldl (fun m path =>
                     match newUrls !! path with
                     | Some signedUrl =>
                         <[PhotoUrlCache.url_key path :=
                             {| Redis.body := PhotoUrlCache.UrlEntry path signedUrl now;
                                Redis.cached_at := None;
                                Redis.expires_at := Some (now + expiresIn * 1000) |}]> m
                     | None => m
                     end) acc paths !! k = None) as Hfold.
  { induction paths as [| x xs IH]; intros acc Hacc; [done |].
    cbn [foldl]. apply IH. destruct (newUrls !! x); [| done].
    by rewrite lookup_insert_ne. }
  apply Hfold, lookup_empty.
Qed.

Lemma batchGenerate_other (env : PhotoUrlCache.Backend)
    (kv : Redis.Kv PhotoUrlCache.Stored) (now : Z) (paths : list string)
    (expiresIn : Z) (eventId userId : option string) (forceRefresh : bool)
    (k : string) :
  (forall path, PhotoUrlCache.url_key path <> k) ->
  (forall e, PhotoUrlCache.BATCH_PREFIX +:+ e <> k) ->
  Redis.slots (PhotoUrlCache.batchGenerateSignedUrls env kv now paths expiresIn
                 eventId userId forceRefresh).2 !! k
  = Redis.slots kv !! k.
Proof.
  intros Hurl Hbatch. unfold PhotoUrlCache.batchGenerateSignedUrls.
  destruct paths as [| p0 ps]; [done |].
  destruct (Z.ltb _ _); [done |]. destruct (Z.ltb _ _); [done |].
  destruct (if forceRefresh then _ else _) as [cachedUrls todo].
  cbn [snd].
  set (kv1 := match todo with
              | [] => kv
              | _ => PhotoUrlCache.cacheSignedUrls kv now todo _ expiresIn
              end).
  assert (Redis.slots kv1 !! k = Redis.slots kv !! k) as H1.
  { subst kv1. destruct todo; [done |]. by apply cacheSignedUrls_other. }
  destruct eventId as [e |]; [| done].
  destruct (String.eqb e ""); [done |].
  unfold PhotoUrlCache.cacheEventPhotoBatch.
  rewrite setWithAutoExpiry_other; [done | apply Hbatch].
Qed.

(** A read writes under its own event key, under URL keys and under the
    batch key of the event, and nowhere else. *)
Lemma read_leaves_other_event_keys (env : PhotoUrlCache.Backend)
    (kv : Redis.Kv PhotoUrlCache.Stored) (now : Z) (eventId : string)
    (page limit : Z) (forceRefresh : bool) (expiresIn : Z)
    (userId : option string) (sortBy : string) (event : PhotoUrlCache.Event)
    (sort' role' m' : string) (page' limit' : Z) :
  PhotoUrlCache.select_event env eventId = Ok event ->
  PhotoUrlCache.cacheKey eventId (PhotoUrlCache.validatedSortBy sortBy)
    (PhotoUrlCache.userRole event userId) (PhotoUrlCache.moderationMode event)
    page limit
  <> PhotoUrlCache.cacheKey eventId sort' role' m' page' limit' ->
  Redis.slots
    (PhotoUrlCache.kv_after
       (PhotoUrlCache.getEventPhotoUrls env kv now eventId page limit forceRefresh
          expiresIn userId sortBy))
    !! PhotoUrlCache.cacheKey eventId sort' role' m' page' limit'
  = Redis.slots kv !! PhotoUrlCache.cacheKey eventId sort' role' m' page' limit'.
Proof.
  intros Hev Hne. unfold PhotoUrlCache.getEventPhotoUrls. rewrite Hev.
  destruct (if forceRefresh then None else _) as [hit |]; [done |].
  destruct (PhotoUrlCache.fetched _) as [[found totalCount] |]; [| done].
  destruct found as [| ph phs]; [done |].
  destruct (List.filter _ _) as [| p0 ps]; [done |].
  pose proof (batchGenerate_other env kv now (p0 :: ps) expiresIn (Some eventId)
                userId forceRefresh
                (PhotoUrlCache.cacheKey eventId sort' role' m' page' limit')
                (fun path => event_key_is_no_url_key _ _ _ _ _ _ path)
                (fun e => event_key_is_no_batch_key _ _ _ _ _ _ e)) as Hb.
  destruct (PhotoUrlCache.batchGenerateSignedUrls env kv now (p0 :: ps) _ _ _ _)
    as [[urlResult | failure] kv1]; cbn [snd] in Hb; cbn [PhotoUrlCache.kv_after].
  - by rewrite setWithAutoExpiry_other.
  - done.
Qed.

(** What a read serves from the event cache is the unexpired entry stored
    under the key of its own role. *)
Lemma served_from_own_key (env : PhotoUrlCache.Backend)
    (kv : Redis.Kv PhotoUrlCache.Stored) (now : Z) (eventId : string)
    (page limit : Z) (forceRefresh : bool) (expiresIn : Z)
    (userId : option string) (sortBy : string) (event : PhotoUrlCache.Event)
    (entry : Redis.WithAge PhotoUrlCache.Stored) :
  PhotoUrlCache.select_event env eventId = Ok event ->
  PhotoUrlCache.response
    (PhotoUrlCache.getEventPhotoUrls env kv now eventId page limit forceRefresh
       expiresIn userId sortBy) = Ok (PhotoUrlCache.FromEventCache entry) ->
  Redis.live kv now
    (PhotoUrlCache.cacheKey eventId (PhotoUrlCache.validatedSortBy sortBy)
       (PhotoUrlCache.userRole event userId) (PhotoUrlCache.moderationMode event)
       page limit) = Some (Redis.aged entry).
Proof.
  intros Hev. unfold PhotoUrlCache.getEventPhotoUrls. rewrite Hev.
  destruct forceRefresh.
  - destruct (PhotoUrlCache.fetched _) as [[found totalCount] |]; [| discriminate].
    destruct found as [| ph phs]; [discriminate |].
    destruct (List.filter _ _) as [| p0 ps]; [discriminate |].
    destruct (PhotoUrlCache.batchGenerateSignedUrls _ _ _ _ _ _ _ _)
      as [[urlResult | failure] kv1]; discriminate.
  - destruct (Redis.getWithAge kv now _) as [c |] eqn:Ec.
    + destruct (negb (Redis.is_expired c) && _).
      * cbn. intros [= <-]. by apply getWithAge_live in Ec as [H _].
      * destruct (PhotoUrlCache.fetched _) as [[found totalCount] |]; [| discriminate].
        destruct found as [| ph phs]; [discriminate |].
        destruct (List.filter _ _) as [| p0 ps]; [discriminate |].
        destruct (PhotoUrlCache.batchGenerateSignedUrls _ _ _ _ _ _ _ _)
          as [[urlResult | failure] kv1]; discriminate.
    + destruct (PhotoUrlCache.fetched _) as [[found totalCount] |]; [| discriminate].
      destruct found as [| ph phs]; [discriminate |].
      destruct (List.filter _ _) as [| p0 ps]; [discriminate |].
      destruct (PhotoUrlCache.batchGenerateSignedUrls _ _ _ _ _ _ _ _)
        as [[urlResult | failure] kv1]; discriminate.
Qed.

(** C5.  The event photo cache key is a function of the event, the sort,
    the actor role, the moderation mode and the pagination, and it
    determines the role and the moderation mode.  For two actors of
    different roles reading the same event, sort and page: their keys differ;
    what a read serves from the cache is the entry stored under the key of
    its own role; the first actor's read leaves the slot under the second
    actor's key untouched, so what the second actor is then served from the
    cache was stored under the second actor's own key before that read. *)
Theorem event_cache_is_segmented_by_role
    (env : PhotoUrlCache.Backend) (kv : Redis.Kv PhotoUrlCache.Stored) (now now' : Z)
    (eventId : string) (page limit expiresIn : Z) (sortBy : string)
    (event : PhotoUrlCache.Event) (actor1 actor2 : option string)
    (refresh1 refresh2 : bool) :
  PhotoUrlCache.select_event env eventId = Ok event ->
  PhotoUrlCache.userRole event actor1 <> PhotoUrlCache.userRole event actor2 ->
  let key actor :=
    PhotoUrlCache.cacheKey eventId (PhotoUrlCache.validatedSortBy sortBy)
      (PhotoUrlCache.userRole event actor) (PhotoUrlCache.moderationMode event)
      page limit in
  let read1 :=
    PhotoUrlCache.getEventPhotoUrls env kv now eventId page limit refresh1 expiresIn
      actor1 sortBy in
  let read2 :=
    PhotoUrlCache.getEventPhotoUrls env (PhotoUrlCache.kv_after read1) now' eventId
      page limit refresh2 expiresIn actor2 sortBy in
  key actor1 <> key actor2
  /\ (forall entry,
        PhotoUrlCache.response read1 = Ok (PhotoUrlCache.FromEventCache entry) ->
        Redis.live kv now (key actor1) = Some (Redis.aged entry))
  /\ Redis.slots (PhotoUrlCache.kv_after read1) !! key actor2
     = Redis.slots kv !! key actor2
  /\ (forall entry,
        PhotoUrlCache.response read2 = Ok (PhotoUrlCache.FromEventCache entry) ->
        Redis.live kv now' (key actor2) = Some (Redis.aged entry)).
Proof.
  intros Hev Hroles key read1 read2.
  assert (key actor1 <> key actor2) as Hkeys.
  { intros H. apply Hroles. by apply cacheKey_determines_role in H. }
  assert (Redis.slots (PhotoUrlCache.kv_after read1) !! key actor2
          = Redis.slots kv !! key actor2) as Hframe.
  { subst read1 key. cbv beta in *.
    by apply (read_leaves_other_event_keys env kv now eventId page limit refresh1
                expiresIn actor1 sortBy event). }
  split; [done |]. split; [| split; [done |]].
  - intros entry H. subst read1 key. by eapply served_from_own_key.
  - intros entry H. subst read2 key.
    apply (served_from_own_key env _ now' eventId page limit refresh2 expiresIn
             actor2 sortBy event entry Hev) in H.
    unfold Redis.live in *. by rewrite <- Hframe.
Qed.

Lemma event_cache_is_segmented_by_role_witness :
  PhotoUrlCache.userRole Scenarios.moderated_event None
  <> PhotoUrlCache.userRole Scenarios.moderated_event (Some "olivia")
  /\ PhotoUrlCache.cacheKey "event-3" "most_liked" "anonymous" "moderated" 1 50
     <> PhotoUrlCache.cacheKey "event-3" "most_liked" "organizer" "moderated" 1 50.
Proof.
  assert (PhotoUrlCache.userRole Scenarios.moderated_event None
          <> PhotoUrlCache.userRole Scenarios.moderated_event (Some "olivia")) as H
    by (vm_compute; discriminate).
  split; [exact H |].
  exact (proj1 (event_cache_is_segmented_by_role
                  Scenarios.storage Scenarios.empty_cache 1000 2000 "event-3" 1 50
                  3600 "most_liked" Scenarios.moderated_event None (Some "olivia")
                  false false eq_refl H)).
Defined.

(** An anonymous read fills the cache; the organizer's read of the same page
    a second later is not served from it, while a second anonymous read is. *)
Example organizer_misses_anonymous_page :
  let first := PhotoUrlCache.getEventPhotoUrls Scenarios.storage Scenarios.empty_cache
                 1000 "event-3" 1 50 false 3600 None "most_liked" in
  let organizer := PhotoUrlCache.getEventPhotoUrls Scenarios.storage
                     (PhotoUrlCache.kv_after first) 2000 "event-3" 1 50 false 3600
                     (Some "olivia") "most_liked" in
  let anonymous := PhotoUrlCache.getEventPhotoUrls Scenarios.storage
                     (PhotoUrlCache.kv_after first) 2000 "event-3" 1 50 false 3600
                     None "most_liked" in
  PhotoUrlCache.cached <$> returned (PhotoUrlCache.response first) = Some false
  /\ PhotoUrlCache.cached <$> returned (PhotoUrlCache.response organizer) = Some false
  /\ PhotoUrlCache.cached <$> returned (PhotoUrlCache.response anonymous) = Some true.
Proof. conjuncts; evaluate. Qed.

(** ** Batch adapters: counts and deactivation *)

Lemma filter_split_length {A} (keep : A -> bool) (xs : list A) :
  lenZ (List.filter keep xs) + lenZ (List.filter (fun x => negb (keep x)) xs)
  = lenZ xs.
Proof.
  unfold lenZ. induction xs as [| x xs IH]; [done |].
  cbn [List.filter]. destruct (keep x); cbn [negb length]; lia.
Qed.

Lemma findIndex_lookup {A} (p : A -> bool) (xs : list A) (k : nat) :
  ExpoPush.findIndex p xs = Some k ->
  exists x, xs !! k = Some x /\ p x = true.
Proof.
  revert k. induction xs as [| x xs IH]; intros k; [discriminate |].
  cbn [ExpoPush.findIndex]. destruct (p x) eqn:E.
  - intros [= <-]. eauto.
  - destruct (ExpoPush.findIndex p xs) as [j |]; [| discriminate].
    intros [= <-]. destruct (IH j eq_refl) as (y & Hy & Hp). eauto.
Qed.

Section ExpoBatch.

Variable isExpoPushToken : string -> bool.
Variable chunkPushNotifications :
  list ExpoPush.Message -> list (list ExpoPush.Message).
Variable sendPushNotificationsAsync :
  list ExpoPush.Message -> result (list ExpoPush.Ticket).

(** The SDK splits the messages without changing them and answers a chunk
    with one ticket per message. *)
Hypothesis chunks_partition :
  forall messages, concat (chunkPushNotifications messages) = messages.
Hypothesis one_ticket_per_message :
  forall chunk received,
    sendPushNotificationsAsync chunk = Ok received -> length received = length chunk.

Variable timestamp : string.
Variable notification : Templates.Notification.
Variable data : Data.
Variable validTokens : list string.

Let messages : list ExpoPush.Message :=
  imap (ExpoPush.make_message timestamp notification data) validTokens.

Lemma message_at (k : nat) (m : ExpoPush.Message) :
  messages !! k = Some m ->
  ExpoPush.m_ref m = k /\ validTokens !! k = Some (ExpoPush.m_to m).
Proof.
  unfold messages. rewrite list_lookup_imap.
  destruct (validTokens !! k) as [tok |]; [| discriminate].
  cbn. by intros [= <-].
Qed.

(** A message of the batch is found at its own position, which holds the
    token it is addressed to. *)
Lemma found_own_token (sent : ExpoPush.Message) (k : nat) (tok : string) :
  sent ∈ messages ->
  ExpoPush.findIndex (fun m => Nat.eqb (ExpoPush.m_ref m) (ExpoPush.m_ref sent)) messages
  = Some k ->
  validTokens !! k = Some tok ->
  ExpoPush.m_to sent = tok.
Proof.
  intros Hin Hfind Htok.
  apply list_elem_of_lookup in Hin as [j Hj].
  destruct (message_at j sent Hj) as [Hrefj Htokj].
  apply findIndex_lookup in Hfind as (m & Hm & Heq).
  destruct (message_at k m Hm) as [Hrefk _].
  apply Nat.eqb_eq in Heq. rewrite Hrefk, Hrefj in Heq. subst k.
  rewrite Htokj in Htok. by injection Htok.
Qed.

Lemma count_ticket_totals (chunk : list ExpoPush.Message) (index : nat)
    (ticket : ExpoPush.Ticket) (t : ExpoPush.Totals) :
  ExpoPush.successes (ExpoPush.count_ticket messages validTokens chunk index ticket t)
  + ExpoPush.failures (ExpoPush.count_ticket messages validTokens chunk index ticket t)
  = ExpoPush.successes t + ExpoPush.failures t + 1.
Proof.
  unfold ExpoPush.count_ticket.
  destruct (String.eqb (ExpoPush.status ticket) "ok"); cbn; lia.
Qed.

Lemma count_tickets_totals (chunk : list ExpoPush.Message)
    (received : list ExpoPush.Ticket) :
  forall (index : nat) (t : ExpoPush.Totals),
    ExpoPush.successes
      (ExpoPush.count_tickets messages validTokens chunk index received t)
    + ExpoPush.failures
        (ExpoPush.count_tickets messages validTokens chunk index received t)
    = ExpoPush.successes t + ExpoPush.failures t + lenZ received.
Proof.
  induction received as [| ticket rest IH]; intros index t.
  - unfold lenZ. cbn. lia.
  - cbn [ExpoPush.count_tickets]. rewrite IH, count_ticket_totals.
    unfold lenZ. cbn [length]. lia.
Qed.

Lemma send_chunk_totals (t : ExpoPush.Totals) (chunk : list ExpoPush.Message) :
  ExpoPush.successes
    (ExpoPush.send_chunk sendPushNotificationsAsync messages validTokens t chunk)
  + ExpoPush.failures
      (ExpoPush.send_chunk sendPushNotificationsAsync messages validTokens t chunk)
  = ExpoPush.successes t + ExpoPush.failures t + lenZ chunk.
Proof.
  unfold ExpoPush.send_chunk.
  destruct (sendPushNotificationsAsync chunk) as [received |] eqn:E.
  - rewrite count_tickets_totals. cbn.
    unfold lenZ. by rewrite (one_ticket_per_message chunk received E).
  - cbn. lia.
Qed.

Lemma send_chunks_totals (chunks : list (list ExpoPush.Message)) :
  forall t : ExpoPush.Totals,
    ExpoPush.successes
      (foldl (ExpoPush.send_chunk sendPushNotificationsAsync messages validTokens)
         t chunks)
    + ExpoPush.failures
        (foldl (ExpoPush.send_chunk sendPushNotificationsAsync messages validTokens)
           t chunks)
    = ExpoPush.successes t + ExpoPush.failures t + lenZ (concat chunks).
Proof.
  induction chunks as [| chunk rest IH]; intros t.
  - unfold lenZ. cbn. lia.
  - cbn [foldl concat]. rewrite IH, send_chunk_totals.
    unfold lenZ. rewrite length_app. lia.
Qed.

(** The tokens marked by one ticket. *)
Lemma count_ticket_marks (chunk : list ExpoPush.Message) (index : nat)
    (ticket : ExpoPush.Ticket) (t : ExpoPush.Totals) (tok : string) :
  (forall sent, sent ∈ chunk -> sent ∈ messages) ->
  tok ∈ ExpoPush.deactivate
          (ExpoPush.count_ticket messages validTokens chunk index ticket t) ->
  tok ∈ ExpoPush.deactivate t
  \/ exists sent,
       chunk !! index = Some sent /\ ExpoPush.m_to sent = tok
       /\ ExpoPush.status ticket <> "ok"
       /\ ExpoPush.details_error ticket = Some "DeviceNotRegistered".
Proof.
  intros Hchunk. unfold ExpoPush.count_ticket.
  destruct (String.eqb (ExpoPush.status ticket) "ok") eqn:Eok; cbn; [by left |].
  apply String.eqb_neq in Eok.
  rewrite elem_of_app. intros [H | H]; [by left |]. right.
  destruct (ExpoPush.details_error ticket) as [e |]; [| by apply elem_of_nil in H].
  destruct (String.eqb e "DeviceNotRegistered") eqn:Ee;
    [| by apply elem_of_nil in H].
  apply String.eqb_eq in Ee. subst e.
  destruct (chunk !! index) as [sent |] eqn:Esent; [| by apply elem_of_nil in H].
  destruct (ExpoPush.findIndex _ messages) as [k |] eqn:Ek;
    [| by apply elem_of_nil in H].
  destruct (validTokens !! k) as [tok' |] eqn:Etok; [| by apply elem_of_nil in H].
  apply list_elem_of_singleton in H. subst tok'.
  exists sent. repeat split; try done.
  eapply found_own_token; [| exact Ek | exact Etok].
  apply Hchunk. by eapply list_elem_of_lookup_2.
Qed.

Lemma count_tickets_marks (chunk : list ExpoPush.Message)
    (received : list ExpoPush.Ticket) (tok : string) :
  (forall sent, sent ∈ chunk -> sent ∈ messages) ->
  forall (index : nat) (t : ExpoPush.Totals),
    tok ∈ ExpoPush.deactivate
            (ExpoPush.count_tickets messages validTokens chunk index received t) ->
    tok ∈ ExpoPush.deactivate t
    \/ exists offset ticket sent,
         received !! offset = Some ticket
         /\ chunk !! (index + offset)%nat = Some sent
         /\ ExpoPush.m_to sent = tok
         /\ ExpoPush.status ticket <> "ok"
         /\ ExpoPush.details_error ticket = Some "DeviceNotRegistered".
Proof.
  intros Hchunk. induction received as [| ticket rest IH]; intros index t.
  - cbn. by left.
  - cbn [ExpoPush.count_tickets]. intros H.
    apply IH in H as [H | (offset & tk & sent & H1 & H2 & H3 & H4 & H5)].
    + apply count_ticket_marks in H as [H | (sent & H1 & H2 & H3 & H4)];
        [by left | | done].
      right. exists O, ticket, sent. rewrite Nat.add_0_r. auto.
    + right. exists (S offset), tk, sent.
      replace (index + S offset)%nat with (S index + offset)%nat by lia.
      auto.
Qed.

Lemma send_chunks_marks (tok : string) (chunks : list (list ExpoPush.Message)) :
  (forall chunk sent, chunk ∈ chunks -> sent ∈ chunk -> sent ∈ messages) ->
  forall t : ExpoPush.Totals,
    tok ∈ ExpoPush.deactivate
            (foldl (ExpoPush.send_chunk sendPushNotificationsAsync messages validTokens)
               t chunks) ->
    tok ∈ ExpoPush.deactivate t
    \/ ExpoPush.reported_unregistered chunks sendPushNotificationsAsync tok.
Proof.
  induction chunks as [| chunk rest IH]; intros Hin t.
  - cbn. by left.
  - cbn [foldl]. intros H.
    apply IH in H as [H | (c & r & i & tk & s & H1 & H2)].
    + unfold ExpoPush.send_chunk in H.
      destruct (sendPushNotificationsAsync chunk) as [received |] eqn:E;
        [| by left].
      apply count_tickets_marks in H
        as [H | (offset & tk & sent & H1 & H2 & H3 & H4 & H5)].
      * by left.
      * right. exists chunk, received, offset, tk, sent.
        cbn [Nat.add] in H2. split; [by left |]. repeat split; assumption.
      * intros sent Hs. apply (Hin chunk); [by left | done].
    + right. exists c, r, i, tk, s. split; [by right | done].
    + intros c s Hc Hs. apply (Hin c); [by right | done].
Qed.

End ExpoBatch.

Lemma sumZ_app (xs ys : list Z) : sumZ (xs ++ ys) = sumZ xs + sumZ ys.
Proof. unfold sumZ. induction xs as [| x xs IH]; cbn; lia. Qed.

Lemma fcm_batches_total
    (sendMulticast : Templates.Notification -> Data -> list string
                     -> result Fcm.BatchResponse)
    (notification : Templates.Notification) (data : Data) :
  (forall batch response,
      sendMulticast notification data batch = Ok response ->
      Fcm.br_successCount response + Fcm.br_failureCount response = lenZ batch) ->
  forall (batches : list (list string)) (acc results : list Fcm.BatchEntry),
    Fcm.send_batches sendMulticast notification data batches acc = Ok results ->
    sumZ ((fun e => Fcm.successCount e + Fcm.failureCount e) <$> results)
    = sumZ ((fun e => Fcm.successCount e + Fcm.failureCount e) <$> acc)
      + lenZ (concat batches).
Proof.
  intros Hsdk. induction batches as [| batch rest IH]; intros acc results.
  - cbn. intros [= <-]. unfold lenZ. cbn. lia.
  - cbn [Fcm.send_batches].
    destruct (sendMulticast notification data batch) as [response |] eqn:E;
      [| discriminate].
    intros H. apply IH in H. rewrite H, fmap_app, sumZ_app.
    pose proof (Hsdk batch response E) as Hb.
    cbn. unfold lenZ in *. rewrite length_app. lia.
Qed.

Lemma fcm_step_marks_nothing (p : Providers) (bucket : list DeviceToken)
    (notification : Templates.Notification) (r : DeviceResults) :
  invalidTokens (fcm_step p bucket notification r) = invalidTokens r.
Proof.
  unfold fcm_step.
  destruct (sendBatchFCMNotifications p _ notification _) as [[batches | e] | e];
    [| cbn; apply app_nil_r..].
  revert r. induction batches as [| batch rest IH]; intros r; [done |].
  cbn [foldl]. rewrite IH. cbn. apply app_nil_r.
Qed.

(** C4, as the code has it.  The SDKs answer a chunk with one result per
    message.  The Expo adapter first drops the tokens that fail the SDK's
    format check and reports them as [invalidCount]: when it sends, its
    [successCount] and [failureCount] add up to the number of well-formed
    tokens, and to the size of the batch once [invalidCount] is added; every
    token it marks for deactivation is the address of a message whose ticket
    is an error ticket with [DeviceNotRegistered], never of one whose ticket
    is [ok].  It sends as soon as one token is well formed.  The legacy FCM
    adapter, when no chunk throws, returns per-chunk counts that add up to
    the size of the batch, and marks no token: the dispatch loop collects no
    invalid token from it. *)
Theorem batch_counts_and_deactivation
    (isExpoPushToken : string -> bool)
    (chunkPushNotifications : list ExpoPush.Message -> list (list ExpoPush.Message))
    (sendPushNotificationsAsync : list ExpoPush.Message -> result (list ExpoPush.Ticket))
    (initializeFirebase : result unit)
    (sendMulticast : Templates.Notification -> Data -> list string
                     -> result Fcm.BatchResponse)
    (timestamp : string) (tokens : list string)
    (notification : Templates.Notification) (data : Data) :
  (forall messages, concat (chunkPushNotifications messages) = messages) ->
  (forall chunk received,
      sendPushNotificationsAsync chunk = Ok received ->
      length received = length chunk) ->
  (forall batch response,
      sendMulticast notification data batch = Ok response ->
      Fcm.br_successCount response + Fcm.br_failureCount response = lenZ batch) ->
  (forall c,
      ExpoPush.sendBatchExpoPushNotifications isExpoPushToken chunkPushNotifications
        sendPushNotificationsAsync timestamp tokens notification data
      = ExpoPush.BatchSent c ->
      ExpoPush.successCount c + ExpoPush.failureCount c
      = lenZ (List.filter isExpoPushToken tokens)
      /\ ExpoPush.successCount c + ExpoPush.failureCount c + ExpoPush.invalidCount c
         = lenZ tokens
      /\ forall tok,
           tok ∈ ExpoPush.tokensToDeactivate c ->
           ExpoPush.reported_unregistered
             (chunkPushNotifications
                (imap (ExpoPush.make_message timestamp notification data)
                   (List.filter isExpoPushToken tokens)))
             sendPushNotificationsAsync tok)
  /\ (List.filter isExpoPushToken tokens <> [] ->
      exists c,
        ExpoPush.sendBatchExpoPushNotifications isExpoPushToken chunkPushNotifications
          sendPushNotificationsAsync timestamp tokens notification data
        = ExpoPush.BatchSent c)
  /\ (forall results,
        Fcm.sendBatchFCMNotifications initializeFirebase sendMulticast tokens
          notification data = Fcm.BatchSent results ->
        sumZ ((fun e => Fcm.successCount e + Fcm.failureCount e) <$> results)
        = lenZ tokens)
  /\ (forall p bucket r,
        invalidTokens (fcm_step p bucket notification r) = invalidTokens r).
Proof.
  intros Hpart Htickets Hfcm.
  split; [| split; [| split]].
  - intros c. unfold ExpoPush.sendBatchExpoPushNotifications.
    destruct (List.filter isExpoPushToken tokens) as [| v vs] eqn:Ev; [discriminate |].
    rewrite <- Ev.
    set (validTokens := List.filter isExpoPushToken tokens).
    set (messages := imap (ExpoPush.make_message timestamp notification data) validTokens).
    intros [= <-].
    cbn [ExpoPush.successCount ExpoPush.failureCount ExpoPush.invalidCount
         ExpoPush.tokensToDeactivate].
    pose proof (send_chunks_totals sendPushNotificationsAsync Htickets timestamp
                  notification data validTokens (chunkPushNotifications messages)
                  {| ExpoPush.allTickets := []; ExpoPush.successes := 0;
                     ExpoPush.failures := 0; ExpoPush.deactivate := [] |}) as Htot.
    fold messages in Htot. rewrite Hpart in Htot. cbn in Htot.
    assert (lenZ messages = lenZ validTokens) as Hlen.
    { unfold lenZ, messages. by rewrite length_imap. }
    rewrite Hlen in Htot.
    split; [lia |]. split.
    { pose proof (filter_split_length isExpoPushToken tokens) as Hs.
      fold validTokens in Hs. lia. }
    intros tok Htok.
    apply (send_chunks_marks sendPushNotificationsAsync timestamp notification data
             validTokens tok) in Htok as [Htok | Htok]; [| done |].
    + cbn in Htok. by apply elem_of_nil in Htok.
    + intros chunk sent Hc Hs. fold messages. rewrite <- (Hpart messages).
      by apply (elem_of_concat sent chunk).
  - intros Hsome. unfold ExpoPush.sendBatchExpoPushNotifications.
    destruct (List.filter isExpoPushToken tokens); [done | eauto].
  - intros results. unfold Fcm.sendBatchFCMNotifications.
    destruct initializeFirebase; [| discriminate].
    destruct (Fcm.send_batches sendMulticast notification data (slices 500 tokens) [])
      as [out |] eqn:E; [| discriminate].
    intros [= <-].
    rewrite (fcm_batches_total sendMulticast notification data Hfcm _ _ _ E).
    rewrite slices_concat by lia. cbn. lia.
  - intros p bucket r. apply fcm_step_marks_nothing.
Qed.

Lemma batch_counts_and_deactivation_witness :
  (forall messages : list ExpoPush.Message, concat (slices 100 messages) = messages)
  /\ exists c,
       ExpoPush.sendBatchExpoPushNotifications Scenarios.bracketed (slices 100)
         Scenarios.expo_service "2024-01-01T12:00:00.000Z" Scenarios.mixed_tokens
         Scenarios.party_notification Scenarios.live_data
       = ExpoPush.BatchSent c.
Proof.
  assert (forall messages : list ExpoPush.Message,
            concat (slices 100 messages) = messages) as H
    by (intros messages; apply slices_concat; lia).
  split; [exact H |].
  refine (proj1 (proj2 (batch_counts_and_deactivation
            Scenarios.bracketed (slices 100) Scenarios.expo_service (Ok tt)
            Scenarios.fcm_service "2024-01-01T12:00:00.000Z" Scenarios.mixed_tokens
            Scenarios.party_notification Scenarios.live_data H _ _)) _).
  - intros chunk received [= <-]. apply length_fmap.
  - intros batch response [= <-]. cbn. lia.
  - vm_compute; discriminate.
Defined.

(** Three tokens, the second uninstalled: two successes, one failure, and
    the uninstalled device alone is marked. *)
Example mixed_batch_marks_the_unregistered :
  let c := ExpoPush.counts
             (ExpoPush.sendBatchExpoPushNotifications Scenarios.bracketed
                (slices 100) Scenarios.expo_service "2024-01-01T12:00:00.000Z"
                Scenarios.mixed_tokens Scenarios.party_notification
                Scenarios.live_data) in
  ExpoPush.successCount <$> c = Some 2
  /\ ExpoPush.failureCount <$> c = Some 1
  /\ ExpoPush.tokensToDeactivate <$> c = Some ["ExponentPushToken[gone]"].
Proof. conjuncts; evaluate. Qed.

(** C4, the counterexample: a batch of two tokens, one of which fails the
    format check; the adapter sends one message and returns one success and
    no failure, which add up to 1, not to the batch size 2. *)
Lemma malformed_token_is_not_counted :
  length Scenarios.with_malformed_token = 2%nat
  /\ ExpoPush.successCount
       <$> ExpoPush.counts
             (ExpoPush.sendBatchExpoPushNotifications Scenarios.bracketed
                (slices 100) Scenarios.expo_service "2024-01-01T12:00:00.000Z"
                Scenarios.with_malformed_token Scenarios.party_notification
                Scenarios.live_data) = Some 1
  /\ ExpoPush.failureCount
       <$> ExpoPush.counts
             (ExpoPush.sendBatchExpoPushNotifications Scenarios.bracketed
                (slices 100) Scenarios.expo_service "2024-01-01T12:00:00.000Z"
                Scenarios.with_malformed_token Scenarios.party_notification
                Scenarios.live_data) = Some 0.
Proof. conjuncts; evaluate. Qed.

(** * Further properties *)

Lemma selected_tokens_skip_v1 (rows : list PushTokenRow) :
  androidV1Tokens (selected_columns <$> rows) = [].
Proof.
  unfold androidV1Tokens.
  induction rows as [| r rows IH]; [done |].
  cbn [fmap list_fmap List.filter]. 
  replace (wants_v1 (selected_columns r)) with false by done.
  rewrite andb_false_r. exact IH.
Qed.

Lemma fetched_tokens_skip_v1 (b : Backend) (db : Store) (userId : string) :
  androidV1Tokens (getUserPushTokens b db userId) = [].
Proof.
  unfold getUserPushTokens. destruct (tokens_query_fails b); [done |].
  apply selected_tokens_skip_v1.
Qed.

Lemma calls_without_v1_bucket (tokens : list DeviceToken) (toks : list string) :
  androidV1Tokens tokens = [] -> FcmV1Call toks ∉ calls_of tokens.
Proof.
  intros Hv. unfold calls_of. rewrite Hv. cbn [when_nonempty].
  rewrite !elem_of_app.
  intros [H | [H | [H | H]]]; revert H; unfold when_nonempty;
    repeat match goal with |- context [match ?l with [] => _ | _ => _ end] =>
      destruct l end;
    rewrite ?elem_of_nil, ?list_elem_of_singleton; try done.
Qed.

(** X1.  A dispatch never reaches the FCM v1 adapter: the token query selects
    [token], [platform] and [device_id] only, so no token it returns carries
    [device_token] or [token_type], and the v1 bucket of the dispatch loop is
    always empty; Android tokens go to the legacy adapter. *)
Theorem dispatch_never_calls_fcm_v1
    (p : Providers) (b : Backend) (clk : Clock) (rl : gmap string RateLimit)
    (db : Store) (userId type : string) (data : Data) (toks : list string) :
  androidV1Tokens (getUserPushTokens b db userId) = []
  /\ FcmV1Call toks ∉ calls (sendNotification p b clk rl db userId type data).
Proof.
  split; [apply fetched_tokens_skip_v1 |].
  unfold sendNotification.
  destruct (Templates.validateNotificationData type data) as [v |];
    [| cbn; apply not_elem_of_nil].
  destruct (shouldSendNotification b db userId) as [canSend db1].
  destruct canSend; cbn [negb]; [| cbn; apply not_elem_of_nil].
  destruct (truthy (typeEnabled _ type)); cbn [negb]; [| cbn; apply not_elem_of_nil].
  destruct (isRateLimited rl userId type (now_rate_check clk)) as [limited rl1].
  destruct limited; [cbn; apply not_elem_of_nil |].
  pose proof (fetched_tokens_skip_v1 b db1 userId) as Hv.
  destruct (getUserPushTokens b db1 userId) as [| t ts]; [cbn; apply not_elem_of_nil |].
  rewrite batching_never_holds.
  destruct (Templates.buildNotification _ type data) as [n |];
    [| cbn; apply not_elem_of_nil].
  destruct (sendToDevices p b db1 (t :: ts) n) as [[results made] db2] eqn:Es.
  destruct (logNotificationHistory _ _ _) as [historyId db3].
  cbn [calls].
  unfold sendToDevices in Es. cbv zeta in Es. injection Es as _ <- _.
  by apply calls_without_v1_bucket.
Qed.

(** ** The four buckets *)

Lemma buckets_partition (tokens : list DeviceToken) :
  (expoTokens tokens ++ androidV1Tokens tokens ++ androidTokens tokens
     ++ iosTokens tokens)%list
  ≡ₚ List.filter Dispatch.recognised tokens.
Proof.
  unfold expoTokens, androidV1Tokens, androidTokens, iosTokens, Dispatch.recognised.
  induction tokens as [| t ts IH]; [done |].
  cbn [List.filter].
  set (E := List.filter is_expo ts) in *.
  set (V := List.filter (fun t => negb (is_expo t) && String.eqb (platform t) "android"
                                  && wants_v1 t) ts) in *.
  set (A := List.filter (fun t => negb (is_expo t) && String.eqb (platform t) "android"
                                  && negb (wants_v1 t)) ts) in *.
  set (I := List.filter (fun t => negb (is_expo t)
                                  && negb (String.eqb (platform t) "android")
                                  && String.eqb (platform t) "ios") ts) in *.
  destruct (is_expo t); cbn [negb andb orb].
  { cbn [app]. by rewrite IH. }
  destruct (String.eqb (platform t) "android"); cbn [negb andb orb].
  - destruct (wants_v1 t); cbn [negb].
    + rewrite <- IH. symmetry. apply Permutation_middle.
    + rewrite <- IH. cbn [app].
      rewrite (app_assoc E V (t :: A ++ I)), (app_assoc E V (A ++ I)).
      symmetry. apply Permutation_middle.
  - destruct (String.eqb (platform t) "ios").
    + rewrite <- IH.
      rewrite (app_assoc V A (t :: I)), (app_assoc E (V ++ A) (t :: I)),
        (app_assoc V A I), (app_assoc E (V ++ A) I).
      symmetry. apply Permutation_middle.
    + exact IH.
Qed.

Lemma failed_bucket (step : DeviceResults -> DeviceResults)
    (bucket : list DeviceToken) (r : DeviceResults) :
  step r = add_counts r 0 (lenZ bucket) [] ->
  Dispatch.same_but_failed r (when_nonempty bucket step r) (lenZ bucket).
Proof.
  intros Hs. destruct bucket as [| t ts].
  - split; cbn; try done. unfold lenZ. cbn. lia.
  - cbn [when_nonempty]. rewrite Hs. split; cbn; try done; [lia | apply app_nil_r].
Qed.

Lemma threw_inv {A} (r : result A) : Dispatch.threw r -> exists e, r = Throw e.
Proof. destruct r; [discriminate | eauto]. Qed.

(** X2.  The dispatch loop puts every token that has the Expo prefix or the
    platform [android] or [ios] in exactly one of its four buckets, and a
    token of any other platform in none: such a token is counted in [total]
    and submitted to no provider.  When every adapter call throws,
    [sendToDevices] still returns: nothing succeeded, each token of a bucket
    is counted failed, no token is deactivated and the store is unchanged. *)
Theorem buckets_and_failing_adapters
    (p : Providers) (b : Backend) (db : Store) (tokens : list DeviceToken)
    (n : Templates.Notification) :
  (expoTokens tokens ++ androidV1Tokens tokens ++ androidTokens tokens
     ++ iosTokens tokens)%list
  ≡ₚ List.filter Dispatch.recognised tokens
  /\ ((forall ts m d, Dispatch.threw (sendBatchExpoPushNotifications p ts m d)) ->
      (forall ts m d, Dispatch.threw (sendBatchFCMv1Notifications p ts m d)) ->
      (forall ts m d, Dispatch.threw (sendBatchFCMNotifications p ts m d)) ->
      (forall ts m d, Dispatch.threw (sendBatchAPNSNotifications p ts m d)) ->
      let out := sendToDevices p b db tokens n in
      total out.1.1 = lenZ tokens
      /\ successful out.1.1 = 0
      /\ failed out.1.1 = lenZ (List.filter Dispatch.recognised tokens)
      /\ invalidTokens out.1.1 = []
      /\ out.2 = db).
Proof.
  split; [apply buckets_partition |].
  intros He Hv Hf Ha. unfold sendToDevices. cbv zeta. cbn [fst snd].
  set (r0 := {| total := lenZ tokens; successful := 0; failed := 0;
                invalidTokens := [] |}).
  set (r1 := when_nonempty (expoTokens tokens) _ r0).
  set (r2 := when_nonempty (androidV1Tokens tokens) _ r1).
  set (r3 := when_nonempty (androidTokens tokens) _ r2).
  set (r4 := when_nonempty (iosTokens tokens) _ r3).
  assert (H1 : Dispatch.same_but_failed r0 r1 (lenZ (expoTokens tokens))).
  { apply failed_bucket. unfold expo_step.
    by destruct (threw_inv _ (He (token <$> expoTokens tokens) n
                                 (Templates.n_data n))) as [e ->]. }
  assert (H2 : Dispatch.same_but_failed r1 r2 (lenZ (androidV1Tokens tokens))).
  { apply failed_bucket. unfold v1_step.
    by destruct (threw_inv _ (Hv (v1_address <$> androidV1Tokens tokens) n
                                 (Templates.n_data n))) as [e ->]. }
  assert (H3 : Dispatch.same_but_failed r2 r3 (lenZ (androidTokens tokens))).
  { apply failed_bucket. unfold fcm_step.
    by destruct (threw_inv _ (Hf (token <$> androidTokens tokens) n
                                 (Templates.n_data n))) as [e ->]. }
  assert (H4 : Dispatch.same_but_failed r3 r4 (lenZ (iosTokens tokens))).
  { apply failed_bucket. unfold apns_step.
    by destruct (threw_inv _ (Ha (token <$> iosTokens tokens) n
                                 (Templates.n_data n))) as [e ->]. }
  rewrite (Dispatch.sbf_invalid _ _ _ H4), (Dispatch.sbf_invalid _ _ _ H3), (Dispatch.sbf_invalid _ _ _ H2),
    (Dispatch.sbf_invalid _ _ _ H1).
  rewrite (Dispatch.sbf_total _ _ _ H4), (Dispatch.sbf_total _ _ _ H3), (Dispatch.sbf_total _ _ _ H2),
    (Dispatch.sbf_total _ _ _ H1).
  rewrite (Dispatch.sbf_successful _ _ _ H4), (Dispatch.sbf_successful _ _ _ H3),
    (Dispatch.sbf_successful _ _ _ H2), (Dispatch.sbf_successful _ _ _ H1).
  rewrite (Dispatch.sbf_failed _ _ _ H4), (Dispatch.sbf_failed _ _ _ H3), (Dispatch.sbf_failed _ _ _ H2),
    (Dispatch.sbf_failed _ _ _ H1).
  cbn [deactivate_all foldl total successful failed invalidTokens r0].
  split; [done |]. split; [done |]. split; [| done].
  unfold lenZ. rewrite <- (Permutation_length (buckets_partition tokens)).
  rewrite !length_app. lia.
Qed.

Lemma buckets_and_failing_adapters_witness :
  let out := sendToDevices Scenarios.failing_providers Scenarios.healthy
               Scenarios.fresh_store
               (getUserPushTokens Scenarios.healthy Scenarios.fresh_store "alice")
               Scenarios.party_notification in
  successful out.1.1 = 0 /\ failed out.1.1 = 1 /\ out.2 = Scenarios.fresh_store.
Proof.
  pose proof (proj2 (buckets_and_failing_adapters Scenarios.failing_providers
                       Scenarios.healthy Scenarios.fresh_store
                       (getUserPushTokens Scenarios.healthy Scenarios.fresh_store
                          "alice")
                       Scenarios.party_notification)) as H.
  destruct H as (_ & Hs & Hf & _ & Hd); try (intros; reflexivity).
  split; [exact Hs |]. split; [exact Hf | exact Hd].
Defined.

(** ** Deactivation *)

Lemma deactivate_row_token (tok : string) (r : PushTokenRow) :
  pt_token (deactivate_row tok r) = pt_token r
  /\ pt_user_id (deactivate_row tok r) = pt_user_id r
  /\ pt_platform (deactivate_row tok r) = pt_platform r
  /\ pt_device_id (deactivate_row tok r) = pt_device_id r.
Proof. unfold deactivate_row. by destruct (String.eqb (pt_token r) tok). Qed.

Lemma deactivate_row_active (tok : string) (r : PushTokenRow) :
  pt_is_active (deactivate_row tok r)
  = pt_is_active r && negb (String.eqb (pt_token r) tok).
Proof.
  unfold deactivate_row. destruct (String.eqb (pt_token r) tok); cbn;
    [by rewrite andb_false_r | by rewrite andb_true_r].
Qed.

Lemma deactivate_row_other (tok : string) (r : PushTokenRow) :
  String.eqb (pt_token r) tok = false -> deactivate_row tok r = r.
Proof. unfold deactivate_row. by intros ->. Qed.

Lemma one_deactivation (tok userId : string) (rows : list PushTokenRow) :
  selected_columns <$>
    List.filter (fun r => String.eqb (pt_user_id r) userId && pt_is_active r)
      (deactivate_row tok <$> rows)
  = List.filter (fun d => negb (String.eqb (token d) tok))
      (selected_columns <$>
         List.filter (fun r => String.eqb (pt_user_id r) userId && pt_is_active r)
           rows).
Proof.
  induction rows as [| r rows IH]; [done |].
  rewrite fmap_cons. cbn [List.filter].
  destruct (deactivate_row_token tok r) as (_ & Hu & _ & _).
  rewrite Hu, deactivate_row_active.
  destruct (String.eqb (pt_user_id r) userId); cbn [andb]; [| exact IH].
  destruct (pt_is_active r); cbn [andb]; [| exact IH].
  rewrite fmap_cons. cbn [List.filter].
  change (token (selected_columns r)) with (pt_token r).
  destruct (String.eqb (pt_token r) tok) eqn:Et; cbn [negb]; [exact IH |].
  rewrite fmap_cons, IH. by rewrite (deactivate_row_other _ _ Et).
Qed.

Lemma filter_out_more (tok : string) (rest : list (option string))
    (ds : list DeviceToken) :
  List.filter (fun d => negb (bool_decide (Some (token d) ∈ rest)))
    (List.filter (fun d => negb (String.eqb (token d) tok)) ds)
  = List.filter (fun d => negb (bool_decide (Some (token d) ∈ Some tok :: rest))) ds.
Proof.
  induction ds as [| d ds IH]; [done |].
  cbn [List.filter].
  destruct (String.eqb (token d) tok) eqn:Et; cbn [negb].
  - apply String.eqb_eq in Et. rewrite IH.
    rewrite (bool_decide_true (Some (token d) ∈ Some tok :: rest)); [done |].
    rewrite Et. apply list_elem_of_here.
  - apply String.eqb_neq in Et. cbn [List.filter]. rewrite IH.
    replace (bool_decide (Some (token d) ∈ Some tok :: rest))
      with (bool_decide (Some (token d) ∈ rest)); [done |].
    apply bool_decide_ext. rewrite elem_of_cons. naive_solver.
Qed.

Lemma filter_out_none (rest : list (option string)) (ds : list DeviceToken) :
  List.filter (fun d => negb (bool_decide (Some (token d) ∈ None :: rest))) ds
  = List.filter (fun d => negb (bool_decide (Some (token d) ∈ rest))) ds.
Proof.
  induction ds as [| d ds IH]; [done |].
  cbn [List.filter]. rewrite IH.
  replace (bool_decide (Some (token d) ∈ None :: rest))
    with (bool_decide (Some (token d) ∈ rest)); [done |].
  apply bool_decide_ext. rewrite elem_of_cons. naive_solver.
Qed.

(** The rows a user's token query selects, after the deactivations. *)
Lemma selected_after_deactivations (b : Backend) (userId : string)
    (invalid : list (option string)) :
  deactivate_fails b = false ->
  forall db,
    selected_columns <$>
      List.filter (fun r => String.eqb (pt_user_id r) userId && pt_is_active r)
        (push_tokens (deactivate_all b db invalid))
    = List.filter (fun d => negb (bool_decide (Some (token d) ∈ invalid)))
        (selected_columns <$>
           List.filter (fun r => String.eqb (pt_user_id r) userId && pt_is_active r)
             (push_tokens db)).
Proof.
  intros Hd. unfold deactivate_all.
  induction invalid as [| tok rest IH]; intros db.
  - cbn [foldl]. induction (selected_columns <$> _) as [| d ds IHd]; [done |].
    cbn [List.filter]. rewrite bool_decide_false by apply not_elem_of_nil.
    cbn [negb]. by rewrite <- IHd.
  - cbn [foldl]. rewrite IH. unfold deactivatePushToken. rewrite Hd.
    destruct tok as [t |]; cbn [snd push_tokens].
    + by rewrite one_deactivation, filter_out_more.
    + by rewrite filter_out_none.
Qed.

(** X3.  When the store accepts the updates, the tokens [sendToDevices]
    collected as invalid are retired: the token list any user gets from the
    store afterwards is the list they got before without the collected
    tokens, so a token reported invalid is never used again and every other
    token still is. *)
Theorem collected_tokens_are_retired
    (p : Providers) (b : Backend) (db : Store) (tokens : list DeviceToken)
    (n : Templates.Notification) (userId : string) :
  deactivate_fails b = false ->
  let out := sendToDevices p b db tokens n in
  getUserPushTokens b out.2 userId
  = List.filter (fun d => negb (bool_decide (Some (token d) ∈ invalidTokens out.1.1)))
      (getUserPushTokens b db userId).
Proof.
  intros Hd. unfold sendToDevices. cbv zeta. cbn [fst snd].
  unfold getUserPushTokens. destruct (tokens_query_fails b); [done |].
  by apply selected_after_deactivations.
Qed.

Lemma collected_tokens_are_retired_witness :
  deactivate_fails Scenarios.healthy = false
  /\ getUserPushTokens Scenarios.healthy
       (sendToDevices Cases.expo_through_sdk Scenarios.healthy Cases.two_phones
          (getUserPushTokens Scenarios.healthy Cases.two_phones "alice")
          Scenarios.party_notification).2 "alice"
     = List.filter
         (fun d => negb (bool_decide
            (Some (token d)
               ∈ invalidTokens
                   (sendToDevices Cases.expo_through_sdk Scenarios.healthy
                      Cases.two_phones
                      (getUserPushTokens Scenarios.healthy Cases.two_phones "alice")
                      Scenarios.party_notification).1.1)))
         (getUserPushTokens Scenarios.healthy Cases.two_phones "alice").
Proof.
  split; [reflexivity |].
  apply (collected_tokens_are_retired Cases.expo_through_sdk Scenarios.healthy
           Cases.two_phones
           (getUserPushTokens Scenarios.healthy Cases.two_phones "alice")
           Scenarios.party_notification "alice").
  reflexivity.
Defined.

(** The uninstalled device is reported once and not asked again. *)
Example uninstalled_device_is_dropped :
  let out := sendToDevices Cases.expo_through_sdk Scenarios.healthy Cases.two_phones
               (getUserPushTokens Scenarios.healthy Cases.two_phones "alice")
               Scenarios.party_notification in
  invalidTokens out.1.1 = [Some "ExponentPushToken[gone]"]
  /\ token <$> getUserPushTokens Scenarios.healthy out.2 "alice"
     = ["ExponentPushToken[alice-phone]"].
Proof. conjuncts; evaluate. Qed.

(** ** Quiet hours *)



(** ** The legacy FCM adapter inside the dispatch loop *)

Lemma send_batches_stops (sendMulticast :
      Templates.Notification -> Data -> list string -> result Fcm.BatchResponse)
    (n : Templates.Notification) (d : Data) (batch : list string) (message : string)
    (batches : list (list string)) :
  batch ∈ batches ->
  sendMulticast n d batch = Throw message ->
  forall results,
    exists e, Fcm.send_batches sendMulticast n d batches results = Throw e.
Proof.
  intros Hin Ht. induction batches as [| b0 rest IH]; intros results.
  - by apply elem_of_nil in Hin.
  - cbn [Fcm.send_batches].
    destruct (sendMulticast n d b0) as [response | e] eqn:Eb; [| eauto].
    apply elem_of_cons in Hin as [-> | Hin]; [congruence |].
    by apply IH.
Qed.

(** X5.  The legacy FCM adapter gives up at the first chunk of 500 tokens
    whose send throws, and reports the whole batch as not sent; the dispatch
    loop then counts every Android token of the bucket as failed and none as
    successful, the tokens of the chunks delivered before the failure
    included. *)
Theorem one_failed_chunk_fails_the_whole_bucket
    (initializeFirebase : result unit)
    (sendMulticast :
      Templates.Notification -> Data -> list string -> result Fcm.BatchResponse)
    (p : Providers) (bucket : list DeviceToken) (n : Templates.Notification)
    (r : DeviceResults) (batch : list string) (message : string) :
  (forall ts m d,
      sendBatchFCMNotifications p ts m d
      = Ok (Fcm.sendBatchFCMNotifications initializeFirebase sendMulticast ts m d)) ->
  batch ∈ slices 500 (token <$> bucket) ->
  sendMulticast n (Templates.n_data n) batch = Throw message ->
  (exists e,
      Fcm.sendBatchFCMNotifications initializeFirebase sendMulticast
        (token <$> bucket) n (Templates.n_data n) = Fcm.BatchFailed e)
  /\ successful (fcm_step p bucket n r) = successful r
  /\ failed (fcm_step p bucket n r) = failed r + lenZ bucket
  /\ invalidTokens (fcm_step p bucket n r) = invalidTokens r.
Proof.
  intros Hp Hin Ht.
  assert (Hf : exists e,
             Fcm.sendBatchFCMNotifications initializeFirebase sendMulticast
               (token <$> bucket) n (Templates.n_data n) = Fcm.BatchFailed e).
  { unfold Fcm.sendBatchFCMNotifications.
    destruct initializeFirebase as [[] | e]; [| eauto].
    destruct (send_batches_stops sendMulticast n (Templates.n_data n) batch message
                _ Hin Ht []) as [e ->]. eauto. }
  split; [exact Hf |].
  destruct Hf as [e He]. unfold fcm_step. rewrite Hp, He. cbn.
  split; [lia |]. split; [done |]. apply app_nil_r.
Qed.

Lemma one_failed_chunk_fails_the_whole_bucket_witness :
  successful (fcm_step Cases.through_legacy_fcm Cases.android_501
                Scenarios.party_notification
                {| total := 501; successful := 0; failed := 0; invalidTokens := [] |})
  = 0
  /\ failed (fcm_step Cases.through_legacy_fcm Cases.android_501
               Scenarios.party_notification
               {| total := 501; successful := 0; failed := 0; invalidTokens := [] |})
     = 0 + lenZ Cases.android_501.
Proof.
  pose proof (one_failed_chunk_fails_the_whole_bucket (Ok tt)
                Cases.fcm_full_chunks_only Cases.through_legacy_fcm
                Cases.android_501 Scenarios.party_notification
                {| total := 501; successful := 0; failed := 0; invalidTokens := [] |}
                ["fcm-token-501"] "messaging/quota-exceeded") as H.
  destruct H as (_ & Hs & Hf & _).
  - intros; reflexivity.
  - apply (list_elem_of_lookup_2 _ 1%nat). vm_compute. reflexivity.
  - reflexivity.
  - split; [exact Hs | exact Hf].
Defined.

(** 501 Android tokens: the first chunk of 500 is delivered, the second
    fails, and the dispatch reports 0 successes and 501 failures. *)
Example delivered_chunk_is_counted_failed :
  (Fcm.br_successCount <$>
     returned (Cases.fcm_full_chunks_only Scenarios.party_notification
                 Scenarios.live_data (take 500 (token <$> Cases.android_501))))
  = Some 500
  /\ (let out := sendToDevices Cases.through_legacy_fcm Scenarios.healthy
                   Scenarios.fresh_store Cases.android_501
                   Scenarios.party_notification in
      successful out.1.1 = 0 /\ failed out.1.1 = 501).
Proof. cbv zeta. conjuncts; evaluate. Qed.

(** ** Round trips through the key-value wrapper *)

Lemma written_slot {P} (kv : Redis.Kv P) (now : Z) (key : string) (data : P)
    (ttl : Z) :
  Redis.reachable kv = true -> 0 < ttl ->
  Redis.setWithAutoExpiry kv now key data ttl
  = (true,
     {| Redis.reachable := true;
        Redis.slots :=
          <[key := {| Redis.content :=
                        {| Redis.body := data;
                           Redis.cached_at := Some now;
                           Redis.expires_at := Some (now + ttl * 1000) |};
                      Redis.deadline := now + ttl * 1000 |}]> (Redis.slots kv) |}).
Proof.
  intros Hr Ht. unfold Redis.setWithAutoExpiry, Redis.setCachedData.
  rewrite Hr. by rewrite (proj2 (Z.ltb_lt 0 ttl) Ht).
Qed.

Lemma getWithAge_slot {P} (kv : Redis.Kv P) (now' : Z) (key : string)
    (data : P) (at_ e deadline : Z) :
  Redis.reachable kv = true ->
  Redis.slots kv !! key
  = Some {| Redis.content := {| Redis.body := data; Redis.cached_at := Some at_;
                                Redis.expires_at := Some e |};
            Redis.deadline := deadline |} ->
  now' < deadline ->
  Redis.getWithAge kv now' key
  = Some {| Redis.aged := {| Redis.body := data; Redis.cached_at := Some at_;
                             Redis.expires_at := Some e |};
            Redis.cache_age := (now' - at_) / 1000;
            Redis.cache_ttl := Z.max 0 ((e - now') / 1000);
            Redis.is_expired := Z.leb (Z.max 0 ((e - now') / 1000)) 0 |}.
Proof.
  intros Hr Hs Hd. unfold Redis.getWithAge, Redis.getCachedData, Redis.live.
  rewrite Hr, Hs. cbn. by rewrite (proj2 (Z.ltb_lt _ _) Hd).
Qed.

Lemma getWithAge_same_slot {P} (kv kv' : Redis.Kv P) (now : Z) (key : string) :
  Redis.reachable kv' = Redis.reachable kv ->
  Redis.slots kv' !! key = Redis.slots kv !! key ->
  Redis.getWithAge kv' now key = Redis.getWithAge kv now key.
Proof.
  intros Hr Hs. unfold Redis.getWithAge, Redis.getCachedData, Redis.live.
  by rewrite Hr, Hs.
Qed.

Lemma whole_seconds_left (d : Z) :
  0 < d -> Z.leb (Z.max 0 (d / 1000)) 0 = bool_decide (d < 1000).
Proof.
  intros Hd.
  destruct (decide (d < 1000)) as [H | H].
  - rewrite bool_decide_true by done. rewrite Z.div_small by lia. done.
  - rewrite bool_decide_false by done.
    assert (1 <= d / 1000) by (apply Z.div_le_lower_bound; lia).
    apply Z.leb_gt. lia.
Qed.

(** X6.  What [setWithAutoExpiry] writes, [getWithAge] reads back for the
    whole time to live: the data as given, its age in whole seconds and the
    whole seconds left.  During the last second the entry is still returned
    but flagged [is_expired] (zero whole seconds are left), and from the
    deadline on the read returns [null]. *)
Theorem stored_entry_reads_back_until_its_last_second {P}
    (kv : Redis.Kv P) (now now' : Z) (key : string) (data : P) (ttl : Z) :
  Redis.reachable kv = true ->
  0 < ttl ->
  (Redis.setWithAutoExpiry kv now key data ttl).1 = true
  /\ (now' < now + ttl * 1000 ->
      exists e,
        Redis.getWithAge (Redis.setWithAutoExpiry kv now key data ttl).2 now' key
        = Some e
        /\ Redis.body (Redis.aged e) = data
        /\ Redis.cache_age e = (now' - now) / 1000
        /\ Redis.cache_ttl e = (now + ttl * 1000 - now') / 1000
        /\ Redis.is_expired e = bool_decide (now + ttl * 1000 - now' < 1000))
  /\ (now + ttl * 1000 <= now' ->
      Redis.getWithAge (Redis.setWithAutoExpiry kv now key data ttl).2 now' key
      = None).
Proof.
  intros Hr Ht. rewrite (written_slot kv now key data ttl Hr Ht). cbn [fst snd].
  split; [done |]. split.
  - intros Hd. eexists. split.
    { eapply getWithAge_slot; [done | apply lookup_insert_eq | exact Hd]. }
    cbn. split; [done |]. split; [done |].
    assert (0 <= (now + ttl * 1000 - now') / 1000) by (apply Z.div_pos; lia).
    split; [lia |]. apply whole_seconds_left. lia.
  - intros Hd. unfold Redis.getWithAge, Redis.getCachedData, Redis.live.
    cbn. rewrite lookup_insert_eq. cbn.
    by rewrite (proj2 (Z.ltb_ge _ _) Hd).
Qed.

Lemma stored_entry_reads_back_until_its_last_second_witness :
  exists e,
    Redis.getWithAge
      (Redis.setWithAutoExpiry (Scenarios.empty_cache (P := string)) 0 "k" "v" 60).2
      59500 "k" = Some e
    /\ Redis.body (Redis.aged e) = "v"
    /\ Redis.cache_age e = (59500 - 0) / 1000
    /\ Redis.cache_ttl e = (0 + 60 * 1000 - 59500) / 1000
    /\ Redis.is_expired e = bool_decide (0 + 60 * 1000 - 59500 < 1000).
Proof.
  apply (stored_entry_reads_back_until_its_last_second
           (Scenarios.empty_cache (P := string)) 0 59500 "k" "v" 60);
    [reflexivity | lia | lia].
Defined.

(** ** The participants cache as a read-through cache *)

Lemma page_key_is_no_metadata_key (eventId : string) (page limit : Z) :
  ParticipantsCache.PREFIX +:+ eventId +:+ ":metadata"
  <> ParticipantsCache.cacheKey eventId page limit.
Proof.
  unfold ParticipantsCache.cacheKey. intros H.
  do 2 apply append_cancel_l in H. discriminate.
Qed.

(** X7.  A page that [getEventParticipants] fetched from the database is
    written to the cache, and every read of the same page during the next 30
    minutes less one second is answered from the cache with that page,
    without asking the database, which may be failing by then; the cache is
    left as it is. *)
Theorem fetched_page_is_then_served_from_cache
    (fetch fetch' : string -> Z -> Z -> result ParticipantsCache.PageResult)
    (kv : Redis.Kv ParticipantsCache.Stored) (now now' : Z)
    (eventId : string) (page limit : Z) (forceRefresh : bool)
    (res : ParticipantsCache.PageResult) :
  Redis.reachable kv = true ->
  (ParticipantsCache.getEventParticipants fetch kv now eventId page limit
     forceRefresh).1 = Ok (ParticipantsCache.FromDatabase res) ->
  now' + 1000 <= now + ParticipantsCache.TTL * 1000 ->
  let kv1 := (ParticipantsCache.getEventParticipants fetch kv now eventId page limit
                forceRefresh).2 in
  exists entry,
    ParticipantsCache.getEventParticipants fetch' kv1 now' eventId page limit false
    = (Ok (ParticipantsCache.FromCache entry), kv1)
    /\ Redis.body (Redis.aged entry) = ParticipantsCache.PageEntry res
    /\ Redis.is_expired entry = false.
Proof.
  intros Hr. unfold ParticipantsCache.getEventParticipants at 1 2.
  destruct (String.eqb eventId "" || Z.ltb page 1 || Z.ltb limit 1 || Z.ltb 100 limit)
    eqn:Ev; [discriminate |].
  destruct (if forceRefresh then None else _) as [hit |]; [discriminate |].
  destruct (fetch eventId page limit) as [res0 | e]; cbn [fst snd].
  2: { destruct (Redis.getCachedData kv now _); discriminate. }
  intros [= ->] Hn.
  unfold ParticipantsCache.updateParticipantMetadataCache.
  rewrite (written_slot kv now _ (ParticipantsCache.PageEntry res)
             ParticipantsCache.TTL Hr) by done.
  cbn [snd].
  rewrite written_slot by done. cbn [snd].
  set (kv1 := {| Redis.reachable := true; Redis.slots := _ |}).
  assert (Hg : Redis.getWithAge kv1 now' (ParticipantsCache.cacheKey eventId page limit)
               = Some {| Redis.aged :=
                           {| Redis.body := ParticipantsCache.PageEntry res;
                              Redis.cached_at := Some now;
                              Redis.expires_at :=
                                Some (now + ParticipantsCache.TTL * 1000) |};
                         Redis.cache_age := (now' - now) / 1000;
                         Redis.cache_ttl :=
                           Z.max 0 ((now + ParticipantsCache.TTL * 1000 - now') / 1000);
                         Redis.is_expired :=
                           Z.leb (Z.max 0 ((now + ParticipantsCache.TTL * 1000 - now')
                                           / 1000)) 0 |}).
  { eapply getWithAge_slot; [done | | ].
    - unfold kv1. cbn [Redis.slots].
      rewrite lookup_insert_ne by apply page_key_is_no_metadata_key.
      apply lookup_insert_eq.
    - lia. }
  assert (Hx : Z.leb (Z.max 0 ((now + ParticipantsCache.TTL * 1000 - now') / 1000)) 0
               = false).
  { rewrite whole_seconds_left by lia. apply bool_decide_false. lia. }
  eexists. unfold ParticipantsCache.getEventParticipants. rewrite Ev, Hg.
  cbn [Redis.is_expired]. rewrite Hx. cbn [negb]. done.
Qed.

Lemma fetched_page_is_then_served_from_cache_witness :
  exists entry,
    ParticipantsCache.getEventParticipants Scenarios.failing_fetch
      (ParticipantsCache.getEventParticipants Cases.working_fetch
         Scenarios.empty_cache 0 "event-3" 1 20 false).2
      1000000 "event-3" 1 20 false
    = (Ok (ParticipantsCache.FromCache entry),
       (ParticipantsCache.getEventParticipants Cases.working_fetch
          Scenarios.empty_cache 0 "event-3" 1 20 false).2)
    /\ Redis.body (Redis.aged entry)
       = ParticipantsCache.PageEntry Scenarios.old_participants
    /\ Redis.is_expired entry = false.
Proof.
  apply (fetched_page_is_then_served_from_cache Cases.working_fetch
           Scenarios.failing_fetch Scenarios.empty_cache 0 1000000 "event-3" 1 20
           false Scenarios.old_participants);
    [reflexivity | vm_compute; reflexivity | vm_compute; discriminate].
Defined.

(** ** Keys of the signed URL cache *)







(** ** Moderation *)

Lemma fetch_query_shape (env : PhotoUrlCache.Backend) (eventId : string)
    (page limit : Z) (userId : option string) (sortBy : string)
    (event : PhotoUrlCache.Event) (q : PhotoUrlCache.Query) :
  q ∈ PhotoUrlCache.queries
        (PhotoUrlCache.fetchEventPhotos env eventId page limit userId sortBy
           (Some event)) ->
  PhotoUrlCache.q_event_id q = eventId
  /\ PhotoUrlCache.q_photo_type q = "event"
  /\ PhotoUrlCache.q_moderation q
     = if PhotoUrlCache.require_moderation event then
         if match PhotoUrlCache.validUserId userId with
            | Some u => PhotoUrlCache.organizes event u
            | None => false
            end
         then PhotoUrlCache.StatusIn ["approved"; "pending"; "pending_approval"]
         else PhotoUrlCache.StatusEq "approved"
       else PhotoUrlCache.StatusNeq "deleted".
Proof.
  unfold PhotoUrlCache.fetchEventPhotos.
  destruct (String.eqb sortBy "most_liked" && _); [by intros ?%elem_of_nil |].
  destruct (PhotoUrlCache.run_query env _) as [answer | e];
    cbn [PhotoUrlCache.queries];
    intros ->%list_elem_of_singleton;
    by destruct (String.eqb sortBy "most_liked").
Qed.

Lemma query_organizer_has_organizer_key (event : PhotoUrlCache.Event)
    (userId : option string) :
  match PhotoUrlCache.validUserId userId with
  | Some u => PhotoUrlCache.organizes event u
  | None => false
  end = true ->
  PhotoUrlCache.userRole event userId = "organizer".
Proof.
  unfold PhotoUrlCache.validUserId, PhotoUrlCache.userRole.
  destruct userId as [u |]; [| done].
  destruct (String.eqb u "") eqn:Eu; cbn [negb andb]; [done |].
  destruct (negb (PhotoUrlCache.blank u) && negb (String.eqb u "undefined"));
    [| done].
  by intros ->.
Qed.

(** X9.  Every query a read of the event photos sends to the photos table
    is restricted to the event and to event photos, and filtered by
    moderation status: on an event without moderation it excludes the
    deleted photos; on a moderated event it asks for approved photos only,
    unless the reader is an organizer, in which case the page is kept under
    the organizer's cache key.  A reader whose key is [anonymous] or
    [participant] never triggers a query that returns pending photos. *)
Theorem pending_photos_are_queried_for_organizers_only
    (env : PhotoUrlCache.Backend) (kv : Redis.Kv PhotoUrlCache.Stored) (now : Z)
    (eventId : string) (page limit : Z) (forceRefresh : bool) (expiresIn : Z)
    (userId : option string) (sortBy : string) (event : PhotoUrlCache.Event)
    (q : PhotoUrlCache.Query) :
  PhotoUrlCache.select_event env eventId = Ok event ->
  q ∈ PhotoUrlCache.photo_queries
        (PhotoUrlCache.getEventPhotoUrls env kv now eventId page limit forceRefresh
           expiresIn userId sortBy) ->
  PhotoUrlCache.q_event_id q = eventId
  /\ PhotoUrlCache.q_photo_type q = "event"
  /\ (PhotoUrlCache.require_moderation event = false ->
      PhotoUrlCache.q_moderation q = PhotoUrlCache.StatusNeq "deleted")
  /\ (PhotoUrlCache.require_moderation event = true ->
      PhotoUrlCache.userRole event userId <> "organizer" ->
      PhotoUrlCache.q_moderation q = PhotoUrlCache.StatusEq "approved")
  /\ (PhotoUrlCache.require_moderation event = true ->
      PhotoUrlCache.q_moderation q <> PhotoUrlCache.StatusEq "approved" ->
      PhotoUrlCache.userRole event userId = "organizer"
      /\ PhotoUrlCache.q_moderation q
         = PhotoUrlCache.StatusIn ["approved"; "pending"; "pending_approval"]).
Proof.
  intros Hev Hq.
  assert (Hf : q ∈ PhotoUrlCache.queries
                     (PhotoUrlCache.fetchEventPhotos env eventId page limit userId
                        (PhotoUrlCache.validatedSortBy sortBy) (Some event))).
  { revert Hq. unfold PhotoUrlCache.getEventPhotoUrls. rewrite Hev.
    destruct (if forceRefresh then None else _) as [hit |];
      [by intros ?%elem_of_nil |].
    destruct (PhotoUrlCache.fetched _) as [[found totalCount] |]; [| done].
    destruct found as [| ph phs]; [done |].
    destruct (List.filter _ _) as [| p0 ps]; [done |].
    by destruct (PhotoUrlCache.batchGenerateSignedUrls env kv now (p0 :: ps) _ _ _ _)
      as [[urlResult | failure] kv1]. }
  apply fetch_query_shape in Hf as (He & Ht & Hm).
  pose proof (query_organizer_has_organizer_key event userId) as Ho.
  split; [done |]. split; [done |]. rewrite Hm.
  destruct (PhotoUrlCache.require_moderation event).
  - destruct (match PhotoUrlCache.validUserId userId with
              | Some u => PhotoUrlCache.organizes event u
              | None => false
              end).
    + split; [done |]. split; [intros _ Hn; by destruct Hn; apply Ho |].
      intros _ _. split; [by apply Ho | done].
    + split; [done |]. split; [done |]. by intros _ [].
  - split; [done |]. split; [done |]. done.
Qed.

Lemma pending_photos_are_queried_for_organizers_only_witness :
  Cases.newest_page_query
    ∈ PhotoUrlCache.photo_queries
        (PhotoUrlCache.getEventPhotoUrls Scenarios.storage Scenarios.empty_cache 0
           "event-3" 1 50 false 3600 (Some "bob") "newest")
  /\ PhotoUrlCache.q_moderation Cases.newest_page_query
     = PhotoUrlCache.StatusEq "approved".
Proof.
  assert (Hq : Cases.newest_page_query
                 ∈ PhotoUrlCache.photo_queries
                     (PhotoUrlCache.getEventPhotoUrls Scenarios.storage
                        Scenarios.empty_cache 0 "event-3" 1 50 false 3600
                        (Some "bob") "newest"))
    by (vm_compute; apply list_elem_of_here).
  split; [exact Hq |].
  apply (pending_photos_are_queried_for_organizers_only Scenarios.storage
           Scenarios.empty_cache 0 "event-3" 1 50 false 3600 (Some "bob") "newest"
           Scenarios.moderated_event Cases.newest_page_query eq_refl Hq);
    [reflexivity | vm_compute; discriminate].
Defined.

(** ** Housekeeping of the rate-limit map *)






(** ** Bulk sends *)

Section BulkTally.

Context {S : Type}.
Variable settled : S -> string -> Data -> list string -> nat -> Outcome.
Variable after : S -> string -> Data -> list string -> S.

Lemma tallied_nil (results : Service.BulkResults) : Service.tallied results results [].
Proof. split; [by rewrite app_nil_r | unfold lenZ; cbn; lia..]. Qed.

Lemma tallied_app (a b c : Service.BulkResults) (ds1 ds2 : list Service.Detail) :
  Service.tallied a b ds1 -> Service.tallied b c ds2 -> Service.tallied a c (ds1 ++ ds2).
Proof.
  intros [Hd1 Ht1 Hs1] [Hd2 Ht2 Hs2]. split; unfold lenZ in *.
  - by rewrite Hd2, Hd1, <- app_assoc.
  - rewrite Ht2, Ht1, length_app. lia.
  - rewrite Hs2, Hs1, List.filter_app, length_app. lia.
Qed.

Lemma tally_one (results : Service.BulkResults) (d : Service.Detail) :
  Service.tallied results (Service.tally results d) [d].
Proof.
  unfold Service.tally. split; unfold lenZ; cbn [List.filter];
    destruct (success (Service.d_result d)); cbn; try done; lia.
Qed.

Lemma tally_all (ds : list Service.Detail) :
  forall results, Service.tallied results (foldl Service.tally results ds) ds.
Proof.
  induction ds as [| d ds IH]; intros results; [apply tallied_nil |].
  cbn [foldl]. apply (tallied_app _ _ _ [d] ds (tally_one results d)), IH.
Qed.

Lemma slices_tallied (type : string) (data : Data) (batches : list (list string)) :
  forall (results : Service.BulkResults) (s : S),
    exists ds,
      Service.tallied results
        (foldl (Service.send_slice settled after type data) (results, s) batches).1 ds
      /\ Service.d_userId <$> ds = concat batches.
Proof.
  induction batches as [| batch rest IH]; intros results s.
  - exists []. split; [apply tallied_nil | done].
  - cbn [foldl]. unfold Service.send_slice at 2. cbn [fst snd].
    set (batchResults := imap _ batch).
    destruct (IH (foldl Service.tally results batchResults)
                 (after s type data batch)) as (ds & Hrest & Hu).
    exists (batchResults ++ ds)%list. split.
    + exact (tallied_app _ _ _ _ _ (tally_all batchResults results) Hrest).
    + rewrite fmap_app, Hu. cbn [concat]. f_equal.
      unfold batchResults. rewrite fmap_imap.
      clear. generalize (settled s type data batch). intros f.
      revert f. induction batch as [| u us IHu]; intros f; [done |].
      cbn [imap]. unfold compose at 1. cbn. f_equal. apply IHu.
Qed.

End BulkTally.

(** X11.  [sendBulkNotification] accounts for every user exactly once,
    however the calls of a slice interleave: [details] holds one entry per
    user, in the order of [userIds]; [successful] counts the entries whose
    object says [success: true], [failed] the others, and the two add up to
    the number of users. *)
Theorem bulk_send_accounts_for_every_user {S : Type}
    (settled : S -> string -> Data -> list string -> nat -> Outcome)
    (after : S -> string -> Data -> list string -> S)
    (s : S) (userIds : list string) (type : string) (data : Data) :
  let results :=
    (Service.sendBulkNotification settled after s userIds type data).1 in
  Service.d_userId <$> Service.details results = userIds
  /\ Service.bulk_successful results + Service.bulk_failed results = lenZ userIds
  /\ Service.bulk_successful results
     = lenZ (List.filter (fun d => success (Service.d_result d))
               (Service.details results)).
Proof.
  cbv zeta. unfold Service.sendBulkNotification.
  destruct (slices_tallied settled after type data (slices 50 userIds)
              {| Service.bulk_successful := 0; Service.bulk_failed := 0;
                 Service.details := [] |} s) as (ds & [Hd Ht Hs] & Hu).
  rewrite slices_concat in Hu by lia.
  cbn [Service.details Service.bulk_successful Service.bulk_failed app] in *.
  rewrite Hd. split; [done |]. split.
  - rewrite Ht. unfold lenZ. by rewrite <- Hu, length_fmap.
  - rewrite Hs. lia.
Qed.


(** Three users, of whom only Alice has a token: one success, two
    failures, in the order of the request. *)
Example bulk_of_three :
  let results :=
    (Service.sendBulkNotification
       (Service.settled_in_turn Scenarios.delivering_providers Scenarios.healthy
          (fun _ => Scenarios.noon))
       (Service.after_in_turn Scenarios.delivering_providers Scenarios.healthy
          (fun _ => Scenarios.noon))
       (∅, Scenarios.fresh_store) ["bob"; "alice"; "carol"] "event_live"
       Scenarios.live_data).1 in
  Service.bulk_successful results = 1
  /\ Service.bulk_failed results = 2
  /\ (fun d => (Service.d_userId d, reason (Service.d_result d)))
       <$> Service.details results
     = [("bob", Some "no_tokens"); ("alice", None); ("carol", Some "no_tokens")].
Proof. cbv zeta. conjuncts; evaluate. Qed.

(** ** Request limits on the caches *)

Lemma increment_first (cs : Counters.CounterStore) (now : Z) (key : string)
    (ttl : Z) :
  Counters.c_reachable cs = true ->
  Counters.live_counter cs now key = None ->
  0 < ttl ->
  Counters.incrementCounter cs now key ttl
  = (1, {| Counters.c_reachable := true;
           Counters.counters :=
             <[key := {| Counters.value := 1;
                         Counters.expires := Some (now + ttl * 1000) |}]>
               (Counters.counters cs) |}).
Proof.
  intros Hr Hl Ht. unfold Counters.incrementCounter. rewrite Hr, Hl.
  change (Z.leb Counters.max_int64 0) with false. cbv zeta.
  change (Z.eqb (0 + 1) 1) with true. cbv iota.
  by rewrite (proj2 (Z.ltb_lt 0 ttl) Ht).
Qed.

Lemma increment_next (cs : Counters.CounterStore) (now : Z) (key : string)
    (ttl k D : Z) :
  Counters.c_reachable cs = true ->
  Counters.counters cs !! key
  = Some {| Counters.value := k; Counters.expires := Some D |} ->
  now < D -> 1 <= k -> k < Counters.max_int64 ->
  Counters.incrementCounter cs now key ttl
  = (k + 1, {| Counters.c_reachable := true;
               Counters.counters :=
                 <[key := {| Counters.value := k + 1;
                             Counters.expires := Some D |}]>
                   (Counters.counters cs) |}).
Proof.
  intros Hr Hc Hn Hk Hm. unfold Counters.incrementCounter, Counters.live_counter.
  rewrite Hr, Hc. cbn [Counters.expires Counters.value].
  rewrite (proj2 (Z.ltb_lt now D) Hn). cbv zeta. cbn [Counters.expires Counters.value].
  rewrite (proj2 (Z.leb_gt _ _) Hm).
  by rewrite (proj2 (Z.eqb_neq (k + 1) 1)) by lia.
Qed.

Lemma window_of_checks (identifier : string) (D : Z) (times : list Z) :
  forall (cs : Counters.CounterStore) (k : Z),
    Counters.c_reachable cs = true ->
    Counters.counters cs !! ("rate_limit:participants:" +:+ identifier)
    = Some {| Counters.value := k; Counters.expires := Some D |} ->
    1 <= k -> k + lenZ times < Counters.max_int64 ->
    Forall (fun t => t < D) times ->
    (Counters.checkMany cs times identifier).1
    = Counters.verdict <$> seqZ (k + 1) (lenZ times)
    /\ Counters.c_reachable (Counters.checkMany cs times identifier).2 = true
    /\ Counters.counters (Counters.checkMany cs times identifier).2
         !! ("rate_limit:participants:" +:+ identifier)
       = Some {| Counters.value := k + lenZ times; Counters.expires := Some D |}.
Proof.
  induction times as [| t rest IH]; intros cs k Hr Hc Hk Hm Hall.
  - cbn. unfold lenZ. cbn. rewrite Z.add_0_r. done.
  - apply Forall_cons in Hall as [Ht Hall].
    assert (Hl : lenZ (t :: rest) = 1 + lenZ rest) by (unfold lenZ; cbn [length]; lia).
    assert (H0 : 0 <= lenZ rest) by (unfold lenZ; lia).
    cbn [Counters.checkMany]. unfold Counters.checkRateLimit.
    rewrite (increment_next cs t _ 60 k D Hr Hc Ht Hk) by lia.
    set (cs1 := {| Counters.c_reachable := true; Counters.counters := _ |}).
    destruct (IH cs1 (k + 1)) as (H1 & H2 & H3);
      [done | apply lookup_insert_eq | lia | lia | done |].
    fold (Counters.verdict (k + 1)).
    assert (He : (if Z.ltb 100 (k + 1)
                  then (Throw "Rate limit exceeded", cs1)
                  else (Ok (100 - (k + 1)), cs1))
                 = (Counters.verdict (k + 1), cs1)).
    { unfold Counters.verdict. by destruct (Z.ltb 100 (k + 1)). }
    rewrite He.
    destruct (Counters.checkMany cs1 rest identifier) as [rs csN].
    cbn [fst snd] in *. rewrite H1, H2, H3. split; [| split; [done |]].
    + rewrite Hl, (seqZ_cons (k + 1)) by lia. rewrite fmap_cons.
      f_equal. f_equal. f_equal; lia.
    + rewrite Hl. do 2 f_equal. lia.
Qed.

(** X12.  The request limit of the participants cache is a fixed window of
    60 seconds opened by the client's first request: of the requests made
    before the window closes, the first 100 are let through, the [n]-th
    being told that [100 - n] remain, and every later one raises; the first
    request after the window is let through again with 99 remaining.  When
    the key-value store cannot be reached, the counter reads 0 and every
    request is let through with 100 remaining. *)
Theorem participants_requests_are_limited_per_window
    (cs : Counters.CounterStore) (first : Z) (rest : list Z) (identifier : string) :
  Counters.c_reachable cs = true ->
  Counters.live_counter cs first ("rate_limit:participants:" +:+ identifier) = None ->
  Forall (fun t => t < first + 60000) rest ->
  lenZ (first :: rest) < Counters.max_int64 ->
  (Counters.checkMany cs (first :: rest) identifier).1
  = Counters.verdict <$> seqZ 1 (lenZ (first :: rest))
  /\ (forall t,
        first + 60000 <= t ->
        (Counters.checkRateLimit (Counters.checkMany cs (first :: rest) identifier).2
           t identifier).1 = Ok 99)
  /\ (forall (down : Counters.CounterStore) t,
        Counters.c_reachable down = false ->
        Counters.checkRateLimit down t identifier = (Ok 100, down)).
Proof.
  intros Hr Hl Hall Hm.
  assert (Hlen : lenZ (first :: rest) = 1 + lenZ rest)
    by (unfold lenZ; cbn [length]; lia).
  assert (H0 : 0 <= lenZ rest) by (unfold lenZ; lia).
  assert (Hmain : exists csN,
             Counters.checkMany cs (first :: rest) identifier
             = (Counters.verdict <$> seqZ 1 (lenZ (first :: rest)), csN)
             /\ Counters.c_reachable csN = true
             /\ Counters.counters csN !! ("rate_limit:participants:" +:+ identifier)
                = Some {| Counters.value := 1 + lenZ rest;
                          Counters.expires := Some (first + 60 * 1000) |}).
  { cbn [Counters.checkMany]. unfold Counters.checkRateLimit.
    rewrite (increment_first cs first _ 60 Hr Hl) by lia.
    set (cs1 := {| Counters.c_reachable := true; Counters.counters := _ |}).
    destruct (window_of_checks identifier (first + 60 * 1000) rest cs1 1)
      as (H1 & H2 & H3); [done | apply lookup_insert_eq | lia | lia | |].
    { eapply Forall_impl; [exact Hall |]. cbn. intros; lia. }
    change (Z.ltb 100 1) with false. cbv iota.
    destruct (Counters.checkMany cs1 rest identifier) as [rs csN].
    cbn [fst snd] in *. exists csN. split; [| done].
    rewrite H1, Hlen, (seqZ_cons 1) by lia. rewrite fmap_cons.
    change (Counters.verdict 1) with (Ok (A := Z) (100 - 1)).
    f_equal. f_equal. f_equal. f_equal; lia. }
  destruct Hmain as (csN & -> & H2 & H3). cbn [fst snd].
  split; [done |]. split.
  - intros t Ht. unfold Counters.checkRateLimit.
    rewrite increment_first; [done | done | | lia].
    unfold Counters.live_counter. rewrite H3. cbn.
    by rewrite (proj2 (Z.ltb_ge _ _)) by lia.
  - intros down t Hd. unfold Counters.checkRateLimit, Counters.incrementCounter.
    by rewrite Hd.
Qed.

Lemma participants_requests_are_limited_per_window_witness :
  (Counters.checkMany Cases.no_counters [0; 1000; 2000] "203.0.113.7").1
  = Counters.verdict <$> seqZ 1 (lenZ [0; 1000; 2000]).
Proof.
  apply (participants_requests_are_limited_per_window Cases.no_counters 0
           [1000; 2000] "203.0.113.7");
    [reflexivity | reflexivity | repeat constructor; lia | vm_compute; reflexivity].
Defined.

(** 102 requests within a tenth of a second: the hundredth leaves nothing,
    the next two raise. *)
Example burst_of_102 :
  let answers := (Counters.checkMany Cases.no_counters (0 :: Cases.burst)
                    "203.0.113.7").1 in
  answers !! 99%nat = Some (Ok 0)
  /\ answers !! 100%nat = Some (Throw "Rate limit exceeded")
  /\ answers !! 101%nat = Some (Throw "Rate limit exceeded").
Proof. cbv zeta. conjuncts; evaluate. Qed.

(** ** Registering a push token *)

Lemma reassign_token (userId tok platform deviceId : string) (r : PushTokenRow) :
  pt_token (Registry.reassign userId tok platform deviceId r) = pt_token r.
Proof. unfold Registry.reassign. by destruct (String.eqb (pt_token r) tok). Qed.

Lemma reassign_tokens (userId tok platform deviceId : string)
    (rows : list PushTokenRow) :
  pt_token <$> (Registry.reassign userId tok platform deviceId <$> rows)
  = pt_token <$> rows.
Proof.
  induction rows as [| r rows IH]; [done |].
  rewrite !fmap_cons, IH. by rewrite reassign_token.
Qed.

Lemma matching_rows (tok : string) (rows : list PushTokenRow) :
  (0 < length (List.filter (fun r => String.eqb (pt_token r) tok) rows))%nat ->
  exists r, r ∈ rows /\ pt_token r = tok.
Proof.
  induction rows as [| r rows IH]; cbn [List.filter length]; [lia |].
  destruct (String.eqb (pt_token r) tok) eqn:Et.
  - intros _. exists r. split; [apply list_elem_of_here | by apply String.eqb_eq].
  - intros H. destruct (IH H) as (r' & Hin & Ht). exists r'.
    split; [by apply list_elem_of_further | done].
Qed.

Lemma no_matching_rows (tok : string) (rows : list PushTokenRow) :
  length (List.filter (fun r => String.eqb (pt_token r) tok) rows) = 0%nat ->
  tok ∉ pt_token <$> rows.
Proof.
  induction rows as [| r rows IH]; cbn [List.filter length].
  - intros _. apply not_elem_of_nil.
  - destruct (String.eqb (pt_token r) tok) eqn:Et; [done |].
    intros H. rewrite fmap_cons. apply not_elem_of_cons.
    split; [| by apply IH]. apply String.eqb_neq in Et. congruence.
Qed.

Lemma unique_matching_row (tok : string) (rows : list PushTokenRow) :
  NoDup (pt_token <$> rows) ->
  (length (List.filter (fun r => String.eqb (pt_token r) tok) rows) <= 1)%nat.
Proof.
  induction rows as [| r rows IH]; cbn [List.filter length]; [lia |].
  rewrite fmap_cons. intros [Hn Hd]%NoDup_cons.
  destruct (String.eqb (pt_token r) tok) eqn:Et; [| by apply IH].
  apply String.eqb_eq in Et. subst tok. cbn [length].
  destruct (List.filter _ rows) as [| r' rest] eqn:Ef; [cbn; lia |].
  exfalso. apply Hn.
  destruct (matching_rows (pt_token r) rows) as (r0 & Hin & Ht).
  { rewrite Ef. cbn. lia. }
  rewrite <- Ht. by apply list_elem_of_fmap_2.
Qed.

Lemma reassigned_rows_of_others (b : Backend) (userId tok platform deviceId other : string)
    (rows : list PushTokenRow) :
  other <> userId ->
  tok ∉ pt_token <$>
          List.filter (fun r => String.eqb (pt_user_id r) other && pt_is_active r)
            (Registry.reassign userId tok platform deviceId <$> rows).
Proof.
  intros Hne. induction rows as [| r rows IH]; [apply not_elem_of_nil |].
  rewrite fmap_cons. cbn [List.filter].
  destruct (String.eqb (pt_user_id (Registry.reassign userId tok platform deviceId r))
              other && _) eqn:Ec; [| exact IH].
  rewrite fmap_cons. apply not_elem_of_cons. split; [| exact IH].
  revert Ec. unfold Registry.reassign.
  destruct (String.eqb (pt_token r) tok) eqn:Et; cbn.
  - intros [Hu _]%andb_prop. apply String.eqb_eq in Hu. congruence.
  - intros _. apply String.eqb_neq in Et. congruence.
Qed.

Lemma listed_tokens (b : Backend) (db : Store) (userId : string) :
  tokens_query_fails b = false ->
  token <$> getUserPushTokens b db userId
  = pt_token <$>
      List.filter (fun r => String.eqb (pt_user_id r) userId && pt_is_active r)
        (push_tokens db).
Proof.
  intros Hq. unfold getUserPushTokens. rewrite Hq.
  by rewrite <- list_fmap_compose.
Qed.

Lemma selected_row (b : Backend) (db : Store) (userId : string) (r : PushTokenRow) :
  tokens_query_fails b = false ->
  r ∈ push_tokens db -> pt_user_id r = userId -> pt_is_active r = true ->
  selected_columns r ∈ getUserPushTokens b db userId.
Proof.
  intros Hq Hin Hu Ha. unfold getUserPushTokens. rewrite Hq.
  apply list_elem_of_fmap_2. apply list_elem_of_In, filter_In.
  split; [by apply list_elem_of_In |].
  rewrite Ha, andb_true_r. by apply String.eqb_eq.
Qed.

(** X13.  A registration the store accepts is a round trip: the token is in
    the list the user's next dispatch reads, with the platform and device
    it was registered with, and active again if it had been deactivated.
    When no two rows of the table hold the same token, none do afterwards:
    a token that was another user's is taken over, so that no other user's
    list holds it any more.  The other tables are left alone. *)
Theorem registered_token_reaches_its_user_only
    (f : Registry.Failures) (b : Backend) (db : Store)
    (userId tok platform deviceId : string) :
  Registry.token_update_fails f = false ->
  Registry.token_insert_fails f = false ->
  tokens_query_fails b = false ->
  let out := Registry.storePushToken f db userId tok platform deviceId in
  out.1 = true
  /\ {| token := tok; platform := platform; device_id := deviceId;
        device_token := None; token_type := None |}
       ∈ getUserPushTokens b out.2 userId
  /\ (Registry.token_select_fails f = false ->
      NoDup (pt_token <$> push_tokens db) ->
      NoDup (pt_token <$> push_tokens out.2)
      /\ forall other,
           other <> userId -> tok ∉ token <$> getUserPushTokens b out.2 other)
  /\ notification_preferences out.2 = notification_preferences db
  /\ notification_history out.2 = notification_history db.
Proof.
  intros Hu Hi Hq. cbv zeta. unfold Registry.storePushToken. rewrite Hu, Hi.
  set (matching := List.filter (fun r => String.eqb (pt_token r) tok) (push_tokens db)).
  destruct (if Registry.token_select_fails f then false
            else Nat.eqb (length matching) 1) eqn:Ex; cbn [fst snd].
  - (* the row is updated *)
    destruct (Registry.token_select_fails f); [done |].
    apply Nat.eqb_eq in Ex.
    destruct (matching_rows tok (push_tokens db)) as (r & Hin & Ht);
      [fold matching; lia |].
    split; [done |]. split; [| split; [| done]].
    + assert (Hr : selected_columns (Registry.reassign userId tok platform deviceId r)
                   = {| token := tok; platform := platform; device_id := deviceId;
                        device_token := None; token_type := None |}).
      { unfold Registry.reassign. rewrite (proj2 (String.eqb_eq _ _) Ht).
        unfold selected_columns. cbn. by rewrite Ht. }
      rewrite <- Hr. apply selected_row; [done | | |].
      * cbn. by apply list_elem_of_fmap_2.
      * unfold Registry.reassign. by rewrite (proj2 (String.eqb_eq _ _) Ht).
      * unfold Registry.reassign. by rewrite (proj2 (String.eqb_eq _ _) Ht).
    + intros _ Hnd. cbn [Registry.with_tokens push_tokens].
      split; [by rewrite reassign_tokens |].
      intros other Hne. rewrite listed_tokens by done.
      cbn [Registry.with_tokens push_tokens].
      by apply reassigned_rows_of_others.
  - (* a row is inserted *)
    split; [done |]. split; [| split; [| done]].
    + change {| token := tok; platform := platform; device_id := deviceId;
                device_token := None; token_type := None |}
        with (selected_columns (Registry.new_row userId tok platform deviceId)).
      apply selected_row; [done | | done | done].
      cbn. apply elem_of_app. right. apply list_elem_of_here.
    + intros Hs Hnd. rewrite Hs in Ex. apply Nat.eqb_neq in Ex.
      pose proof (unique_matching_row tok (push_tokens db) Hnd) as Hle.
      fold matching in Hle.
      assert (Hno : tok ∉ pt_token <$> push_tokens db)
        by (apply no_matching_rows; fold matching; lia).
      cbn [Registry.with_tokens push_tokens]. split.
      * rewrite fmap_app. apply NoDup_app. split; [done |]. split.
        -- intros x Hx Hn. cbn in Hn. apply list_elem_of_singleton in Hn.
           by subst x.
        -- cbn. apply NoDup_singleton.
      * intros other Hne. rewrite listed_tokens by done.
        cbn [Registry.with_tokens push_tokens].
        rewrite List.filter_app, fmap_app. cbn [List.filter Registry.new_row pt_user_id].
        rewrite (proj2 (String.eqb_neq userId other)) by congruence.
        cbn [andb fmap list_fmap app]. rewrite app_nil_r.
        intros Hin. apply Hno.
        apply list_elem_of_fmap in Hin as (r & -> & Hr).
        apply list_elem_of_fmap_2.
        apply list_elem_of_In, filter_In in Hr as [Hr _]. by apply list_elem_of_In.
Qed.

Lemma registered_token_reaches_its_user_only_witness :
  (Registry.storePushToken Cases.registry_up Scenarios.fresh_store "bob"
     "ExponentPushToken[alice-phone]" "android" "tablet-9").1 = true
  /\ {| token := "ExponentPushToken[alice-phone]"; platform := "android";
        device_id := "tablet-9"; device_token := None; token_type := None |}
       ∈ getUserPushTokens Scenarios.healthy
           (Registry.storePushToken Cases.registry_up Scenarios.fresh_store "bob"
              "ExponentPushToken[alice-phone]" "android" "tablet-9").2 "bob".
Proof.
  pose proof (registered_token_reaches_its_user_only Cases.registry_up
                Scenarios.healthy Scenarios.fresh_store "bob"
                "ExponentPushToken[alice-phone]" "android" "tablet-9"
                eq_refl eq_refl eq_refl) as (H1 & H2 & _).
  split; [exact H1 | exact H2].
Defined.

(** Bob registers the token that was Alice's: her list is empty
    afterwards. *)
Example token_changes_hands :
  getUserPushTokens Scenarios.healthy
    (Registry.storePushToken Cases.registry_up Scenarios.fresh_store "bob"
       "ExponentPushToken[alice-phone]" "android" "tablet-9").2 "alice" = [].
Proof. evaluate. Qed.

(** ** Reading the participants from the database *)

Lemma js_slice_page {A} (xs : list A) (page limit : Z) :
  1 <= page -> 1 <= limit ->
  ParticipantsDb.js_slice ((page - 1) * limit) ((page - 1) * limit + limit) xs
  = take (Z.to_nat limit) (drop (Z.to_nat ((page - 1) * limit)) xs).
Proof.
  intros Hp Hl. unfold ParticipantsDb.js_slice, lenZ.
  assert (Ho : 0 <= (page - 1) * limit) by nia.
  set (offset := (page - 1) * limit) in *.
  rewrite (proj2 (Z.ltb_ge offset 0)) by lia.
  rewrite (proj2 (Z.ltb_ge (offset + limit) 0)) by lia.
  destruct (Z.le_gt_cases (Z.of_nat (length xs)) offset) as [Hout | Hin].
  - rewrite Z.min_r, Z.min_r by lia.
    rewrite (drop_ge xs (Z.to_nat offset)) by lia.
    rewrite Z.sub_diag. cbn. by rewrite take_nil.
  - rewrite (Z.min_l offset) by lia.
    destruct (Z.le_gt_cases (offset + limit) (Z.of_nat (length xs))) as [Hfull | Hpart].
    + rewrite Z.min_l by lia. f_equal. lia.
    + rewrite Z.min_r by lia.
      rewrite !take_ge; [done | |]; rewrite length_drop; lia.
Qed.

Lemma pages_concat {A} (k : nat) (xs : list A) (n : nat) :
  mjoin ((fun i => take k (drop (i * k) xs)) <$> seq 0 n) = take (n * k) xs.
Proof.
  induction n as [| n IH]; [by rewrite take_0 |].
  rewrite seq_S, fmap_app, join_app, IH. cbn [fmap list_fmap mjoin list_join].
  rewrite app_nil_r, take_take_drop. f_equal. lia.
Qed.

Lemma ceiling_bounds (total limit : Z) :
  1 <= limit ->
  (- ((- total) / limit) - 1) * limit < total <= - ((- total) / limit) * limit.
Proof.
  intros Hl.
  pose proof (Z.div_mod (- total) limit ltac:(lia)) as Hd.
  pose proof (Z.mod_pos_bound (- total) limit ltac:(lia)) as Hm.
  nia.
Qed.

Lemma legacy_user_ids (eventId : string) (joined : nat -> Z) (offset : Z)
    (users : list ParticipantsDb.User) (event : ParticipantsDb.LegacyEvent)
    (ids : list string) :
  ParticipantsDb.p_user_id
    <$> imap (fun index userId =>
                {| ParticipantsDb.p_id :=
                     "legacy_" +:+ userId +:+ "_" +:+ pretty (offset + Z.of_nat index);
                   ParticipantsDb.p_event_id := eventId;
                   ParticipantsDb.p_user_id := userId;
                   ParticipantsDb.p_joined_at := joined index;
                   ParticipantsDb.p_photo_count := Some 0;
                   ParticipantsDb.p_last_activity := None;
                   ParticipantsDb.p_users :=
                     Some (ParticipantsDb.user_of users event userId) |}) ids
  = ids.
Proof.
  rewrite fmap_imap.
  rewrite (imap_ext _ (const id)); [| done].
  by rewrite imap_const, list_fmap_id.
Qed.

(** One page of an event kept in the legacy array. *)
Lemma legacy_page (db : ParticipantsDb.Db) (joined : nat -> Z) (generated : Z)
    (eventId : string) (everyone : list string) (page limit : Z) :
  ParticipantsDb.legacy_only db eventId everyone ->
  1 <= page -> 1 <= limit ->
  exists pg,
    ParticipantsDb.fetchParticipantsFromDatabase db joined generated eventId page limit
    = Ok pg
    /\ ParticipantsDb.p_user_id <$> ParticipantsDb.participants pg
       = take (Z.to_nat limit) (drop (Z.to_nat ((page - 1) * limit)) everyone)
    /\ ParticipantsDb.total_count pg = Some (lenZ everyone)
    /\ ParticipantsDb.total_pages pg = Some (- ((- lenZ everyone) / limit))
    /\ ParticipantsDb.has_more pg = Z.ltb (page * limit) (lenZ everyone).
Proof.
  intros [Hn (event & He & Hev) Hu] Hp Hl.
  unfold ParticipantsDb.fetchParticipantsFromDatabase.
  set (offset := (page - 1) * limit).
  assert (Hno : match ParticipantsDb.na_error
                        (ParticipantsDb.select_participants db eventId
                           (offset, offset + limit - 1)),
                      ParticipantsDb.na_data
                        (ParticipantsDb.select_participants db eventId
                           (offset, offset + limit - 1)) with
                | None, Some (row :: rows) => Some (row :: rows)
                | _, _ => None
                end = None).
  { destruct (Hn (offset, offset + limit - 1)) as [-> | ->];
      by destruct (ParticipantsDb.na_error _). }
  rewrite Hno, He. cbn [fmap option_fmap option_map mjoin option_join]. rewrite Hev.
  destruct everyone as [| first others].
  - eexists. split; [done |]. cbn. rewrite drop_nil, take_nil.
    repeat split. symmetry. apply Z.ltb_ge. unfold lenZ. cbn [length Z.of_nat]. nia.
  - destruct (Hu (ParticipantsDb.js_slice offset (offset + limit) (first :: others)))
      as [users ->].
    eexists. split; [done |].
    cbn [ParticipantsDb.participants ParticipantsDb.total_count
         ParticipantsDb.total_pages ParticipantsDb.has_more].
    rewrite legacy_user_ids. unfold offset. rewrite js_slice_page by done.
    unfold PhotoUrlCache.ceil_div. rewrite (proj2 (Z.eqb_neq limit 0)) by lia.
    repeat split. f_equal. lia.
Qed.

(** X14. For an event whose participants are only in the legacy array (the
    normalized table returns no row), page [page] of
    [fetchParticipantsFromDatabase] holds the user ids
    [slice((page-1)*limit, page*limit)] of the array in the array's order,
    reports the array's length and [ceil(length / limit)] pages, and sets
    [has_more] exactly on the pages before the last; the pages from the first
    to the last, put end to end, are the array. *)
Theorem legacy_pages_cover_the_array (db : ParticipantsDb.Db) (joined : nat -> Z)
    (generated : Z) (eventId : string) (everyone : list string) (limit : Z) :
  ParticipantsDb.legacy_only db eventId everyone ->
  1 <= limit ->
  let read page :=
    ParticipantsDb.fetchParticipantsFromDatabase db joined generated eventId page limit in
  let last := - ((- lenZ everyone) / limit) in
  (forall page, 1 <= page ->
     ParticipantsDb.user_ids (read page)
     = take (Z.to_nat limit) (drop (Z.to_nat ((page - 1) * limit)) everyone)
     /\ exists pg, read page = Ok pg
          /\ ParticipantsDb.total_count pg = Some (lenZ everyone)
          /\ ParticipantsDb.total_pages pg = Some last
          /\ (ParticipantsDb.has_more pg = true <-> page < last))
  /\ mjoin ((fun page => ParticipantsDb.user_ids (read page)) <$> seqZ 1 last)
     = everyone.
Proof.
  intros Hlegacy Hl read last.
  pose proof (ceiling_bounds (lenZ everyone) limit Hl) as Hceil. fold last in Hceil.
  assert (Hpage : forall page, 1 <= page ->
            ParticipantsDb.user_ids (read page)
            = take (Z.to_nat limit) (drop (Z.to_nat ((page - 1) * limit)) everyone)).
  { intros page Hp.
    destruct (legacy_page db joined generated eventId everyone page limit
                Hlegacy Hp Hl) as (pg & Hr & Hids & _).
    unfold read. by rewrite Hr. }
  split.
  - intros page Hp. split; [by apply Hpage |].
    destruct (legacy_page db joined generated eventId everyone page limit
                Hlegacy Hp Hl) as (pg & Hr & _ & Hc & Ht & Hm).
    exists pg. split; [done |]. split; [done |]. split; [done |].
    rewrite Hm, Z.ltb_lt. nia.
  - assert (H0 : 0 <= last) by (unfold lenZ in *; nia).
    unfold seqZ. rewrite <- list_fmap_compose.
    rewrite (list_fmap_ext _ (fun i => take (Z.to_nat limit)
                                         (drop (i * Z.to_nat limit) everyone))).
    + rewrite pages_concat. apply take_ge. unfold lenZ in *. nia.
    + intros i x _. cbn. rewrite Hpage by lia. do 2 f_equal. nia.
Qed.

Lemma legacy_pages_cover_the_array_witness :
  ParticipantsDb.user_ids
    (ParticipantsDb.fetchParticipantsFromDatabase Cases.legacy_party (fun _ => 0) 0
       "party" 2 2) = ["cat"]
  /\ mjoin ((fun page =>
               ParticipantsDb.user_ids
                 (ParticipantsDb.fetchParticipantsFromDatabase Cases.legacy_party
                    (fun _ => 0) 0 "party" page 2)) <$> seqZ 1 2)
     = ["ann"; "ben"; "cat"].
Proof.
  assert (Hlegacy : ParticipantsDb.legacy_only Cases.legacy_party "party"
                      ["ann"; "ben"; "cat"]).
  { split; [by left | by eexists | by eexists]. }
  pose proof (legacy_pages_cover_the_array Cases.legacy_party (fun _ => 0) 0 "party"
                ["ann"; "ben"; "cat"] 2 Hlegacy ltac:(lia)) as [Hpages Hall].
  split; [exact (proj1 (Hpages 2 ltac:(lia))) | exact Hall].
Defined.

(** The user that [users] does not know gets the name stored with the
    event, and the row its place in the whole array. *)
Example unknown_user_is_named_by_the_event :
  (fun pg => (ParticipantsDb.p_id <$> ParticipantsDb.participants pg,
              (fun p => ParticipantsDb.u_name <$> ParticipantsDb.p_users p)
                <$> ParticipantsDb.participants pg))
    <$> returned (ParticipantsDb.fetchParticipantsFromDatabase Cases.legacy_party
                    (fun _ => 0) 0 "party" 1 2)
  = Some (["legacy_ann_0"; "legacy_ben_1"], [Some (Some "Ann"); Some (Some "Benny")]).
Proof. evaluate. Qed.

(** ** Metadata of the participants *)

Lemma filter_length_le {A} (p : A -> bool) (xs : list A) :
  (length (List.filter p xs) <= length xs)%nat.
Proof.
  induction xs as [| x xs IH]; [done |].
  cbn [List.filter]. destruct (p x); cbn [length]; lia.
Qed.

Lemma filter_length_mono {A} (p q : A -> bool) (xs : list A) :
  (forall x, p x = true -> q x = true) ->
  (length (List.filter p xs) <= length (List.filter q xs))%nat.
Proof.
  intros Hpq. induction xs as [| x xs IH]; [done |].
  cbn [List.filter]. destruct (p x) eqn:Ep.
  - rewrite (Hpq x Ep). cbn [length]. lia.
  - destruct (q x); cbn [length]; lia.
Qed.

Lemma insert_by_photos_perm (x : ParticipantsDb.MetaRow)
    (sorted : list ParticipantsDb.MetaRow) :
  ParticipantsDb.insert_by_photos x sorted ≡ₚ x :: sorted.
Proof.
  induction sorted as [| y rest IH]; [done |].
  cbn [ParticipantsDb.insert_by_photos].
  destruct (Z.ltb _ _); [done |].
  rewrite IH. apply Permutation_swap.
Qed.

Lemma sort_from_perm (rows acc : list ParticipantsDb.MetaRow) :
  foldl (fun sorted x => ParticipantsDb.insert_by_photos x sorted) acc rows
  ≡ₚ acc ++ rows.
Proof.
  revert acc. induction rows as [| x rows IH]; intros acc.
  - by rewrite app_nil_r.
  - cbn [foldl]. rewrite IH, insert_by_photos_perm.
    cbn [app]. apply Permutation_middle.
Qed.

Lemma sort_by_photos_perm (rows : list ParticipantsDb.MetaRow) :
  ParticipantsDb.sort_by_photos rows ≡ₚ rows.
Proof. unfold ParticipantsDb.sort_by_photos. by rewrite sort_from_perm. Qed.

Lemma descending_cons (x : Z) (rest : list Z) :
  ParticipantsDb.descending (x :: rest) = true
  <-> (forall y, y ∈ rest -> y <= x) /\ ParticipantsDb.descending rest = true.
Proof.
  revert x. induction rest as [| y rest IH]; intros x.
  - split; [| done]. intros _. split; [| done]. intros y Hy. by apply elem_of_nil in Hy.
  - change (ParticipantsDb.descending (x :: y :: rest))
      with (Z.leb y x && ParticipantsDb.descending (y :: rest)).
    rewrite andb_true_iff, Z.leb_le. split.
    + intros [Hyx Hd]. split; [| done].
      intros z Hz. apply elem_of_cons in Hz as [-> | Hz]; [done |].
      apply IH in Hd as [Hall _]. specialize (Hall z Hz). lia.
    + intros [Hall Hd]. split; [| done]. apply Hall, list_elem_of_here.
Qed.

Lemma insert_by_photos_descending (x : ParticipantsDb.MetaRow)
    (sorted : list ParticipantsDb.MetaRow) :
  ParticipantsDb.descending (ParticipantsDb.photos_of <$> sorted) = true ->
  ParticipantsDb.descending
    (ParticipantsDb.photos_of <$> ParticipantsDb.insert_by_photos x sorted) = true.
Proof.
  induction sorted as [| y rest IH]; [done |].
  intros Hd. cbn [ParticipantsDb.insert_by_photos].
  destruct (Z.ltb _ _) eqn:Elt.
  - apply Z.ltb_lt in Elt. rewrite !fmap_cons. apply descending_cons.
    split; [| by rewrite <- fmap_cons].
    rewrite fmap_cons in Hd. apply descending_cons in Hd as [Hall _].
    intros z Hz. apply elem_of_cons in Hz as [-> | Hz]; [lia |].
    specialize (Hall z Hz). lia.
  - apply Z.ltb_ge in Elt. rewrite fmap_cons in *.
    apply descending_cons in Hd as [Hall Hd].
    apply descending_cons. split; [| by apply IH].
    intros z Hz. apply list_elem_of_fmap in Hz as (r & -> & Hr).
    rewrite insert_by_photos_perm in Hr.
    apply elem_of_cons in Hr as [-> | Hr]; [done |].
    apply Hall. by apply list_elem_of_fmap_2.
Qed.

Lemma sort_by_photos_descending (rows : list ParticipantsDb.MetaRow) :
  ParticipantsDb.descending
    (ParticipantsDb.photos_of <$> ParticipantsDb.sort_by_photos rows) = true.
Proof.
  unfold ParticipantsDb.sort_by_photos.
  assert (H : forall acc,
            ParticipantsDb.descending (ParticipantsDb.photos_of <$> acc) = true ->
            ParticipantsDb.descending
              (ParticipantsDb.photos_of
                 <$> foldl (fun sorted x => ParticipantsDb.insert_by_photos x sorted)
                       acc rows) = true).
  { induction rows as [| x rows IH]; intros acc Hacc; [done |].
    cbn [foldl]. by apply IH, insert_by_photos_descending. }
  by apply H.
Qed.

(** In a descending list the first [n] entries are at least the others. *)
Lemma descending_take_drop (n : nat) (counts : list Z) (a b : Z) :
  ParticipantsDb.descending counts = true ->
  a ∈ take n counts -> b ∈ drop n counts -> b <= a.
Proof.
  revert n. induction counts as [| x rest IH]; intros n Hd Ha Hb.
  - rewrite take_nil in Ha. by apply elem_of_nil in Ha.
  - apply descending_cons in Hd as [Hall Hd].
    destruct n as [| n]; [by apply elem_of_nil in Ha |].
    cbn [take drop] in Ha, Hb.
    apply elem_of_cons in Ha as [-> | Ha].
    + apply Hall. by apply (subseteq_drop n rest).
    + by apply (IH n).
Qed.

Lemma descending_take (n : nat) (counts : list Z) :
  ParticipantsDb.descending counts = true ->
  ParticipantsDb.descending (take n counts) = true.
Proof.
  revert n. induction counts as [| x rest IH]; intros n Hd; [by rewrite take_nil |].
  destruct n as [| n]; [done |].
  apply descending_cons in Hd as [Hall Hd].
  cbn [take]. apply descending_cons. split; [| by apply IH].
  intros y Hy. apply Hall. by apply (subseteq_take n rest).
Qed.

(** X15. In the metadata [generateNormalizedMetadata] computes from the
    rows of an event, the participants active today are among those active
    this week, who are among all participants; [top_contributors] lists at
    most five rows, each with a positive photo count, in non-increasing order
    of the counts, and no row left out of it has more photos than a row
    listed. *)
Theorem metadata_is_consistent (round_ratio : Z -> Z -> Z -> Z)
    (now generated : Z) (eventId : string) (rows : list ParticipantsDb.MetaRow) :
  let md :=
    ParticipantsDb.generateNormalizedMetadata round_ratio now generated eventId rows in
  let top := ParticipantsDb.md_top_contributors md in
  0 <= ParticipantsDb.md_active_today md
  /\ ParticipantsDb.md_active_today md <= ParticipantsDb.md_active_this_week md
  /\ ParticipantsDb.md_active_this_week md <= ParticipantsDb.md_total_count md
  /\ (length top <= 5)%nat
  /\ (forall c, c ∈ top ->
        exists n, ParticipantsDb.c_photo_count c = Some n /\ 0 < n)
  /\ ParticipantsDb.descending
       ((fun c => default 0 (ParticipantsDb.c_photo_count c)) <$> top) = true
  /\ (forall p n, p ∈ rows -> ParticipantsDb.m_photo_count p = Some n -> 0 < n ->
        {| ParticipantsDb.c_user_id := ParticipantsDb.m_user_id p;
           ParticipantsDb.c_photo_count := ParticipantsDb.m_photo_count p;
           ParticipantsDb.c_last_activity := ParticipantsDb.m_last_activity p |} ∈ top
        \/ (length top = 5%nat
            /\ forall c m, c ∈ top -> ParticipantsDb.c_photo_count c = Some m -> n <= m)).
Proof.
  intros md top. subst top md. unfold ParticipantsDb.generateNormalizedMetadata.
  cbn [ParticipantsDb.md_active_today ParticipantsDb.md_active_this_week
       ParticipantsDb.md_total_count ParticipantsDb.md_top_contributors].
  set (positive := fun p : ParticipantsDb.MetaRow =>
                     match ParticipantsDb.m_photo_count p with
                     | Some n => Z.ltb 0 n
                     | None => false
                     end).
  set (sorted := ParticipantsDb.sort_by_photos (List.filter positive rows)).
  set (contributor := fun p : ParticipantsDb.MetaRow =>
         {| ParticipantsDb.c_user_id := ParticipantsDb.m_user_id p;
            ParticipantsDb.c_photo_count := ParticipantsDb.m_photo_count p;
            ParticipantsDb.c_last_activity := ParticipantsDb.m_last_activity p |}).
  assert (Hsorted : forall p, p ∈ sorted <-> p ∈ rows /\ positive p = true).
  { intros p. unfold sorted. rewrite sort_by_photos_perm.
    rewrite list_elem_of_In, filter_In, <- list_elem_of_In. done. }
  assert (Hdesc : ParticipantsDb.descending (ParticipantsDb.photos_of <$> sorted) = true)
    by apply sort_by_photos_descending.
  split; [unfold lenZ; lia |].
  split.
  { unfold lenZ. apply inj_le. apply filter_length_mono.
    intros p. destruct (ParticipantsDb.m_last_activity p); [| done].
    rewrite !Z.ltb_lt. unfold ParticipantsDb.day. lia. }
  split; [unfold lenZ; apply inj_le, filter_length_le |].
  split; [rewrite length_fmap, length_take; lia |].
  split.
  { intros c Hc. apply list_elem_of_fmap in Hc as (p & -> & Hp).
    apply (subseteq_take 5 sorted) in Hp. apply Hsorted in Hp as [_ Hp].
    unfold positive in Hp. unfold contributor. cbn [ParticipantsDb.c_photo_count].
    destruct (ParticipantsDb.m_photo_count p) as [n |]; [| done].
    exists n. split; [done |]. by apply Z.ltb_lt. }
  split.
  { rewrite <- list_fmap_compose.
    rewrite (list_fmap_ext _ ParticipantsDb.photos_of (take 5 sorted)).
    - rewrite fmap_take. by apply descending_take.
    - intros i p _. cbn. unfold ParticipantsDb.photos_of.
      by destruct (ParticipantsDb.m_photo_count p). }
  intros p n Hp Hn Hpos.
  assert (Hin : p ∈ sorted).
  { apply Hsorted. split; [done |]. unfold positive. rewrite Hn. by apply Z.ltb_lt. }
  rewrite <- (take_drop 5 sorted) in Hin. apply elem_of_app in Hin as [Hin | Hout].
  - left. by apply (list_elem_of_fmap_2 contributor).
  - right. split.
    + rewrite length_fmap, length_take.
      assert (5 < length sorted \/ length sorted <= 5)%nat as [? | Hshort] by lia;
        [lia |].
      rewrite drop_ge in Hout by done. by apply elem_of_nil in Hout.
    + intros c m Hc Hm. apply list_elem_of_fmap in Hc as (q & -> & Hq).
      unfold contributor in Hm. cbn [ParticipantsDb.c_photo_count] in Hm.
      assert (Hle : ParticipantsDb.photos_of p <= ParticipantsDb.photos_of q).
      { apply (descending_take_drop 5 (ParticipantsDb.photos_of <$> sorted));
          [done | |].
        - rewrite <- fmap_take. by apply list_elem_of_fmap_2.
        - rewrite <- fmap_drop. by apply list_elem_of_fmap_2. }
      unfold ParticipantsDb.photos_of in Hle. by rewrite Hn, Hm in Hle.
Qed.

(** ** Invalidation *)

Lemma deleted_slots {P} (stringmatch : string -> string -> bool) (kv : Redis.Kv P)
    (now : Z) (pattern : string) :
  Redis.reachable kv = true ->
  Redis.slots (Invalidation.deleteCachePattern stringmatch kv now pattern).2
  = Redis.slots kv ∖ Invalidation.keys stringmatch kv now pattern.
Proof.
  intros Hr. unfold Invalidation.deleteCachePattern. rewrite Hr.
  destruct (Z.ltb _ _) eqn:El; [done |].
  apply Z.ltb_ge in El.
  rewrite (map_size_empty_inv (Invalidation.keys stringmatch kv now pattern))
    by lia.
  cbn [snd]. by rewrite map_difference_empty.
Qed.

Lemma deleted_reachable {P} (stringmatch : string -> string -> bool) (kv : Redis.Kv P)
    (now : Z) (pattern : string) :
  Redis.reachable (Invalidation.deleteCachePattern stringmatch kv now pattern).2
  = Redis.reachable kv.
Proof.
  unfold Invalidation.deleteCachePattern.
  destruct (Redis.reachable kv) eqn:Hr; [destruct (Z.ltb _ _) |]; cbn; congruence.
Qed.

(** A key that the pattern does not match keeps its slot. *)
Lemma deleted_unmatched {P} (stringmatch : string -> string -> bool)
    (kv : Redis.Kv P) (now : Z) (pattern key : string) :
  stringmatch pattern key = false ->
  Redis.slots (Invalidation.deleteCachePattern stringmatch kv now pattern).2 !! key
  = Redis.slots kv !! key.
Proof.
  intros Hm. destruct (Redis.reachable kv) eqn:Hr.
  - rewrite deleted_slots by done.
    destruct (Redis.slots kv !! key) as [s |] eqn:Es.
    + apply lookup_difference_Some. split; [done |].
      apply map_lookup_filter_None. right. intros s' _ [Hyes _].
      cbn in Hyes. congruence.
    + apply lookup_difference_None. by left.
  - unfold Invalidation.deleteCachePattern. by rewrite Hr.
Qed.

(** A key that the pattern matches holds nothing from then on. *)
Lemma deleted_matched {P} (stringmatch : string -> string -> bool)
    (kv : Redis.Kv P) (now later : Z) (pattern key : string) :
  Redis.reachable kv = true ->
  stringmatch pattern key = true ->
  now <= later ->
  Redis.live (Invalidation.deleteCachePattern stringmatch kv now pattern).2 later key
  = None.
Proof.
  intros Hr Hm Hl. unfold Redis.live. rewrite deleted_slots by done.
  destruct ((Redis.slots kv ∖ _) !! key) as [s |] eqn:Es; [| done].
  apply lookup_difference_Some in Es as [Hs Hno].
  apply map_lookup_filter_None in Hno as [Hno | Hno]; [congruence |].
  destruct (Z.ltb later (Redis.deadline s)) eqn:El; [| done].
  apply Z.ltb_lt in El. exfalso. apply (Hno s Hs). cbn. split; [done | lia].
Qed.

Lemma delete_each_unmatched {P} (stringmatch : string -> string -> bool)
    (now : Z) (key : string) (patterns : list string) (kv : Redis.Kv P) :
  (forall pattern, pattern ∈ patterns -> stringmatch pattern key = false) ->
  Redis.slots (Invalidation.delete_each stringmatch kv now patterns) !! key
  = Redis.slots kv !! key.
Proof.
  revert kv. induction patterns as [| pattern rest IH]; intros kv Hall; [done |].
  unfold Invalidation.delete_each. cbn [foldl].
  fold (Invalidation.delete_each stringmatch
          (Invalidation.deleteCachePattern stringmatch kv now pattern).2 now rest).
  rewrite IH.
  - apply deleted_unmatched, Hall, list_elem_of_here.
  - intros q Hq. by apply Hall, list_elem_of_further.
Qed.

Lemma delete_each_reachable {P} (stringmatch : string -> string -> bool)
    (now : Z) (patterns : list string) (kv : Redis.Kv P) :
  Redis.reachable (Invalidation.delete_each stringmatch kv now patterns)
  = Redis.reachable kv.
Proof.
  revert kv. induction patterns as [| pattern rest IH]; intros kv; [done |].
  unfold Invalidation.delete_each. cbn [foldl].
  fold (Invalidation.delete_each stringmatch
          (Invalidation.deleteCachePattern stringmatch kv now pattern).2 now rest).
  by rewrite IH, deleted_reachable.
Qed.

Lemma prefix_refl (a : string) : String.prefix a a = true.
Proof.
  induction a as [| c a IH]; [done |].
  cbn [String.prefix]. by destruct (ascii_dec c c).
Qed.

Lemma prefix_append_r (a b rest : string) :
  String.prefix a b = true -> String.prefix a (b +:+ rest) = true.
Proof.
  revert a. induction b as [| d b IH]; intros a H.
  - destruct a; [by destruct rest | done].
  - destruct a as [| c a]; [done |].
    change (String d b +:+ rest) with (String d (b +:+ rest)).
    cbn [String.prefix] in *. destruct (ascii_dec c d); [by apply IH | done].
Qed.

Lemma prefix_append_l (p a b : string) :
  String.prefix a b = true -> String.prefix (p +:+ a) (p +:+ b) = true.
Proof.
  intros H. induction p as [| c p IH]; [done |].
  change (String c p +:+ a) with (String c (p +:+ a)).
  change (String c p +:+ b) with (String c (p +:+ b)).
  cbn [String.prefix]. by destruct (ascii_dec c c).
Qed.

(** X16. Once [invalidateParticipantCache] has run for an event against a
    reachable store whose matcher lets [participants:<id>*] match every key
    that starts with [participants:<id>], no page of the event is answered
    from the cache, fresh or stale: a valid read returns what the database
    returns.  The same holds for every other event whose id starts with this
    event's id. *)
Theorem invalidated_event_is_read_from_the_database
    (stringmatch : string -> string -> bool)
    (fetch : string -> Z -> Z -> result ParticipantsCache.PageResult)
    (kv : Redis.Kv ParticipantsCache.Stored) (now : Z) (eventId : string) :
  (forall key, String.prefix (ParticipantsCache.PREFIX +:+ eventId) key = true ->
               stringmatch (ParticipantsCache.PREFIX +:+ eventId +:+ "*") key = true) ->
  Redis.reachable kv = true ->
  forall (other : string) (page limit later : Z),
    String.prefix eventId other = true ->
    other <> "" -> 1 <= page -> 1 <= limit <= 100 -> now <= later ->
    (ParticipantsCache.getEventParticipants fetch
       (Invalidation.invalidateParticipantCache stringmatch kv now eventId)
       later other page limit false).1
    = match fetch other page limit with
      | Ok res => Ok (ParticipantsCache.FromDatabase res)
      | Throw message => Throw message
      end.
Proof.
  intros Hglob Hr other page limit later Hpre Hne Hp Hl Hlater.
  unfold Invalidation.invalidateParticipantCache.
  set (kv' := (Invalidation.deleteCachePattern stringmatch kv now _).2).
  assert (Hgone : Redis.live kv' later (ParticipantsCache.cacheKey other page limit)
                  = None).
  { apply deleted_matched; [done | | done].
    apply Hglob. unfold ParticipantsCache.cacheKey.
    apply prefix_append_l, prefix_append_r, Hpre. }
  unfold ParticipantsCache.getEventParticipants.
  rewrite (proj2 (String.eqb_neq other "")) by done.
  rewrite (proj2 (Z.ltb_ge page 1)), (proj2 (Z.ltb_ge limit 1)),
    (proj2 (Z.ltb_ge 100 limit)) by lia.
  cbn [orb]. unfold Redis.getWithAge, Redis.getCachedData.
  rewrite Hgone. destruct (Redis.reachable kv'); by destruct (fetch other page limit).
Qed.

Lemma invalidated_event_is_read_from_the_database_witness :
  (exists entry,
     (ParticipantsCache.getEventParticipants Scenarios.failing_fetch
        Cases.warm_participants 1000 "event-3" 1 20 false).1
     = Ok (ParticipantsCache.FromCache entry))
  /\ (ParticipantsCache.getEventParticipants Scenarios.failing_fetch
        (Invalidation.invalidateParticipantCache Cases.literal_or_prefix
           Cases.warm_participants 500 "event-3")
        1000 "event-3" 1 20 false).1
     = match Scenarios.failing_fetch "event-3" 1 20 with
       | Ok res => Ok (ParticipantsCache.FromDatabase res)
       | Throw message => Throw message
       end.
Proof.
  split; [eexists; vm_compute; reflexivity |].
  assert (Hglob : forall key,
            String.prefix (ParticipantsCache.PREFIX +:+ "event-3") key = true ->
            Cases.literal_or_prefix (ParticipantsCache.PREFIX +:+ "event-3" +:+ "*") key
            = true).
  { intros key H.
    change (ParticipantsCache.PREFIX +:+ "event-3") with "participants:event-3" in H.
    change (ParticipantsCache.PREFIX +:+ "event-3" +:+ "*")
      with "participants:event-3*".
    do 20 (destruct key as [| ? key]; [discriminate H |];
           cbn [String.prefix] in H;
           match type of H with
           | context [ascii_dec ?a ?b] =>
               destruct (ascii_dec a b) as [<- | _]; [| discriminate H]
           end).
    reflexivity. }
  apply (invalidated_event_is_read_from_the_database Cases.literal_or_prefix
           Scenarios.failing_fetch Cases.warm_participants 500 "event-3" Hglob
           eq_refl "event-3" 1 20 1000 eq_refl);
    [discriminate | lia | lia | lia].
Defined.

Lemma event_key_lacks_url_prefix (eventId sortBy role moderation : string)
    (page limit : Z) :
  String.prefix PhotoUrlCache.PREFIX
    (PhotoUrlCache.cacheKey eventId sortBy role moderation page limit) = false.
Proof. done. Qed.

(** X17. [invalidateEventPhotoCache] called with a list of paths deletes
    nothing but keys that start with [photo_urls:] (the matcher of the store
    lets a pattern with this literal prefix match only such keys): an event
    page that was answered from the event cache before the call is answered
    from it after the call, with the same entry and so with the URLs of the
    invalidated paths. *)
Theorem path_invalidation_keeps_event_pages
    (stringmatch : string -> string -> bool) (env : PhotoUrlCache.Backend)
    (kv : Redis.Kv PhotoUrlCache.Stored) (now : Z) (eventId : string)
    (paths : list string) :
  (forall rest key, stringmatch (PhotoUrlCache.PREFIX +:+ rest) key = true ->
                    String.prefix PhotoUrlCache.PREFIX key = true) ->
  forall (later : Z) (event : string) (page limit : Z) (forceRefresh : bool)
         (expiresIn : Z) (userId : option string) (sortBy : string)
         (entry : Redis.WithAge PhotoUrlCache.Stored),
    PhotoUrlCache.response
      (PhotoUrlCache.getEventPhotoUrls env kv later event page limit forceRefresh
         expiresIn userId sortBy)
    = Ok (PhotoUrlCache.FromEventCache entry) ->
    PhotoUrlCache.response
      (PhotoUrlCache.getEventPhotoUrls env
         (Invalidation.invalidateEventPhotoCache stringmatch kv now eventId (Some paths))
         later event page limit forceRefresh expiresIn userId sortBy)
    = Ok (PhotoUrlCache.FromEventCache entry).
Proof.
  intros Hprefix later event page limit forceRefresh expiresIn userId sortBy entry.
  unfold Invalidation.invalidateEventPhotoCache.
  set (kv' := Invalidation.delete_each stringmatch kv now _).
  assert (Hsame : forall key,
            String.prefix PhotoUrlCache.PREFIX key = false ->
            Redis.getWithAge kv' later key = Redis.getWithAge kv later key).
  { intros key Hkey. apply getWithAge_same_slot.
    - apply delete_each_reachable.
    - apply delete_each_unmatched. intros pattern Hin.
      apply list_elem_of_fmap in Hin as (path & -> & _).
      destruct (stringmatch (PhotoUrlCache.url_key path) key) eqn:Em; [| done].
      apply Hprefix in Em. congruence. }
  unfold PhotoUrlCache.getEventPhotoUrls.
  destruct (PhotoUrlCache.select_event env event) as [ev | message]; [| done].
  rewrite Hsame by apply event_key_lacks_url_prefix.
  destruct forceRefresh.
  - intros H. exfalso. revert H.
    destruct (PhotoUrlCache.fetched _) as [[[| ph found] total] | m];
      [done | | done].
    destruct (List.filter _ _); [done |].
    by destruct (PhotoUrlCache.batchGenerateSignedUrls _ _ _ _ _ _ _ _) as [[?|?] ?].
  - destruct (Redis.getWithAge kv later _) as [cachedEventUrls |].
    + destruct (negb _ && negb _); [done |].
      intros H. exfalso. revert H.
      destruct (PhotoUrlCache.fetched _) as [[[| ph found] total] | m];
        [done | | done].
      destruct (List.filter _ _); [done |].
      by destruct (PhotoUrlCache.batchGenerateSignedUrls _ _ _ _ _ _ _ _) as [[?|?] ?].
    + intros H. exfalso. revert H.
      destruct (PhotoUrlCache.fetched _) as [[[| ph found] total] | m];
        [done | | done].
      destruct (List.filter _ _); [done |].
      by destruct (PhotoUrlCache.batchGenerateSignedUrls _ _ _ _ _ _ _ _) as [[?|?] ?].
Qed.

Lemma path_invalidation_keeps_event_pages_witness :
  exists entry,
    PhotoUrlCache.response
      (PhotoUrlCache.getEventPhotoUrls Scenarios.storage
         (Invalidation.invalidateEventPhotoCache Cases.literal_or_prefix
            Cases.warm_photos 1500 "event-3" (Some ["event-3/photo-1.jpg"]))
         2000 "event-3" 1 50 false 3600 None "most_liked")
    = Ok (PhotoUrlCache.FromEventCache entry)
    /\ (PhotoUrlCache.urls_of (Redis.body (Redis.aged entry)))
         ≫= (fun urls => urls !! "event-3/photo-1.jpg")
       = Some (Some "https://storage.example/sign/event-3/photo-1.jpg").
Proof.
  assert (Hprefix : forall rest key,
            Cases.literal_or_prefix (PhotoUrlCache.PREFIX +:+ rest) key = true ->
            String.prefix PhotoUrlCache.PREFIX key = true).
  { intros rest key H.
    change (PhotoUrlCache.PREFIX +:+ rest)
      with (String "p" (String "h" (String "o" (String "t" (String "o"
             (String "_" (String "u" (String "r" (String "l" (String "s"
               (String ":" rest))))))))))) in H.
    do 10 (cbn [Cases.literal_or_prefix] in H;
           destruct key as [| ? key]; [discriminate H |];
           apply andb_prop in H as [Hc H];
           apply Ascii.eqb_eq in Hc; subst).
    destruct rest as [| r rest]; cbn [Cases.literal_or_prefix] in H.
    - destruct (Ascii.eqb ":" "*") eqn:E; [discriminate E |].
      destruct key as [| d [| ? ?]]; try discriminate H.
      apply Ascii.eqb_eq in H. by subst.
    - destruct key as [| d key]; [discriminate H |].
      apply andb_prop in H as [Hc _]. apply Ascii.eqb_eq in Hc. subst. by destruct key. }
  eexists. split.
  - apply (path_invalidation_keeps_event_pages Cases.literal_or_prefix
             Scenarios.storage Cases.warm_photos 1500 "event-3"
             ["event-3/photo-1.jpg"] Hprefix 2000 "event-3" 1 50 false 3600 None
             "most_liked").
    vm_compute. reflexivity.
  - vm_compute. reflexivity.
Defined.

(** The signed URL of the invalidated path itself is gone from the URL
    cache. *)
Example invalidated_path_is_dropped :
  Redis.live Cases.warm_photos 2000 (PhotoUrlCache.url_key "event-3/photo-1.jpg")
  <> None
  /\ Redis.live
       (Invalidation.invalidateEventPhotoCache Cases.literal_or_prefix
          Cases.warm_photos 1500 "event-3" (Some ["event-3/photo-1.jpg"]))
       2000 (PhotoUrlCache.url_key "event-3/photo-1.jpg") = None.
Proof. split; [vm_compute; discriminate | evaluate]. Qed.

(** Deleting never brings a key back. *)
Lemma deleted_stays_dead {P} (stringmatch : string -> string -> bool)
    (kv : Redis.Kv P) (now later : Z) (pattern key : string) :
  Redis.live kv later key = None ->
  Redis.live (Invalidation.deleteCachePattern stringmatch kv now pattern).2 later key
  = None.
Proof.
  intros Hdead. destruct (Redis.reachable kv) eqn:Hr.
  - unfold Redis.live in *. rewrite deleted_slots by done.
    destruct ((Redis.slots kv ∖ _) !! key) as [s |] eqn:Es; [| done].
    apply lookup_difference_Some in Es as [Hs _]. by rewrite Hs in Hdead.
  - unfold Invalidation.deleteCachePattern. by rewrite Hr.
Qed.

(** X18. [invalidateEventPhotoCache] called without paths against a
    reachable store whose matcher lets [event_photos:<id>*] match every key
    that starts with [event_photos:<id>] drops every cached page of the
    event: from then on no read of the event is answered from the event
    cache, whichever page, sort order and reader.  The same holds for every
    other event whose id starts with this event's id. *)
Theorem full_invalidation_drops_event_pages
    (stringmatch : string -> string -> bool) (env : PhotoUrlCache.Backend)
    (kv : Redis.Kv PhotoUrlCache.Stored) (now : Z) (eventId : string) :
  (forall key,
     String.prefix (PhotoUrlCache.EVENT_PREFIX +:+ eventId) key = true ->
     stringmatch (PhotoUrlCache.EVENT_PREFIX +:+ eventId +:+ "*") key = true) ->
  Redis.reachable kv = true ->
  forall (other : string) (later page limit : Z) (forceRefresh : bool)
         (expiresIn : Z) (userId : option string) (sortBy : string),
    String.prefix eventId other = true -> now <= later ->
    PhotoUrlCache.cached
      <$> returned
            (PhotoUrlCache.response
               (PhotoUrlCache.getEventPhotoUrls env
                  (Invalidation.invalidateEventPhotoCache stringmatch kv now eventId None)
                  later other page limit forceRefresh expiresIn userId sortBy))
    <> Some true.
Proof.
  intros Hglob Hr other later page limit forceRefresh expiresIn userId sortBy
    Hpre Hlater.
  unfold Invalidation.invalidateEventPhotoCache, Invalidation.delete_each.
  cbn [foldl].
  set (kv' := (Invalidation.deleteCachePattern stringmatch
                 (Invalidation.deleteCachePattern stringmatch kv now _).2 now _).2).
  assert (Hgone : forall sort role moderation,
            Redis.getWithAge kv' later
              (PhotoUrlCache.cacheKey other sort role moderation page limit) = None).
  { intros sort role moderation.
    unfold Redis.getWithAge, Redis.getCachedData.
    replace (Redis.live kv' later _) with (@None (Redis.Cached PhotoUrlCache.Stored));
      [by destruct (Redis.reachable kv') |].
    symmetry. apply deleted_stays_dead, deleted_matched; [done | | done].
    apply Hglob. unfold PhotoUrlCache.cacheKey.
    apply prefix_append_l, prefix_append_r, Hpre. }
  unfold PhotoUrlCache.getEventPhotoUrls.
  destruct (PhotoUrlCache.select_event env other) as [ev | message]; [| done].
  rewrite Hgone.
  assert (Hmiss : (if forceRefresh
                   then @None (Redis.WithAge PhotoUrlCache.Stored) else None) = None)
    by (by destruct forceRefresh).
  rewrite Hmiss.
  destruct (PhotoUrlCache.fetched _) as [[[| ph found] total] | m];
    [done | | done].
  destruct (List.filter _ _); [done |].
  by destruct (PhotoUrlCache.batchGenerateSignedUrls _ _ _ _ _ _ _ _) as [[?|?] ?].
Qed.

Lemma full_invalidation_drops_event_pages_witness :
  PhotoUrlCache.cached
    <$> returned
          (PhotoUrlCache.response
             (PhotoUrlCache.getEventPhotoUrls Scenarios.storage Cases.warm_photos
                2000 "event-3" 1 50 false 3600 None "most_liked")) = Some true
  /\ PhotoUrlCache.cached
       <$> returned
             (PhotoUrlCache.response
                (PhotoUrlCache.getEventPhotoUrls Scenarios.storage
                   (Invalidation.invalidateEventPhotoCache Cases.literal_or_prefix
                      Cases.warm_photos 1500 "event-3" None)
                   2000 "event-3" 1 50 false 3600 None "most_liked"))
     <> Some true.
Proof.
  split; [vm_compute; reflexivity |].
  assert (Hglob : forall key,
            String.prefix (PhotoUrlCache.EVENT_PREFIX +:+ "event-3") key = true ->
            Cases.literal_or_prefix
              (PhotoUrlCache.EVENT_PREFIX +:+ "event-3" +:+ "*") key = true).
  { intros key H.
    change (PhotoUrlCache.EVENT_PREFIX +:+ "event-3") with "event_photos:event-3" in H.
    change (PhotoUrlCache.EVENT_PREFIX +:+ "event-3" +:+ "*")
      with "event_photos:event-3*".
    do 20 (destruct key as [| ? key]; [discriminate H |];
           cbn [String.prefix] in H;
           match type of H with
           | context [ascii_dec ?a ?b] =>
               destruct (ascii_dec a b) as [<- | _]; [| discriminate H]
           end).
    reflexivity. }
  apply (full_invalidation_drops_event_pages Cases.literal_or_prefix
           Scenarios.storage Cases.warm_photos 1500 "event-3" Hglob eq_refl
           "event-3" 2000 1 50 false 3600 None "most_liked" eq_refl).
  lia.
Defined.

(** ** The queue of notifications *)


Section QueueRun.

Variable p : Providers.
Variable b : Backend.
Variable update_throws : string -> Queue.Update -> option string.
Variable times : nat -> Queue.Times.

Hypothesis updates_go_through : forall id u, update_throws id u = None.



End QueueRun.



(** The three rows of the example: the first is sent, the second fails
    validation and is put back, the third fails on its third attempt. *)
Example queue_of_three :
  (fun e => (e.1, Queue.u_status e.2, Queue.u_error_message e.2,
             Queue.u_scheduled_for e.2))
    <$> Queue.updates
          (Queue.processNotificationQueue Scenarios.delivering_providers
             Scenarios.healthy Cases.updates_succeed Cases.queue_times
             (Ok {| Queue.sel_data := Some Cases.queued_rows;
                    Queue.sel_error := None |})
             ∅ Scenarios.fresh_store).2
  = [ ("q1", "processing", None, None);
      ("q1", "sent", None, None);
      ("q2", "processing", None, None);
      ("q2", "pending",
       Some "Missing required data for photo_liked: eventName, likeCount",
       Some 301012);
      ("q3", "processing", None, None);
      ("q3", "failed", Some "Missing required data for event_live: eventName",
       None) ].
Proof. evaluate. Qed.



(** ** Event reminders *)

Lemma remind_all (notify : Reminders.Event -> Z -> result unit) (minutes : Z)
    (evs : list Reminders.Event) :
  forall (acc : Reminders.Results) (made : list (Reminders.Event * Z)),
  exists final,
    foldl (Reminders.remind notify minutes) (acc, made) evs
    = (final, (made ++ ((fun e => (e, minutes)) <$> evs))%list)
    /\ Reminders.eventsChecked final = Reminders.eventsChecked acc
    /\ Reminders.remindersSent final + Reminders.errors final
       = Reminders.remindersSent acc + Reminders.errors acc + lenZ evs
    /\ Reminders.remindersSent acc <= Reminders.remindersSent final
    /\ Reminders.errors acc <= Reminders.errors final.
Proof.
  induction evs as [| e evs IH]; intros acc made.
  - exists acc. cbn. rewrite app_nil_r. unfold lenZ. cbn. repeat split; lia.
  - cbn [foldl Reminders.remind].
    destruct (IH (match notify e minutes with
                  | Ok _ => {| Reminders.remindersSent := Reminders.remindersSent acc + 1;
                               Reminders.eventsChecked := Reminders.eventsChecked acc;
                               Reminders.errors := Reminders.errors acc |}
                  | Throw _ => {| Reminders.remindersSent := Reminders.remindersSent acc;
                                  Reminders.eventsChecked := Reminders.eventsChecked acc;
                                  Reminders.errors := Reminders.errors acc + 1 |}
                  end) (made ++ [(e, minutes)])%list)
      as (final & Hrun & Hc & Hsum & Hs & He).
    exists final. rewrite Hrun, <- app_assoc. split; [done |].
    unfold lenZ in *. cbn [length].
    destruct (notify e minutes); cbn in *; repeat split; lia.
Qed.

Lemma select_window (db : Reminders.Db) (from to now minutes margin : Z) :
  (forall from to, Reminders.select_error db from to = None) ->
  from = now + (minutes - margin) * 60000 ->
  to = now + (minutes + margin) * 60000 ->
  Reminders.select_events db from to
  = (Some (Reminders.due db now minutes margin), None).
Proof.
  intros Hno -> ->. unfold Reminders.select_events, Reminders.due. by rewrite Hno.
Qed.

(** X21. A run of [sendEventReminders] whose queries do not fail handles
    the events that start an hour from now (five minutes either way), each
    once and in the order found, and looks at the events that start in a
    quarter of an hour (two minutes either way) only when there is none of
    the former: in a run that finds a one-hour event no fifteen-minute
    reminder is attempted.  The events checked are those handled, and each of
    them is counted either in [remindersSent] or in [errors], so that
    [remindersSent] counts the calls that did not throw, not the
    notifications sent. *)
Theorem hour_reminders_preempt_quarter_reminders
    (notify : Reminders.Event -> Z -> result unit) (db : Reminders.Db) (now : Z) :
  (forall from to, Reminders.select_error db from to = None) ->
  let out := Reminders.sendEventReminders notify db now in
  let handled :=
    match Reminders.due db now 60 5 with
    | [] => (fun e => (e, 15)) <$> Reminders.due db now 15 2
    | _ => (fun e => (e, 60)) <$> Reminders.due db now 60 5
    end in
  out.2 = handled
  /\ exists results,
       out.1 = Ok results
       /\ Reminders.eventsChecked results = lenZ handled
       /\ Reminders.remindersSent results + Reminders.errors results
          = Reminders.eventsChecked results
       /\ 0 <= Reminders.remindersSent results
       /\ 0 <= Reminders.errors results.
Proof.
  intros Hno out handled. subst out handled.
  unfold Reminders.sendEventReminders. cbv zeta.
  rewrite (select_window db _ _ now 60 5) by (done || lia).
  rewrite (select_window db _ _ now 15 2) by (done || lia).
  destruct (Reminders.due db now 60 5) as [| first others].
  - destruct (Reminders.due db now 15 2) as [| soon more].
    + split; [done |]. eexists. split; [done |]. cbn. unfold lenZ. cbn. lia.
    + destruct (remind_all notify 15 (soon :: more)
                  {| Reminders.remindersSent := 0;
                     Reminders.eventsChecked := lenZ (soon :: more);
                     Reminders.errors := 0 |} [])
        as (final & Hrun & Hc & Hsum & Hs & He).
      rewrite Hrun. split; [done |]. exists final. split; [done |].
      cbn [Reminders.remindersSent Reminders.eventsChecked Reminders.errors] in *.
      unfold lenZ in *. rewrite length_fmap. repeat split; lia.
  - destruct (remind_all notify 60 (first :: others)
                {| Reminders.remindersSent := 0;
                   Reminders.eventsChecked := lenZ (first :: others);
                   Reminders.errors := 0 |} [])
      as (final & Hrun & Hc & Hsum & Hs & He).
    rewrite Hrun. split; [done |]. exists final. split; [done |].
    cbn [Reminders.remindersSent Reminders.eventsChecked Reminders.errors] in *.
    unfold lenZ in *. rewrite length_fmap. repeat split; lia.
Qed.

Lemma hour_reminders_preempt_quarter_reminders_witness :
  (fun c => (Reminders.e_id c.1, c.2))
    <$> (Reminders.sendEventReminders (fun _ _ => Ok tt) Cases.evening 0).2
  = [("dinner", 60)].
Proof.
  rewrite (proj1 (hour_reminders_preempt_quarter_reminders (fun _ _ => Ok tt)
                    Cases.evening 0 (fun _ _ => eq_refl))).
  reflexivity.
Defined.

(** ** Notifications raised by database events *)

Lemma name_or_is_not_empty (name : option string) (fallback : string) :
  fallback <> "" -> String.eqb (Webhooks.name_or name fallback) "" = false.
Proof.
  intros Hf. unfold Webhooks.name_or.
  destruct name as [n |]; [destruct (String.eqb n "") eqn:E; [| done] |];
    by apply String.eqb_neq.
Qed.




(** The fiftieth photo of an event with twenty photos in the last hour
    raises both notifications. *)
Example fiftieth_photo :
  (fun r => match r with
            | Webhooks.ToUsers us type data => (us, type, get data "eventName")
            | Webhooks.ToUser u type data => ([u], type, get data "eventName")
            end)
    <$> Webhooks.handleNewPhoto Cases.uncounted_like 0 "event-3"
  = [ (["alice"; "bob"], "community_milestone", JStr "Event");
      (["alice"; "bob"], "peak_activity", JStr "Event") ].
Proof. evaluate. Qed.

(** X23. [handlePhotoLiked] makes at most one call of [sendNotification],
    to the owner of the photo, and the service accepts its payload exactly
    when the count of likes was read and is not zero.  When the count is
    [null] or zero the send stops at the validation: it returns
    [success: false] with the message naming [likeCount], makes no request to
    the store and calls no provider, so the owner is not notified of the
    like. *)
Theorem like_is_notified_only_with_its_count (p : Providers)
    (b : Backend) (clk : Clock) (rl : gmap string RateLimit) (st : Store)
    (db : Webhooks.Db) (photo_id : string) :
  let raised := Webhooks.handlePhotoLiked db photo_id in
  (length raised <= 1)%nat
  /\ forall r, r ∈ raised ->
       exists owner event data,
         Webhooks.select_photo db photo_id = Some (owner, event)
         /\ r = Webhooks.ToUser owner "photo_liked" data
         /\ (Webhooks.validates r = true
             <-> exists n, Webhooks.count_likes db photo_id = Some n /\ n <> 0)
         /\ (Webhooks.validates r = false ->
             sendNotification p b clk rl st owner "photo_liked" data
             = {| outcome := Failed "Missing required data for photo_liked: likeCount";
                  rateLimits := rl; store := st; calls := []; requests := [] |}).
Proof.
  intros raised. subst raised. unfold Webhooks.handlePhotoLiked.
  destruct (Webhooks.select_photo db photo_id) as [[owner event] |];
    [| split; [cbn; lia | intros r Hr; by apply elem_of_nil in Hr]].
  split; [cbn; lia |]. intros r Hr. apply list_elem_of_singleton in Hr as ->.
  unfold Webhooks.notifyPhotoLiked. eexists owner, event, _.
  split; [done |]. split; [done |].
  set (data := list_to_map _).
  assert (Hname : get data "eventName"
                  = JStr (Webhooks.name_or (Webhooks.event_name db event) "your event")).
  { unfold get, data. cbn [list_to_map foldr curry uncurry fst snd].
    by rewrite !lookup_insert_ne, lookup_insert_eq by done. }
  assert (Hcount : get data "likeCount"
                   = Webhooks.counted (Webhooks.count_likes db photo_id)).
  { unfold get, data. cbn [list_to_map foldr curry uncurry fst snd].
    by rewrite !lookup_insert_ne, lookup_insert_eq by done. }
  assert (Hmissing : Templates.missing_fields "photo_liked" data
                     = if truthy (Webhooks.counted (Webhooks.count_likes db photo_id))
                       then [] else ["likeCount"]).
  { unfold Templates.missing_fields.
    change (Templates.required "photo_liked") with ["eventName"; "likeCount"].
    cbn [List.filter]. rewrite Hname, Hcount. cbn [truthy].
    rewrite name_or_is_not_empty by done. cbn [negb].
    by destruct (truthy _). }
  unfold sendNotification, Webhooks.validates, Templates.validateNotificationData.
  rewrite Hmissing.
  destruct (Webhooks.count_likes db photo_id) as [n |]; cbn [Webhooks.counted truthy].
  - destruct (Z.eqb_spec n 0) as [-> | Hn]; cbn [negb].
    + split; [| done]. split; [done |]. by intros (m & [= <-] & Hm).
    + split; [| done]. split; [| done]. intros _. by exists n.
  - split; [| done]. split; [done |]. by intros (m & Hm & _).
Qed.

Lemma like_is_notified_only_with_its_count_witness :
  exists owner data,
    Webhooks.handlePhotoLiked Cases.uncounted_like "photo-1"
    = [Webhooks.ToUser owner "photo_liked" data]
    /\ outcome (sendNotification Scenarios.delivering_providers Scenarios.healthy
                  Scenarios.noon ∅ Scenarios.fresh_store owner "photo_liked" data)
       = Failed "Missing required data for photo_liked: likeCount".
Proof.
  destruct (like_is_notified_only_with_its_count Scenarios.delivering_providers
              Scenarios.healthy Scenarios.noon ∅ Scenarios.fresh_store
              Cases.uncounted_like "photo-1") as [_ H].
  destruct (H (Webhooks.notifyPhotoLiked "alice" "photo-1" "event-3" JNull
                 "your event") (list_elem_of_here _ _))
    as (owner & event & data & _ & Hr & Hiff & Hfail).
  exists owner, data. split; [by rewrite <- Hr |].
  rewrite Hfail; [reflexivity |].
  destruct (Webhooks.validates _) eqn:E; [| reflexivity].
  destruct (proj1 Hiff eq_refl) as (n & Hn & _). discriminate Hn.
Defined.
